(** * The file and folder menus of the publisher plugin

    A shallow embedding of [src/commands/file_menu.ts]: the functions that
    decide, for a file or a folder of the vault, which entries the context
    menu gets and what each entry does when it is clicked.

    The host's mutable objects ([Menu], [MenuItem]) live in a store; the code
    runs in a small state-and-exception monad over that store; every call to
    a collaborator (metadata cache, settings helpers, translation, the share
    operations, the repository chooser) is recorded, with its outcome, in a
    log.  Click handlers are the closures of the source, defunctionalised:
    one constructor per closure, holding the variables it captures.

    What is not in the source is not defined here.  The helpers the file
    imports are the fields of the class [Collaborators]: any function of the
    right type, returning or raising.  Of the host's menu API the file relies
    on three facts, which the store implements: [addItem] creates the item,
    appends it to the menu and then runs the callback on it; [setSubmenu]
    hangs a new, empty menu under the item and returns it; the setters change
    the one field they name.

    The file has six parts: the embedding; the vocabulary of the
    statements; lemmas on runs; what each function builds; the claims;
    further properties of the code; and both on a sample vault. *)

From stdpp Require Import base option list strings gmap.

Set Warnings "-register-all".

(** ** JavaScript values and strings *)

(** What a frontmatter key can hold once the YAML is parsed. *)
Inductive Value :=
| VNull
| VBool (b : bool)
| VNum (n : Z)
| VStr (s : string)
| VArr (l : list Value)
| VObj (fields : list (string * Value)).

(** ToBoolean: [null], [false], [0] and the empty string are falsy; arrays
    and objects are truthy, also when empty. *)
Definition truthy (v : Value) : bool :=
  match v with
  | VNull => false
  | VBool b => b
  | VNum n => negb (n =? 0)%Z
  | VStr s => negb (bool_decide (s = ""))
  | VArr _ => true
  | VObj _ => true
  end.

(** [FrontMatterCache]: a plain object from key to value. *)
Abbreviation Frontmatter := (gmap string Value).

(** The properties every plain object inherits from [Object.prototype]: a
    function each, [__proto__] the prototype itself; all of them truthy. *)
Definition objectPrototype : list string :=
  ["constructor"; "__defineGetter__"; "__defineSetter__"; "hasOwnProperty";
   "__lookupGetter__"; "__lookupSetter__"; "isPrototypeOf";
   "propertyIsEnumerable"; "toString"; "valueOf"; "__proto__"; "toLocaleString"].

Definition inherited (key : string) : bool :=
  existsb (String.eqb key) objectPrototype.

(** [frontmatter?.[key]] as a condition.  A missing frontmatter gives
    [undefined], which is falsy.  The frontmatter is a plain object: a key of
    its own gives its value, also when [Object.prototype] has the name; a key
    it does not have is looked up on [Object.prototype], where it finds a
    truthy value or [undefined]. *)
Definition truthy_at (frontmatter : option Frontmatter) (key : string) : bool :=
  match frontmatter with
  | None => false
  | Some fm =>
      match fm !! key with
      | Some v => truthy v
      | None => inherited key
      end
  end.

(** [s.replace(pat, rep)] with a string pattern: the first occurrence only. *)
Fixpoint str_replace (pat rep s : string) : string :=
  if String.prefix pat s
  then rep +:+ String.substring (String.length pat) (String.length s - String.length pat) s
  else match s with
       | EmptyString => EmptyString
       | String c s' => String c (str_replace pat rep s')
       end.

(** ** Settings *)

Record ShareAll := { enable : bool }.

(** [x.shareAll?.enable] as a condition. *)
Definition shareAll_enabled (o : option ShareAll) : bool :=
  from_option enable false o.

Module Repository.
(** The fields of [Repository] that this file reads. *)
Record t := {
  smartKey : string;
  shareKey : string;
  createShortcuts : bool;
  shareAll : option ShareAll;
}.
End Repository.

Module RepoFrontmatter.
(** The field of [RepoFrontmatter] that this file reads. *)
Record t := { repo : string }.
End RepoFrontmatter.

Module PluginSettings.
Record t := {
  shareKey : string;
  fileMenu : bool;
  shareAll : option ShareAll;
}.
End PluginSettings.

Record GitHubSettings := { otherRepo : list Repository.t }.

Record GitHubPublisherSettings := {
  github : GitHubSettings;
  plugin : PluginSettings.t;
}.

(** [getRepoFrontmatter] returns one record or an array of them. *)
Inductive RepoFrontmatterResult :=
| One (r : RepoFrontmatter.t)
| Many (l : list RepoFrontmatter.t).

(** [repoFrontmatter instanceof Array && repoFrontmatter.length > 1] *)
Definition isArrayLongerThanOne (r : RepoFrontmatterResult) : bool :=
  match r with
  | One _ => false
  | Many l => bool_decide (1 < length l)
  end.

(** [repoFrontmatter instanceof Array ? repoFrontmatter : [repoFrontmatter]] *)
Definition asArray (r : RepoFrontmatterResult) : list RepoFrontmatter.t :=
  match r with
  | One x => [x]
  | Many l => l
  end.

Record MonoRepoProperties := {
  mono_frontmatter : RepoFrontmatterResult;
  mono_repo : option Repository.t;
}.

(** ** Vault files *)

Record TFile := { file_path : string; basename : string }.
Record TFolder := { folder_path : string; name : string }.

(** What the file menu is opened on; [file instanceof TFile] is [isTFile]. *)
Inductive TAbstractFile :=
| AFile (f : TFile)
| AFolder (d : TFolder).

Definition isTFile (file : TAbstractFile) : bool :=
  match file with AFile _ => true | AFolder _ => false end.

(** [file.basename]: a folder has none. *)
Definition basenameOf (file : TAbstractFile) : option string :=
  match file with AFile f => Some (basename f) | AFolder _ => None end.

Record CachedMetadata := { frontmatter : option Frontmatter }.

(** [cache?.frontmatter] *)
Definition frontmatterIn (cache : option CachedMetadata) : option Frontmatter :=
  cache ≫= frontmatter.

(** ** Closures *)

(** The [onSubmit] callbacks handed to [ChooseRepoToRun]. *)
Inductive Callback :=
| SubmitFolder (folder : TFolder) (branchName : string)
| SubmitFile (branchName : string) (file : TAbstractFile) (fileName : string).

(** The [onClick] handlers, one constructor per closure of the source, with
    the variables the closure body reads. *)
Inductive Handler :=
| OnClickFolderDefault (folder : TFolder) (branchName : string)
| OnClickFolderOther (folder : TFolder) (branchName : string) (otherRepo : Repository.t)
| OnClickFolderChooser (folder : TFolder) (branchName : string)
| OnClickFolderSingle (folder : TFolder) (branchName : string)
| OnClickFileSingle (branchName : string) (file : TAbstractFile)
    (getSharedKey : option Repository.t) (fileName : string)
| OnClickFileDefault (branchName : string) (file : TAbstractFile) (fileName : string)
| OnClickFileOther (branchName : string) (file : TAbstractFile)
    (otherRepo : Repository.t) (fileName : string)
| OnClickFileFront (branchName : string) (file : TAbstractFile)
    (repo : option Repository.t) (fileName : string)
| OnClickFileChooser (repo : option Repository.t) (branchName : string)
    (file : TAbstractFile) (fileName : string).

(** ** The host's menu objects *)

Abbreviation menu_id := nat.
Abbreviation item_id := nat.

Record MenuItem := {
  title : option string;
  icon : option string;
  isLabel : bool;
  section : option string;
  callback : option Handler;
  submenu : option menu_id;
}.

Definition newMenuItem : MenuItem :=
  {| title := None; icon := None; isLabel := false; section := None;
     callback := None; submenu := None |}.

Inductive MenuEntry :=
| EItem (i : item_id)
| ESeparator.

(** ** Collaborators and the log of calls to them *)

Inductive Error :=
| TypeError (msg : string)
| Thrown (msg : string).

Inductive Result (A : Type) :=
| Ok (a : A)
| Err (e : Error).
Arguments Ok {A} a.
Arguments Err {A} e.

Inductive Publisher := GithubBranch (n : nat).
Inductive StatusBarItem := HTMLElement (n : nat).

Inductive Call :=
| CGetFileCache (file : TAbstractFile)
| CGetRepoSharedKey (settings : GitHubPublisherSettings)
    (frontmatter : option Frontmatter)
| CMultipleSharedKey (frontmatter : option Frontmatter)
    (settings : GitHubPublisherSettings)
| CIsShared (frontmatter : option Frontmatter) (settings : GitHubPublisherSettings)
    (file : TAbstractFile) (repo : option Repository.t)
| CGetRepoFrontmatter (settings : GitHubPublisherSettings)
    (repo : option Repository.t) (frontmatter : option Frontmatter)
| CDefaultRepo (settings : GitHubPublisherSettings)
| CGetTitleFieldForCommand (file : TAbstractFile) (frontmatter : option Frontmatter)
| CTranslate (key : string) (options : list (string * string))
| CReloadOctokit
| CAddStatusBarItem
| CGetSharedFileOfFolder (folder : TFolder) (repo : option Repository.t)
| CShareAllMarkedNotes (branchName : string) (monoRepo : MonoRepoProperties)
    (files : list TFile) (createGithubBranch : bool)
| CShareOneNote (branchName : string) (file : TAbstractFile)
    (repo : option Repository.t) (fileName : string)
| CChooseRepoToRun (keyToFind : option string) (branchName : string)
    (type : string) (fileName : option string) (onSubmit : Callback).

(** One log entry per collaborator call: it returned, or it raised. *)
Inductive Event :=
| Returned (c : Call)
| Raised (c : Call) (e : Error).

Definition isShare (c : Call) : bool :=
  match c with
  | CShareAllMarkedNotes _ _ _ _ | CShareOneNote _ _ _ _ => true
  | _ => false
  end.

Definition callOf (ev : Event) : Call :=
  match ev with Returned c => c | Raised c _ => c end.

Definition isReturned (ev : Event) : bool :=
  match ev with Returned _ => true | Raised _ _ => false end.

(** Everything this file imports or reaches through [plugin]: each may
    return or raise.  [toUpperCase] is the language's own. *)
Class Collaborators := {
  getFileCache : TAbstractFile -> Result (option CachedMetadata);
  getRepoSharedKey :
    GitHubPublisherSettings -> option Frontmatter -> Result (option Repository.t);
  multipleSharedKey :
    option Frontmatter -> GitHubPublisherSettings -> Result (list Repository.t);
  isShared :
    option Frontmatter -> GitHubPublisherSettings -> TAbstractFile ->
    option Repository.t -> Result bool;
  getRepoFrontmatter :
    GitHubPublisherSettings -> option Repository.t -> option Frontmatter ->
    Result RepoFrontmatterResult;
  defaultRepo : GitHubPublisherSettings -> Result Repository.t;
  getTitleFieldForCommand : TAbstractFile -> option Frontmatter -> Result string;
  i18next_t : string -> list (string * string) -> Result string;
  toUpperCase : string -> string;
  reloadOctokit : Result Publisher;
  addStatusBarItem : Result StatusBarItem;
  getSharedFileOfFolder :
    Publisher -> TFolder -> option Repository.t -> Result (list TFile);
  shareAllMarkedNotes :
    Publisher -> StatusBarItem -> string -> MonoRepoProperties -> list TFile ->
    bool -> Result unit;
  shareOneNote :
    string -> Publisher -> TAbstractFile -> option Repository.t -> string ->
    Result unit;
  chooseRepoToRun_open :
    option string -> string -> string -> option string -> Callback -> Result unit;
}.

(** ** The world and the monad *)

Record World := {
  settings : GitHubPublisherSettings;   (* plugin.settings *)
  isDesktop : bool;                     (* Platform.isDesktop *)
  menus : list (list MenuEntry);        (* the Menu objects *)
  items : list MenuItem;                (* the MenuItem objects *)
  log : list Event;
}.

Definition with_menus (f : list (list MenuEntry) -> list (list MenuEntry)) (w : World) : World :=
  {| settings := settings w; isDesktop := isDesktop w;
     menus := f (menus w); items := items w; log := log w |}.

Definition with_items (f : list MenuItem -> list MenuItem) (w : World) : World :=
  {| settings := settings w; isDesktop := isDesktop w;
     menus := menus w; items := f (items w); log := log w |}.

Definition with_log (f : list Event -> list Event) (w : World) : World :=
  {| settings := settings w; isDesktop := isDesktop w;
     menus := menus w; items := items w; log := f (log w) |}.

(** A computation changes the world and returns or raises; what it did to
    the world before raising stays done. *)
Definition M (A : Type) : Type := World -> World * Result A.

Definition ret {A} (a : A) : M A := fun w => (w, Ok a).

Definition bind {A B} (k : A -> M B) (m : M A) : M B :=
  fun w =>
    match m w with
    | (w', Ok a) => k a w'
    | (w', Err e) => (w', Err e)
    end.

Definition throw {A} (e : Error) : M A := fun w => (w, Err e).

#[global] Instance M_ret : MRet M := @ret.
#[global] Instance M_bind : MBind M := @bind.

Definition gets {A} (f : World -> A) : M A := fun w => (w, Ok (f w)).
Definition modify (f : World -> World) : M unit := fun w => (f w, Ok tt).

(** A call to a collaborator: logged, then its outcome. *)
Definition call {A} (c : Call) (r : Result A) : M A :=
  fun w =>
    match r with
    | Ok a => (with_log (fun l => l ++ [Returned c]) w, Ok a)
    | Err e => (with_log (fun l => l ++ [Raised c e]) w, Err e)
    end.

Fixpoint forEach {A} (l : list A) (f : A -> M unit) : M unit :=
  match l with
  | [] => mret tt
  | x :: l' => f x;; forEach l' f
  end.

(** ** The menu API of the host *)

Definition setItem (f : MenuItem -> MenuItem) (item : item_id) : M unit :=
  modify (with_items (alter f item)).

Definition setTitle (item : item_id) (s : string) : M unit :=
  setItem (fun it => {| title := Some s; icon := icon it; isLabel := isLabel it;
                        section := section it; callback := callback it;
                        submenu := submenu it |}) item.

Definition setIcon (item : item_id) (s : string) : M unit :=
  setItem (fun it => {| title := title it; icon := Some s; isLabel := isLabel it;
                        section := section it; callback := callback it;
                        submenu := submenu it |}) item.

Definition setIsLabel (item : item_id) (b : bool) : M unit :=
  setItem (fun it => {| title := title it; icon := icon it; isLabel := b;
                        section := section it; callback := callback it;
                        submenu := submenu it |}) item.

Definition setSection (item : item_id) (s : string) : M unit :=
  setItem (fun it => {| title := title it; icon := icon it; isLabel := isLabel it;
                        section := Some s; callback := callback it;
                        submenu := submenu it |}) item.

Definition onClick (item : item_id) (h : Handler) : M unit :=
  setItem (fun it => {| title := title it; icon := icon it; isLabel := isLabel it;
                        section := section it; callback := Some h;
                        submenu := submenu it |}) item.

(** [item.setSubmenu()]: a new empty menu, owned by the item. *)
Definition setSubmenu (item : item_id) : M menu_id :=
  sub ← gets (fun w => length (menus w));
  modify (with_menus (fun ms => ms ++ [[]]));;
  setItem (fun it => {| title := title it; icon := icon it; isLabel := isLabel it;
                        section := section it; callback := callback it;
                        submenu := Some sub |}) item;;
  mret sub.

Definition push (menu : menu_id) (e : MenuEntry) : M unit :=
  modify (with_menus (alter (fun es => es ++ [e]) menu)).

(** [menu.addItem(cb)]: the host creates the item, appends it to the menu
    and hands it to [cb], which may add to the same menu in turn. *)
Definition addItem (menu : menu_id) (cb : item_id -> M unit) : M unit :=
  item ← gets (fun w => length (items w));
  modify (with_items (fun l => l ++ [newMenuItem]));;
  push menu (EItem item);;
  cb item.

Definition addSeparator (menu : menu_id) : M unit := push menu ESeparator.

(** ** The source, function by function *)

Section FileMenu.
Context `{Collaborators}.

(** [i18next.t(key, options)] *)
Definition translate (key : string) (options : list (string * string)) : M string :=
  call (CTranslate key options) (i18next_t key options).

(** [plugin.app.metadataCache.getFileCache(file)] *)
Definition fileCache (file : TAbstractFile) : M (option CachedMetadata) :=
  call (CGetFileCache file) (getFileCache file).

(** [plugin.getTitleFieldForCommand(file, frontmatter).replace(".md", "")] *)
Definition titleField (file : TAbstractFile) (fm : option Frontmatter) : M string :=
  s ← call (CGetTitleFieldForCommand file fm) (getTitleFieldForCommand file fm);
  mret (str_replace ".md" "" s).

(** The title of an entry that publishes [doc] to the repository known
    as [smartKey]. *)
Definition titleOn (options : list (string * string)) : M string :=
  translate "commands.shareViewFiles.multiple.on" options.

(** [i18next.t("common.default").toUpperCase()] *)
Definition defaultSmartKey : M string :=
  d ← translate "common.default" [];
  mret (toUpperCase d).

(** [i18next.t("commands.shareViewFiles.multiple.on",
      {smartKey: i18next.t("common.default").toUpperCase(), doc: doc})] *)
Definition titleOnDefault (doc : string) : M string :=
  smartKey ← defaultSmartKey;
  titleOn [("smartKey", smartKey); ("doc", doc)].

(** [shareOneNote(branchName, await plugin.reloadOctokit(), file, repo, fileName)],
    up to the evaluation of [repo], which [repoArg] does after the
    publisher is there. *)
Definition shareOneNoteWith (branchName : string) (file : TAbstractFile)
    (repoArg : M (option Repository.t)) (fileName : string) : M unit :=
  publisher ← call CReloadOctokit reloadOctokit;
  repo ← repoArg;
  call (CShareOneNote branchName file repo fileName)
       (shareOneNote branchName publisher file repo fileName).

Definition shareFolderRepo (folder : TFolder) (branchName : string)
    (repo : option Repository.t) : M unit :=
  publisher ← call CReloadOctokit reloadOctokit;
  statusBarItems ← call CAddStatusBarItem addStatusBarItem;
  st ← gets settings;
  fm ← call (CGetRepoFrontmatter st repo None) (getRepoFrontmatter st repo None);
  let monoProperties := {| mono_frontmatter := fm; mono_repo := repo |} in
  files ← call (CGetSharedFileOfFolder folder repo)
               (getSharedFileOfFolder publisher folder repo);
  call (CShareAllMarkedNotes branchName monoProperties files true)
       (shareAllMarkedNotes publisher statusBarItems branchName monoProperties
          files true).

(** What the chooser runs once the user has picked [item]. *)
Definition runCallback (cb : Callback) (item : Repository.t) : M unit :=
  match cb with
  | SubmitFolder folder branchName =>
      shareFolderRepo folder branchName (Some item)
  | SubmitFile branchName file fileName =>
      shareOneNoteWith branchName file (mret (Some item)) fileName
  end.

(** [new ChooseRepoToRun(plugin.app, plugin, keyToFind, branchName, type,
    fileName, onSubmit).open()] *)
Definition chooseRepoToRun (keyToFind : option string) (branchName type : string)
    (fileName : option string) (onSubmit : Callback) : M unit :=
  call (CChooseRepoToRun keyToFind branchName type fileName onSubmit)
       (chooseRepoToRun_open keyToFind branchName type fileName onSubmit).

(** The body of each click handler. *)
Definition runHandler (h : Handler) : M unit :=
  match h with
  | OnClickFolderDefault folder branchName
  | OnClickFolderSingle folder branchName =>
      st ← gets settings;
      repo ← call (CGetRepoSharedKey st None) (getRepoSharedKey st None);
      shareFolderRepo folder branchName repo
  | OnClickFolderOther folder branchName otherRepo =>
      shareFolderRepo folder branchName (Some otherRepo)
  | OnClickFolderChooser folder branchName =>
      chooseRepoToRun None branchName "folder" None (SubmitFolder folder branchName)
  | OnClickFileSingle branchName file getSharedKey fileName =>
      shareOneNoteWith branchName file (mret getSharedKey) fileName
  | OnClickFileDefault branchName file fileName =>
      shareOneNoteWith branchName file
        (st ← gets settings;
         d ← call (CDefaultRepo st) (defaultRepo st);
         mret (Some d))
        fileName
  | OnClickFileOther branchName file otherRepo fileName =>
      shareOneNoteWith branchName file (mret (Some otherRepo)) fileName
  | OnClickFileFront branchName file repo fileName =>
      shareOneNoteWith branchName file (mret repo) fileName
  | OnClickFileChooser repo branchName file fileName =>
      chooseRepoToRun (Repository.shareKey <$> repo) branchName "file"
        (basenameOf file) (SubmitFile branchName file fileName)
  end.

(** The user clicks an item: the host runs its handler, if it has one. *)
Definition click (item : item_id) : M unit :=
  it ← gets (fun w => items w !! item);
  match it ≫= callback with
  | Some h => runHandler h
  | None => mret tt
  end.

(** [item.setTitle(title).setIcon(icon).onClick(handler)] *)
Definition setTitleIconOnClick (item : item_id) (title icon : string)
    (handler : Handler) : M unit :=
  setTitle item title;;
  setIcon item icon;;
  onClick item handler.

Definition addSubMenuCommandsFolder (item : item_id) (folder : TFolder)
    (branchName : string) (originalMenu : menu_id) : M menu_id :=
  desktop ← gets isDesktop;
  subMenu ← (if desktop : bool then setSubmenu item else mret originalMenu);
  addItem subMenu (fun subItem =>
    title ← titleOnDefault (name folder);
    setTitleIconOnClick subItem title "folder-up"
      (OnClickFolderDefault folder branchName));;
  st ← gets settings;
  let activatedRepoCommands :=
    List.filter Repository.createShortcuts (otherRepo (github st)) in
  (if bool_decide (0 < length activatedRepoCommands)
   then forEach activatedRepoCommands (fun otherRepo =>
          addItem subMenu (fun item =>
            title ← titleOn [("smartKey", toUpperCase (Repository.smartKey otherRepo));
                             ("doc", name folder)];
            setTitleIconOnClick item title "folder-up"
              (OnClickFolderOther folder branchName otherRepo)))
   else mret tt);;
  addItem subMenu (fun subItem =>
    title ← translate "commands.shareViewFiles.multiple.other" [];
    setTitleIconOnClick subItem title "folder-symlink"
      (OnClickFolderChooser folder branchName));;
  mret subMenu.

Definition subMenuCommandsFile (item : item_id) (file : TAbstractFile)
    (branchName : string) (repo : option Repository.t) (originalMenu : menu_id)
    : M menu_id :=
  cache ← fileCache file;
  let frontmatter := frontmatterIn cache in
  fileName ← titleField file frontmatter;
  desktop ← gets isDesktop;
  subMenu ← (if desktop : bool then setSubmenu item else mret originalMenu);
  st ← gets settings;
  repoFrontmatter ← call (CGetRepoFrontmatter st repo frontmatter)
                         (getRepoFrontmatter st repo frontmatter);
  let repoFrontmatter := asArray repoFrontmatter in
  let shareKey := PluginSettings.shareKey (plugin st) in
  (if (bool_decide (Repository.shareKey <$> repo = Some shareKey)
       || truthy_at frontmatter shareKey)
      && (negb (truthy_at frontmatter "repo")
          || negb (truthy_at frontmatter "multipleRepo"))
   then addItem subMenu (fun subItem =>
          title ← titleOnDefault fileName;
          setTitleIconOnClick subItem title "file-up"
            (OnClickFileDefault branchName file fileName))
   else mret tt);;
  let activatedRepoCommands :=
    List.filter Repository.createShortcuts (otherRepo (github st)) in
  (if bool_decide (0 < length activatedRepoCommands)
   then forEach activatedRepoCommands (fun otherRepo =>
          if bool_decide (Some (Repository.shareKey otherRepo)
                          = Repository.shareKey <$> repo)
             || truthy_at frontmatter (Repository.shareKey otherRepo)
          then addItem subMenu (fun item =>
                 title ← titleOn [("smartKey", toUpperCase (Repository.smartKey otherRepo));
                                  ("doc", fileName)];
                 setTitleIconOnClick item title "file-up"
                   (OnClickFileOther branchName file otherRepo fileName))
          else mret tt)
   else mret tt);;
  (if bool_decide (1 < length repoFrontmatter)
   then forEach repoFrontmatter (fun repoFront =>
          addItem subMenu (fun item =>
            title ← titleOn [("smartKey", toUpperCase (RepoFrontmatter.repo repoFront));
                             ("doc", fileName)];
            setTitleIconOnClick item title "file-up"
              (OnClickFileFront branchName file repo fileName)))
   else mret tt);;
  addItem subMenu (fun subItem =>
    title ← translate "commands.shareViewFiles.multiple.other" [];
    setTitleIconOnClick subItem title "file-input"
      (OnClickFileChooser repo branchName file fileName));;
  mret subMenu.

(** [file instanceof TFile ? getFileCache(file)!.frontmatter : undefined]:
    reading [.frontmatter] of [null] raises a TypeError. *)
Definition frontmatterOf (file : TAbstractFile) : M (option Frontmatter) :=
  if isTFile file
  then cache ← fileCache file;
       match cache with
       | Some c => mret (frontmatter c)
       | None => throw (TypeError "Cannot read properties of null (reading 'frontmatter')")
       end
  else mret None.

(** The target of the single entry of a file (the reassignments of
    [getSharedKey] before the item is titled). *)
Definition singleTarget (st : GitHubPublisherSettings)
    (frontmatter : option Frontmatter) (getSharedKey : option Repository.t)
    : M (option Repository.t) :=
  let shareKey := PluginSettings.shareKey (plugin st) in
  if negb (bool_decide (is_Some frontmatter)) || negb (truthy_at frontmatter shareKey)
  then match List.find (fun repo => shareAll_enabled (Repository.shareAll repo))
               (otherRepo (github st)) with
       | Some otherRepo => mret (Some otherRepo)
       | None =>
           if shareAll_enabled (PluginSettings.shareAll (plugin st))
           then d ← call (CDefaultRepo st) (defaultRepo st); mret (Some d)
           else mret getSharedKey
       end
  else if truthy_at frontmatter shareKey
       then d ← call (CDefaultRepo st) (defaultRepo st); mret (Some d)
       else mret getSharedKey.

(** [getSharedKey?.smartKey.toUpperCase() || i18next.t("common.default").toUpperCase()] *)
Definition smartKeyOf (getSharedKey : option Repository.t) : M string :=
  match getSharedKey with
  | Some r =>
      let s := toUpperCase (Repository.smartKey r) in
      if bool_decide (s = "") then defaultSmartKey else mret s
  | None => defaultSmartKey
  end.

Definition addMenuFile (file : TAbstractFile) (branchName : string)
    (menu : menu_id) : M unit :=
  frontmatter ← frontmatterOf file;
  st ← gets settings;
  getSharedKey ← call (CGetRepoSharedKey st frontmatter)
                      (getRepoSharedKey st frontmatter);
  allKeysFromFile ← call (CMultipleSharedKey frontmatter st)
                         (multipleSharedKey frontmatter st);
  shared ← call (CIsShared frontmatter st file getSharedKey)
                (isShared frontmatter st file getSharedKey);
  if shared && PluginSettings.fileMenu (plugin st)
  then
    repoFrontmatter ← call (CGetRepoFrontmatter st getSharedKey frontmatter)
                           (getRepoFrontmatter st getSharedKey frontmatter);
    addItem menu (fun item =>
      if bool_decide (1 < length allKeysFromFile)
         || isArrayLongerThanOne repoFrontmatter
      then
        desktop ← gets isDesktop;
        (if desktop : bool
         then setTitle item "Github Publisher";; setIcon item "upload-cloud"
         else addSeparator menu;; setIsLabel item true);;
        subMenuCommandsFile item file branchName getSharedKey menu;;
        mret tt
      else
        cache ← fileCache file;
        fileName ← titleField file (frontmatterIn cache);
        getSharedKey ← singleTarget st frontmatter getSharedKey;
        smartKey ← smartKeyOf getSharedKey;
        title ← titleOn [("doc", fileName); ("smartKey", smartKey)];
        setTitleIconOnClick item title "file-up"
          (OnClickFileSingle branchName file getSharedKey fileName))
  else mret tt.

Definition addMenuFolder (menu : menu_id) (folder : TFolder)
    (branchName : string) : M unit :=
  addItem menu (fun item =>
    st ← gets settings;
    let areTheyMultipleRepo := bool_decide (0 < length (otherRepo (github st))) in
    if areTheyMultipleRepo
    then
      desktop ← gets isDesktop;
      (if desktop : bool
       then setTitle item "Github Publisher";; setIcon item "upload-cloud"
       else addSeparator menu;; setIsLabel item true);;
      addSubMenuCommandsFolder item folder branchName menu;;
      mret tt
    else
      setSection item "action";;
      title ← titleOnDefault (name folder);
      setTitleIconOnClick item title "folder-up"
        (OnClickFolderSingle folder branchName)).

End FileMenu.

(** * Vocabulary of the specification *)

(** ** Reading a menu back *)

(** The entries of a menu, in order. *)
Definition entriesOf (w : World) (menu : menu_id) : list MenuEntry :=
  default [] (menus w !! menu).

Definition itemOf (w : World) (e : MenuEntry) : option MenuItem :=
  match e with
  | EItem i => items w !! i
  | ESeparator => None
  end.

(** What a click on the entry runs: nothing for a separator or an item
    without handler. *)
Definition handlerOf (w : World) (e : MenuEntry) : option Handler :=
  itemOf w e ≫= callback.

Definition titleOf (w : World) (e : MenuEntry) : option string :=
  itemOf w e ≫= title.

(** An item as [setTitle(..).setIcon(..).onClick(..)] leaves a new one. *)
Definition actionItem (title icon : string) (h : Handler) : MenuItem :=
  {| title := Some title; icon := Some icon; isLabel := false; section := None;
     callback := Some h; submenu := None |}.

(** The single entry of a folder: an action item in the section "action". *)
Definition sectionItem (section title icon : string) (h : Handler) : MenuItem :=
  {| title := Some title; icon := Some icon; isLabel := false;
     section := Some section; callback := Some h; submenu := None |}.

(** The item under which the desktop hangs the submenu. *)
Definition parentItem : MenuItem :=
  {| title := Some "Github Publisher"; icon := Some "upload-cloud"; isLabel := false;
     section := None; callback := None; submenu := None |}.

(** The item that other platforms turn into a label. *)
Definition labelItem : MenuItem :=
  {| title := None; icon := None; isLabel := true; section := None;
     callback := None; submenu := None |}.

Definition withSubmenu (sub : menu_id) (it : MenuItem) : MenuItem :=
  {| title := title it; icon := icon it; isLabel := isLabel it;
     section := section it; callback := callback it; submenu := Some sub |}.

(** Some item of the store has a submenu. *)
Definition HasNestedMenu (w : World) : Prop :=
  Exists (fun it => is_Some (submenu it)) (items w).

(** ** What a run does to the world

    Whatever the collaborators answer, a run only appends to the log, leaves
    the settings and the platform alone, keeps every item and only appends
    to menus.  The calls it logs all returned, except possibly the last one:
    when a call raises, the run stops there with that error. *)

Record Grows (w w' : World) : Prop := {
  grows_settings : settings w' = settings w;
  grows_desktop : isDesktop w' = isDesktop w;
  grows_items : length (items w) <= length (items w');
  grows_menus : forall m es, menus w !! m = Some es ->
                exists es', menus w' !! m = Some (es ++ es');
}.

(** The calls logged by a run and how it ended: [allowed] holds of every
    call made, [local] of the errors the code itself may raise. *)
Definition Outcome {A} (allowed : Call -> Prop) (local : Error -> Prop)
    (evs : list Event) (r : Result A) : Prop :=
  Forall (fun ev => allowed (callOf ev)) evs /\
  match r with
  | Ok _ => Forall (fun ev => isReturned ev = true) evs
  | Err e =>
      exists done_,
        Forall (fun ev => isReturned ev = true) done_ /\
        ((exists c, evs = done_ ++ [Raised c e]) \/ (evs = done_ /\ local e))
  end.

Definition Inv {A} (allowed : Call -> Prop) (local : Error -> Prop) (m : M A) : Prop :=
  forall w, exists evs,
    log (m w).1 = log w ++ evs /\ Outcome allowed local evs (m w).2 /\ Grows w (m w).1.

(** The calls menu construction may make: anything but a share. *)
Definition notShare (c : Call) : Prop := isShare c = false.

Definition noError (e : Error) : Prop := False.

(** The one error the code raises itself: [.frontmatter] read on [null]. *)
Definition nullFrontmatter (e : Error) : Prop :=
  e = TypeError "Cannot read properties of null (reading 'frontmatter')".

(** No [try], no [catch]: the calls a run logs all returned, except that the
    last one may have raised, and then the run ends with that very error; a
    run that ends with an error no call raised ends with one of [local];
    what the world held before the run is still there. *)
Definition Propagates {A} (local : Error -> Prop) (m : M A) : Prop :=
  Inv (fun _ => True) local m.

(** The repository a share call is made for. *)
Definition shareTarget (c : Call) : option (option Repository.t) :=
  match c with
  | CShareOneNote _ _ repo _ => Some repo
  | CShareAllMarkedNotes _ monoRepo _ _ => Some (mono_repo monoRepo)
  | _ => None
  end.

(** [c] is no share, or a share for the repository [resolved] holds. *)
Definition SharesToResolved (resolved : option (option Repository.t)) (c : Call)
    : Prop :=
  match shareTarget c with
  | Some repo => resolved = Some repo
  | None => True
  end.

(** The calls [m] logs from [w] on are [evs]. *)
Definition logged {A} (m : M A) (w : World) (evs : list Event) : Prop :=
  log (m w).1 = log w ++ evs.

(** Whatever the world and the collaborators' answers, [m] calls neither
    [shareOneNote] nor [shareAllMarkedNotes]. *)
Definition NeverShares {A} (m : M A) : Prop :=
  forall w, exists evs,
    logged m w evs /\ Forall (fun ev => isShare (callOf ev) = false) evs.

(** Every share [m] makes from [w] on is for [resolved]. *)
Definition SharesOnlyTo {A} (resolved : option (option Repository.t)) (m : M A)
    (w : World) : Prop :=
  exists evs,
    logged m w evs /\ Forall (fun ev => SharesToResolved resolved (callOf ev)) evs.

(** A computation that only talks to collaborators. *)
Definition LogOnly {A} (m : M A) : Prop :=
  forall w w' r, m w = (w', r) -> exists evs, w' = with_log (fun l => l ++ evs) w.

(** Two worlds that differ by their logs at most. *)
Record SameHeap (w w' : World) : Prop := {
  same_settings : settings w' = settings w;
  same_desktop : isDesktop w' = isDesktop w;
  same_items : items w' = items w;
  same_menus : menus w' = menus w;
}.

(** ** What the menu functions leave in the store *)

(** [w'] is [w] with the items [new] created and appended, in order, to the
    menu [sub]. *)
Record Adds (sub : menu_id) (new : list MenuItem) (w w' : World) : Prop := {
  adds_settings : settings w' = settings w;
  adds_desktop : isDesktop w' = isDesktop w;
  adds_items : items w' = items w ++ new;
  adds_menus :
    menus w' =
    alter (fun es => es ++ map EItem (seq (length (items w)) (length new))) sub (menus w);
}.

(** An action item whose title is what [mk] evaluated to. *)
Definition ActionItem (mk : M string) (icon : string) (h : Handler)
    (it : MenuItem) : Prop :=
  exists title w1 w2, mk w1 = (w2, Ok title) /\ it = actionItem title icon h.

(** [Platform.isDesktop ? item.setSubmenu() : originalMenu]: on the desktop
    a new empty menu hung under [item], elsewhere the menu itself. *)
Record OpensSubmenu (item : item_id) (originalMenu sub : menu_id)
    (w w0 : World) : Prop := {
  opens_settings : settings w0 = settings w;
  opens_desktop : isDesktop w0 = isDesktop w;
  opens_sub : sub = if isDesktop w then length (menus w) else originalMenu;
  opens_menus : menus w0 = if isDesktop w then menus w ++ [[]] else menus w;
  opens_items :
    items w0 = if isDesktop w then alter (withSubmenu sub) item (items w) else items w;
}.

(** The world once [menu.addItem] has created the item and its callback has
    gone through the platform test: on the desktop the item is titled, on
    other platforms a separator follows it and it is a label. *)
Record ParentAdded (menu : menu_id) (w wP : World) : Prop := {
  pa_settings : settings wP = settings w;
  pa_desktop : isDesktop wP = isDesktop w;
  pa_items :
    items wP = items w ++ [if isDesktop w then parentItem else labelItem];
  pa_menus :
    menus wP =
    alter (fun es => es ++ EItem (length (items w))
                           :: (if isDesktop w then [] else [ESeparator]))
          menu (menus w);
}.

(** What the original menu, the submenu and the store show once the choices
    [new] have been added under a parent entry. *)
Record Presented (menu : menu_id) (new : list MenuItem) (w w' : World) : Prop := {
  pr_item :
    items w' !! length (items w)
    = Some (if isDesktop w
            then withSubmenu (length (menus w)) parentItem
            else labelItem);
  pr_new :
    Forall2 (fun e it => itemOf w' e = Some it)
            (map EItem (seq (S (length (items w))) (length new))) new;
  pr_menu :
    entriesOf w' menu
    = entriesOf w menu
      ++ EItem (length (items w))
         :: (if isDesktop w then []
             else ESeparator :: map EItem (seq (S (length (items w))) (length new)));
  pr_sub :
    if isDesktop w
    then entriesOf w' (length (menus w))
         = map EItem (seq (S (length (items w))) (length new))
    else length (menus w') = length (menus w);
}.

(** The choices hang under a parent entry of [menu], in a menu of their own. *)
Record Nested (menu : menu_id) (choices : list MenuEntry) (w w' : World) : Prop := {
  nested_parent :
    items w' !! length (items w)
    = Some (withSubmenu (length (menus w)) parentItem);
  nested_menu : entriesOf w' menu = entriesOf w menu ++ [EItem (length (items w))];
  nested_sub : entriesOf w' (length (menus w)) = choices;
}.

(** The choices follow, in [menu] itself, a label and a separator. *)
Record Inline (menu : menu_id) (choices : list MenuEntry) (w w' : World) : Prop := {
  inline_label : items w' !! length (items w) = Some labelItem;
  inline_menu :
    entriesOf w' menu
    = entriesOf w menu ++ EItem (length (items w)) :: ESeparator :: choices;
  inline_menus : length (menus w') = length (menus w);
}.

Definition PresentsChoices (menu : menu_id) (choices : list MenuEntry)
    (w w' : World) : Prop :=
  if isDesktop w then Nested menu choices w w' else Inline menu choices w w'.

(** [menu] got exactly one entry, an item without submenu whose click runs
    [h]; nothing else was created. *)
Record SingleAction (menu : menu_id) (h : Handler) (w w' : World) : Prop := {
  single_menu : entriesOf w' menu = entriesOf w menu ++ [EItem (length (items w))];
  single_items : length (items w') = S (length (items w));
  single_menus : length (menus w') = length (menus w);
  single_handler : handlerOf w' (EItem (length (items w))) = Some h;
  single_flat : items w' !! length (items w) ≫= submenu = None;
}.

Section Vocabulary.
Context `{Collaborators}.

(** The last entry of both submenus. *)
Definition ChooserItem (icon : string) (h : Handler) (it : MenuItem) : Prop :=
  ActionItem (translate "commands.shareViewFiles.multiple.other" []) icon h it.

(** The entries [addSubMenuCommandsFolder] appends, in order. *)
Definition FolderChoices (st : GitHubPublisherSettings) (folder : TFolder)
    (branchName : string) (new : list MenuItem) : Prop :=
  exists d others c,
    new = d :: others ++ [c] /\
    ActionItem (titleOnDefault (name folder)) "folder-up"
      (OnClickFolderDefault folder branchName) d /\
    Forall2 (fun otherRepo it =>
               ActionItem
                 (titleOn [("smartKey", toUpperCase (Repository.smartKey otherRepo));
                           ("doc", name folder)])
                 "folder-up" (OnClickFolderOther folder branchName otherRepo) it)
            (List.filter Repository.createShortcuts (otherRepo (github st))) others /\
    ChooserItem "folder-symlink" (OnClickFolderChooser folder branchName) c.

(** Whether the file submenu offers the default repository. *)
Definition defaultShown (st : GitHubPublisherSettings)
    (repo : option Repository.t) (frontmatter : option Frontmatter) : bool :=
  (bool_decide (Repository.shareKey <$> repo = Some (PluginSettings.shareKey (plugin st)))
   || truthy_at frontmatter (PluginSettings.shareKey (plugin st)))
  && (negb (truthy_at frontmatter "repo")
      || negb (truthy_at frontmatter "multipleRepo")).

(** Whether the file submenu offers [otherRepo], a repository with
    shortcuts. *)
Definition otherShown (repo : option Repository.t)
    (frontmatter : option Frontmatter) (otherRepo : Repository.t) : bool :=
  bool_decide (Some (Repository.shareKey otherRepo) = Repository.shareKey <$> repo)
  || truthy_at frontmatter (Repository.shareKey otherRepo).

(** The entries [subMenuCommandsFile] appends, in order. *)
Definition FileChoices (st : GitHubPublisherSettings)
    (frontmatter : option Frontmatter) (repo : option Repository.t)
    (repoFrontmatter : list RepoFrontmatter.t) (file : TAbstractFile)
    (branchName fileName : string) (new : list MenuItem) : Prop :=
  exists ds others fronts c,
    new = ds ++ others ++ fronts ++ [c] /\
    Forall2 (fun (_ : unit) it =>
               ActionItem (titleOnDefault fileName) "file-up"
                 (OnClickFileDefault branchName file fileName) it)
            (if defaultShown st repo frontmatter then [tt] else []) ds /\
    Forall2 (fun otherRepo it =>
               ActionItem
                 (titleOn [("smartKey", toUpperCase (Repository.smartKey otherRepo));
                           ("doc", fileName)])
                 "file-up" (OnClickFileOther branchName file otherRepo fileName) it)
            (List.filter (otherShown repo frontmatter)
               (List.filter Repository.createShortcuts (otherRepo (github st))))
            others /\
    Forall2 (fun repoFront it =>
               ActionItem
                 (titleOn [("smartKey", toUpperCase (RepoFrontmatter.repo repoFront));
                           ("doc", fileName)])
                 "file-up" (OnClickFileFront branchName file repo fileName) it)
            (if bool_decide (1 < length repoFrontmatter) then repoFrontmatter else [])
            fronts /\
    ChooserItem "file-input" (OnClickFileChooser repo branchName file fileName) c.

(** The frontmatter [addMenuFile] starts from, as an outcome. *)
Definition frontmatterResult (file : TAbstractFile) : Result (option Frontmatter) :=
  if isTFile file
  then match getFileCache file with
       | Ok (Some c) => Ok (frontmatter c)
       | Ok None => Err (TypeError "Cannot read properties of null (reading 'frontmatter')")
       | Err e => Err e
       end
  else Ok None.

(** The repository the single entry of a file ends up with, given the one
    [getRepoSharedKey] resolved. *)
Definition SingleTarget (st : GitHubPublisherSettings)
    (frontmatter : option Frontmatter) (getSharedKey target : option Repository.t)
    : Prop :=
  if negb (bool_decide (is_Some frontmatter))
     || negb (truthy_at frontmatter (PluginSettings.shareKey (plugin st)))
  then match List.find (fun repo => shareAll_enabled (Repository.shareAll repo))
               (otherRepo (github st)) with
       | Some otherRepo => target = Some otherRepo
       | None =>
           if shareAll_enabled (PluginSettings.shareAll (plugin st))
           then exists d, defaultRepo st = Ok d /\ target = Some d
           else target = getSharedKey
       end
  else exists d, defaultRepo st = Ok d /\ target = Some d.

(** [allKeysFromFile.length > 1 ||
     (repoFrontmatter instanceof Array && repoFrontmatter.length > 1)] *)
Definition severalChoices (allKeysFromFile : list Repository.t)
    (repoFrontmatter : RepoFrontmatterResult) : bool :=
  bool_decide (1 < length allKeysFromFile) || isArrayLongerThanOne repoFrontmatter.

(** What [addMenuFile] looked up before it touched the menu. *)
Record Resolved (st : GitHubPublisherSettings) (file : TAbstractFile)
    (fm : option Frontmatter) (key : option Repository.t)
    (allKeys : list Repository.t) (shared : bool) : Prop := {
  res_frontmatter : frontmatterResult file = Ok fm;
  res_key : getRepoSharedKey st fm = Ok key;
  res_allKeys : multipleSharedKey fm st = Ok allKeys;
  res_shared : isShared fm st file key = Ok shared;
}.

(** The single entry of a file, as the store holds it. *)
Definition SingleEntry (st : GitHubPublisherSettings) (file : TAbstractFile)
    (branchName : string) (fm : option Frontmatter) (key : option Repository.t)
    (menu : menu_id) (w w' : World) : Prop :=
  exists cache title target t,
    getFileCache file = Ok cache /\
    getTitleFieldForCommand file (frontmatterIn cache) = Ok title /\
    SingleTarget st fm key target /\
    items w' = items w ++ [actionItem t "file-up"
                             (OnClickFileSingle branchName file target
                                (str_replace ".md" "" title))] /\
    menus w' = alter (fun es => es ++ [EItem (length (items w))]) menu (menus w).

(** The choices of a file, under their parent entry. *)
Definition ChoiceEntries (st : GitHubPublisherSettings) (file : TAbstractFile)
    (branchName : string) (key : option Repository.t)
    (menu : menu_id) (w w' : World) : Prop :=
  exists cache title rf new,
    getFileCache file = Ok cache /\
    getTitleFieldForCommand file (frontmatterIn cache) = Ok title /\
    getRepoFrontmatter st key (frontmatterIn cache) = Ok rf /\
    Presented menu new w w' /\
    FileChoices st (frontmatterIn cache) key (asArray rf) file branchName
      (str_replace ".md" "" title) new.

(** The file is determined to be shared: [isShared] said so of its
    frontmatter and of the repository [getRepoSharedKey] resolved. *)
Definition DeterminedShared (st : GitHubPublisherSettings) (file : TAbstractFile)
    : Prop :=
  exists fm key,
    frontmatterResult file = Ok fm /\
    getRepoSharedKey st fm = Ok key /\
    isShared fm st file key = Ok true.

(** What a click on each entry of the folder submenu runs, in order. *)
Definition folderHandlers (st : GitHubPublisherSettings) (folder : TFolder)
    (branchName : string) : list Handler :=
  OnClickFolderDefault folder branchName
  :: map (OnClickFolderOther folder branchName)
       (List.filter Repository.createShortcuts (otherRepo (github st)))
  ++ [OnClickFolderChooser folder branchName].

(** What a click on each entry of the file submenu runs, in order. *)
Definition fileHandlers (st : GitHubPublisherSettings)
    (frontmatter : option Frontmatter) (repo : option Repository.t)
    (repoFrontmatter : list RepoFrontmatter.t) (file : TAbstractFile)
    (branchName fileName : string) : list Handler :=
  (if defaultShown st repo frontmatter
   then [OnClickFileDefault branchName file fileName] else [])
  ++ map (fun otherRepo => OnClickFileOther branchName file otherRepo fileName)
       (List.filter (otherShown repo frontmatter)
          (List.filter Repository.createShortcuts (otherRepo (github st))))
  ++ map (fun _ => OnClickFileFront branchName file repo fileName)
       (if bool_decide (1 < length repoFrontmatter) then repoFrontmatter else [])
  ++ [OnClickFileChooser repo branchName file fileName].

(** [hs] are the handlers of the file submenu of [file]: [fileHandlers] at
    what [subMenuCommandsFile] looks up, the cached frontmatter, the title
    without ".md" and the repository frontmatter as an array. *)
Definition FileSubmenuHandlers (st : GitHubPublisherSettings) (file : TAbstractFile)
    (branchName : string) (repo : option Repository.t) (hs : list Handler) : Prop :=
  exists cache title rf,
    getFileCache file = Ok cache /\
    getTitleFieldForCommand file (frontmatterIn cache) = Ok title /\
    getRepoFrontmatter st repo (frontmatterIn cache) = Ok rf /\
    hs = fileHandlers st (frontmatterIn cache) repo (asArray rf) file branchName
           (str_replace ".md" "" title).

(** The two functions that build a submenu. *)
Inductive Submenu :=
| FolderSubmenu (folder : TFolder)
| FileSubmenu (file : TAbstractFile) (repo : option Repository.t).

Definition buildSubmenu (s : Submenu) (item : item_id) (branchName : string)
    (originalMenu : menu_id) : M menu_id :=
  match s with
  | FolderSubmenu folder =>
      addSubMenuCommandsFolder item folder branchName originalMenu
  | FileSubmenu file repo =>
      subMenuCommandsFile item file branchName repo originalMenu
  end.

(** [c] is the call that opens the chooser of the submenu [s]:
    [new ChooseRepoToRun(app, plugin, null, branchName, "folder", null, cb).open()]
    for a folder, [new ChooseRepoToRun(app, plugin, repo?.shareKey, branchName,
    "file", file.basename, cb).open()] for a file, with the callback that
    shares the folder or the file to the repository picked. *)
Definition chooserOpened (s : Submenu) (branchName : string) (c : Call) : Prop :=
  match s with
  | FolderSubmenu folder =>
      c = CChooseRepoToRun None branchName "folder" None
            (SubmitFolder folder branchName)
  | FileSubmenu file repo =>
      exists fileName,
        c = CChooseRepoToRun (Repository.shareKey <$> repo) branchName "file"
              (basenameOf file) (SubmitFile branchName file fileName)
  end.

(** A click on the entry [e] makes one call, and it opens the chooser. *)
Definition ClickOpensChooser (s : Submenu) (branchName : string) (w : World)
    (e : MenuEntry) : Prop :=
  exists i ev,
    e = EItem i /\
    log (click i w).1 = log w ++ [ev] /\
    chooserOpened s branchName (callOf ev).

(** The handler resolves the default repository with [getRepoSharedKey] when
    it fires, and shares the folder to it. *)
Definition SharesFolderToDefault (h : Handler) (folder : TFolder)
    (branchName : string) : Prop :=
  runHandler h
  = (st ← gets settings;
     repo ← call (CGetRepoSharedKey st None) (getRepoSharedKey st None);
     shareFolderRepo folder branchName repo).

(** The frontmatter is absent or lacks the share key: the code tests
    [!frontmatter || !frontmatter[shareKey]], so a falsy value counts as no
    key. *)
Definition lacksShareKey (st : GitHubPublisherSettings)
    (frontmatter : option Frontmatter) : Prop :=
  frontmatter = None \/
  truthy_at frontmatter (PluginSettings.shareKey (plugin st)) = false.

(** The frontmatter has the share key, with a truthy value. *)
Definition hasShareKey (st : GitHubPublisherSettings)
    (frontmatter : option Frontmatter) : Prop :=
  truthy_at frontmatter (PluginSettings.shareKey (plugin st)) = true.

(** The first other repository with [shareAll] enabled. *)
Definition firstShareAll (st : GitHubPublisherSettings) : option Repository.t :=
  List.find (fun repo => shareAll_enabled (Repository.shareAll repo))
    (otherRepo (github st)).

(** The target of the single entry, case by case; [key] is the repository
    [getRepoSharedKey] resolved. *)
Record TargetResolved (st : GitHubPublisherSettings)
    (frontmatter : option Frontmatter) (key target : option Repository.t) : Prop := {
  target_other :
    lacksShareKey st frontmatter ->
    forall r, firstShareAll st = Some r -> target = Some r;
  target_shareAll :
    lacksShareKey st frontmatter -> firstShareAll st = None ->
    shareAll_enabled (PluginSettings.shareAll (plugin st)) = true ->
    exists d, defaultRepo st = Ok d /\ target = Some d;
  target_unchanged :
    lacksShareKey st frontmatter -> firstShareAll st = None ->
    shareAll_enabled (PluginSettings.shareAll (plugin st)) = false ->
    target = key;
  target_default :
    hasShareKey st frontmatter ->
    exists d, defaultRepo st = Ok d /\ target = Some d;
}.

(** The repository a handler shares to when it fires under the settings
    [st]: the one its closure captured, or the default one it resolves then.
    The chooser entries share nothing themselves. *)
Definition firedTarget (st : GitHubPublisherSettings) (h : Handler)
    : option (option Repository.t) :=
  match h with
  | OnClickFolderDefault _ _ | OnClickFolderSingle _ _ =>
      match getRepoSharedKey st None with Ok repo => Some repo | Err _ => None end
  | OnClickFolderOther _ _ otherRepo => Some (Some otherRepo)
  | OnClickFileSingle _ _ getSharedKey _ => Some getSharedKey
  | OnClickFileDefault _ _ _ =>
      match defaultRepo st with Ok d => Some (Some d) | Err _ => None end
  | OnClickFileOther _ _ otherRepo _ => Some (Some otherRepo)
  | OnClickFileFront _ _ repo _ => Some repo
  | OnClickFolderChooser _ _ | OnClickFileChooser _ _ _ _ => None
  end.

End Vocabulary.

(** ** Vocabulary of the further properties *)

(** The calls that only look something up: the metadata cache, the helpers
    over the settings and the frontmatter, the title field, a translation. *)
Definition isLookup (c : Call) : bool :=
  match c with
  | CGetFileCache _ | CGetRepoSharedKey _ _ | CMultipleSharedKey _ _
  | CIsShared _ _ _ _ | CGetRepoFrontmatter _ _ _ | CDefaultRepo _
  | CGetTitleFieldForCommand _ _ | CTranslate _ _ => true
  | _ => false
  end.

Definition isTranslate (c : Call) : bool :=
  match c with CTranslate _ _ => true | _ => false end.

(** Every call [m] makes, whatever the world and the answers, passes [p]. *)
Definition CallsOnly {A} (p : Call -> bool) (m : M A) : Prop :=
  forall w, exists evs,
    logged m w evs /\ Forall (fun ev => p (callOf ev) = true) evs.

(** The share calls among the logged ones, in order. *)
Definition shareCalls (evs : list Event) : list Call :=
  List.filter isShare (map callOf evs).

(** A run that returned, seen from outside: the store is as it was, and the
    shares it made are for [targets], in this order. *)
Record SharedTo (targets : list (option Repository.t)) (w w' : World) : Prop := {
  shared_heap : SameHeap w w';
  shared_calls :
    exists evs,
      log w' = log w ++ evs /\
      Forall (fun ev => isReturned ev = true) evs /\
      map shareTarget (shareCalls evs) = map Some targets;
}.

(** [w'] differs from [w] by what was appended to [menu] and by what was
    created: every item and every other menu of [w] is in [w'] as it was. *)
Record OnlyAppendsTo (menu : menu_id) (w w' : World) : Prop := {
  appends_settings : settings w' = settings w;
  appends_desktop : isDesktop w' = isDesktop w;
  appends_items : exists new, items w' = items w ++ new;
  appends_menu : exists es, entriesOf w' menu = entriesOf w menu ++ es;
  appends_others :
    forall j, j < length (menus w) -> j <> menu -> menus w' !! j = menus w !! j;
}.

(** The items below [n] and the menus below [k], [menu] apart, are in [w']
    as in [w]. *)
Record Untouched (n k : nat) (menu : menu_id) (w w' : World) : Prop := {
  untouched_items : take n (items w') = take n (items w);
  untouched_length : n <= length (items w');
  untouched_menus_length : k <= length (menus w');
  untouched_menus :
    forall j, j < k -> j <> menu -> menus w' !! j = menus w !! j;
}.

(** From a world with at least [n] items and [k] menus, [m] leaves the items
    below [n] and the menus below [k] alone, [menu] apart; what it returns
    satisfies [Q]. *)
Definition Keeps {A} (n k : nat) (menu : menu_id) (Q : A -> Prop) (m : M A) : Prop :=
  forall w, n <= length (items w) -> k <= length (menus w) ->
    Untouched n k menu w (m w).1 /\ (forall a, (m w).2 = Ok a -> Q a).

Section FurtherVocabulary.
Context `{Collaborators}.

(** [i18next.t("commands.shareViewFiles.multiple.on",
      {smartKey: smartKey.toUpperCase(), doc: doc})], as an outcome. *)
Definition titleOnResult (smartKey doc : string) : Result string :=
  i18next_t "commands.shareViewFiles.multiple.on"
    [("smartKey", toUpperCase smartKey); ("doc", doc)].

(** The same with [i18next.t("common.default")] for the smart key. *)
Definition titleOnDefaultResult (doc : string) : Result string :=
  match i18next_t "common.default" [] with
  | Ok d => titleOnResult d doc
  | Err e => Err e
  end.

(** What an entry is to show: the translation its title comes from, its
    icon, and what a click on it runs. *)
Record EntrySpec := {
  spec_title : Result string;
  spec_icon : string;
  spec_handler : Handler;
}.

(** The entry [e] of the store is the action item that [spec] describes. *)
Definition Shows (w : World) (e : MenuEntry) (spec : EntrySpec) : Prop :=
  exists t,
    spec_title spec = Ok t /\
    itemOf w e = Some (actionItem t (spec_icon spec) (spec_handler spec)).

(** The item is the action item that [spec] describes. *)
Definition Fits (it : MenuItem) (spec : EntrySpec) : Prop :=
  exists t, spec_title spec = Ok t /\
            it = actionItem t (spec_icon spec) (spec_handler spec).

(** The entries of the folder submenu, in order. *)
Definition folderEntries (st : GitHubPublisherSettings) (folder : TFolder)
    (branchName : string) : list EntrySpec :=
  {| spec_title := titleOnDefaultResult (name folder); spec_icon := "folder-up";
     spec_handler := OnClickFolderDefault folder branchName |}
  :: map (fun otherRepo =>
            {| spec_title := titleOnResult (Repository.smartKey otherRepo) (name folder);
               spec_icon := "folder-up";
               spec_handler := OnClickFolderOther folder branchName otherRepo |})
       (List.filter Repository.createShortcuts (otherRepo (github st)))
  ++ [{| spec_title := i18next_t "commands.shareViewFiles.multiple.other" [];
         spec_icon := "folder-symlink";
         spec_handler := OnClickFolderChooser folder branchName |}].

(** The entries of the file submenu, in order. *)
Definition fileEntries (st : GitHubPublisherSettings)
    (frontmatter : option Frontmatter) (repo : option Repository.t)
    (repoFrontmatter : list RepoFrontmatter.t) (file : TAbstractFile)
    (branchName fileName : string) : list EntrySpec :=
  (if defaultShown st repo frontmatter
   then [{| spec_title := titleOnDefaultResult fileName; spec_icon := "file-up";
            spec_handler := OnClickFileDefault branchName file fileName |}]
   else [])
  ++ map (fun otherRepo =>
            {| spec_title := titleOnResult (Repository.smartKey otherRepo) fileName;
               spec_icon := "file-up";
               spec_handler := OnClickFileOther branchName file otherRepo fileName |})
       (List.filter (otherShown repo frontmatter)
          (List.filter Repository.createShortcuts (otherRepo (github st))))
  ++ map (fun repoFront =>
            {| spec_title := titleOnResult (RepoFrontmatter.repo repoFront) fileName;
               spec_icon := "file-up";
               spec_handler := OnClickFileFront branchName file repo fileName |})
       (if bool_decide (1 < length repoFrontmatter) then repoFrontmatter else [])
  ++ [{| spec_title := i18next_t "commands.shareViewFiles.multiple.other" [];
         spec_icon := "file-input";
         spec_handler := OnClickFileChooser repo branchName file fileName |}].

(** The smart key in the title of the single entry of a file:
    [target?.smartKey.toUpperCase() || i18next.t("common.default").toUpperCase()]. *)
Definition smartKeyResult (target : option Repository.t) : Result string :=
  match target with
  | Some r =>
      if bool_decide (toUpperCase (Repository.smartKey r) = "")
      then match i18next_t "common.default" [] with
           | Ok d => Ok (toUpperCase d)
           | Err e => Err e
           end
      else Ok (toUpperCase (Repository.smartKey r))
  | None =>
      match i18next_t "common.default" [] with
      | Ok d => Ok (toUpperCase d)
      | Err e => Err e
      end
  end.

(** The file is no [TFile], or the cache has an entry for it (or raises). *)
Definition cacheEntryPresent (file : TAbstractFile) : Prop :=
  isTFile file = true -> getFileCache file <> Ok None.

End FurtherVocabulary.

(** No call but the last raised and no call but the last is a share: every
    call before the last one returned and is no share; the last one, when it
    is a share, comes after the Octokit client was reloaded. *)
Definition SharesLast (evs : list Event) : Prop :=
  exists pre,
    Forall (fun ev => isReturned ev = true /\ isShare (callOf ev) = false) pre /\
    (evs = pre \/
     exists ev,
       evs = pre ++ [ev] /\
       (isShare (callOf ev) = true -> In (Returned CReloadOctokit) pre)).

(** ** The store in every run

    What a run leaves in the store, whether it returns or raises: the entries
    are built one after the other, and the first title that cannot be
    evaluated ends the run, after the host has created the item and put it in
    the menu. *)

(** The items built for [specs], and the error that stopped the run, if any:
    an action item per entry until a title raises, then a bare item. *)
Fixpoint builtItems (specs : list EntrySpec) : list MenuItem * option Error :=
  match specs with
  | [] => ([], None)
  | spec :: rest =>
      match spec_title spec with
      | Ok t =>
          (actionItem t (spec_icon spec) (spec_handler spec) :: (builtItems rest).1,
           (builtItems rest).2)
      | Err e => ([newMenuItem], Some e)
      end
  end.

(** The result of a run that was to return [a]. *)
Definition endsWith {A} (err : option Error) (a : A) : Result A :=
  match err with
  | None => Ok a
  | Some e => Err e
  end.

(** [w'] and [r] are the store and the result of adding the entries [specs]
    to the menu [sub] of [w], as far as it went, and returning [a] then. *)
Record Built {A} (sub : menu_id) (specs : list EntrySpec) (a : A) (w w' : World)
    (r : Result A) : Prop := {
  built_store : Adds sub (builtItems specs).1 w w';
  built_result : r = endsWith (builtItems specs).2 a;
}.

(** Under the settings [st], every run of [m] adds the entries [specs] to
    [sub], as far as it goes, and returns [a] when it went all the way. *)
Definition Builds {A} (st : GitHubPublisherSettings) (sub : menu_id)
    (specs : list EntrySpec) (a : A) (m : M A) : Prop :=
  forall w, settings w = st -> Built sub specs a w (m w).1 (m w).2.

(** [m] only talks to collaborators, and its result is [r] in every world. *)
Definition Evaluates {A} (m : M A) (r : Result A) : Prop :=
  forall w, exists evs, m w = (with_log (fun l => l ++ evs) w, r).

(** The store and the result of [addSubMenuCommandsFolder], in every run:
    the submenu is opened, then the entries are built as far as it goes. *)
Definition FolderSubmenuBuilt `{Collaborators} (item : item_id) (folder : TFolder)
    (branchName : string) (originalMenu : menu_id) (w w' : World)
    (r : Result menu_id) : Prop :=
  exists w0 sub,
    OpensSubmenu item originalMenu sub w w0 /\
    Built sub (folderEntries (settings w) folder branchName) sub w0 w' r.

(** The store and the result of [subMenuCommandsFile], in every run: nothing
    is touched until the cache and the title field have answered; then the
    submenu is opened; then, once the repository frontmatter is resolved, the
    entries are built as far as it goes. *)
Definition FileSubmenuBuilt `{Collaborators} (item : item_id) (file : TAbstractFile)
    (branchName : string) (repo : option Repository.t) (originalMenu : menu_id)
    (w w' : World) (r : Result menu_id) : Prop :=
  match getFileCache file with
  | Err e => SameHeap w w' /\ r = Err e
  | Ok cache =>
      match getTitleFieldForCommand file (frontmatterIn cache) with
      | Err e => SameHeap w w' /\ r = Err e
      | Ok title =>
          exists w0 sub,
            OpensSubmenu item originalMenu sub w w0 /\
            match getRepoFrontmatter (settings w) repo (frontmatterIn cache) with
            | Err e => SameHeap w0 w' /\ r = Err e
            | Ok rf =>
                Built sub
                  (fileEntries (settings w) (frontmatterIn cache) repo (asArray rf)
                     file branchName (str_replace ".md" "" title))
                  sub w0 w' r
            end
      end
  end.

(** Sequencing of outcomes: the first error wins. *)
Definition andThen {A B} (r : Result A) (k : A -> Result B) : Result B :=
  match r with
  | Ok a => k a
  | Err e => Err e
  end.

(** A lookup made before the menu is touched: when it raises, the run ends
    with its error and the store as it was; when it answers [a], the run
    goes on as [k a] says. *)
Definition afterLookup {A B} (lookup : Result A) (w w' : World) (r : Result B)
    (k : A -> Prop) : Prop :=
  match lookup with
  | Ok a => k a
  | Err e => SameHeap w w' /\ r = Err e
  end.

(** An item the host has created and the callback has put in its section,
    and nothing more. *)
Definition sectionOnly (section : string) : MenuItem :=
  {| title := None; icon := None; isLabel := false; section := Some section;
     callback := None; submenu := None |}.

(** The item [item] as the callback leaves it: titled, or as it was when the
    title could not be evaluated. *)
Definition itemOr (bare : MenuItem) (item : Result MenuItem) : MenuItem :=
  match item with
  | Ok it => it
  | Err _ => bare
  end.

Section EveryRun.
Context `{Collaborators}.

(** The store and the result of [addMenuFolder], in every run. *)
Definition FolderMenuBuilt (menu : menu_id) (folder : TFolder) (branchName : string)
    (w w' : World) (r : Result unit) : Prop :=
  if bool_decide (0 < length (otherRepo (github (settings w))))
  then exists wP r',
         ParentAdded menu w wP /\
         FolderSubmenuBuilt (length (items w)) folder branchName menu wP w' r' /\
         r = andThen r' (fun _ => Ok tt)
  else let item :=
         andThen (titleOnDefaultResult (name folder)) (fun t =>
           Ok (sectionItem "action" t "folder-up"
                 (OnClickFolderSingle folder branchName))) in
       Adds menu [itemOr (sectionOnly "action") item] w w' /\
       r = andThen item (fun _ => Ok tt).

(** The target of the single entry of a file, as an outcome. *)
Definition singleTargetResult (st : GitHubPublisherSettings)
    (frontmatter : option Frontmatter) (getSharedKey : option Repository.t)
    : Result (option Repository.t) :=
  let shareKey := PluginSettings.shareKey (plugin st) in
  if negb (bool_decide (is_Some frontmatter)) || negb (truthy_at frontmatter shareKey)
  then match List.find (fun repo => shareAll_enabled (Repository.shareAll repo))
               (otherRepo (github st)) with
       | Some otherRepo => Ok (Some otherRepo)
       | None =>
           if shareAll_enabled (PluginSettings.shareAll (plugin st))
           then andThen (defaultRepo st) (fun d => Ok (Some d))
           else Ok getSharedKey
       end
  else if truthy_at frontmatter shareKey
       then andThen (defaultRepo st) (fun d => Ok (Some d))
       else Ok getSharedKey.

(** The single entry of a file, once titled, as an outcome. *)
Definition singleEntryResult (st : GitHubPublisherSettings) (file : TAbstractFile)
    (branchName : string) (frontmatter : option Frontmatter)
    (getSharedKey : option Repository.t) : Result MenuItem :=
  andThen (getFileCache file) (fun cache =>
  andThen (getTitleFieldForCommand file (frontmatterIn cache)) (fun title =>
  let fileName := str_replace ".md" "" title in
  andThen (singleTargetResult st frontmatter getSharedKey) (fun target =>
  andThen (smartKeyResult target) (fun smartKey =>
  andThen (i18next_t "commands.shareViewFiles.multiple.on"
             [("doc", fileName); ("smartKey", smartKey)]) (fun t =>
  Ok (actionItem t "file-up"
        (OnClickFileSingle branchName file target fileName))))))).

(** The store and the result of [addMenuFile], in every run: nothing is
    touched while the file is looked up; a file that is not shared, or any
    file when the file menu is off, gets nothing; otherwise the entry is
    created and then becomes the parent of the choices or the single entry. *)
Definition FileMenuBuilt (file : TAbstractFile) (branchName : string)
    (menu : menu_id) (w w' : World) (r : Result unit) : Prop :=
  let st := settings w in
  afterLookup (frontmatterResult file) w w' r (fun frontmatter =>
  afterLookup (getRepoSharedKey st frontmatter) w w' r (fun getSharedKey =>
  afterLookup (multipleSharedKey frontmatter st) w w' r (fun allKeysFromFile =>
  afterLookup (isShared frontmatter st file getSharedKey) w w' r (fun shared =>
  if shared && PluginSettings.fileMenu (plugin st)
  then
    afterLookup (getRepoFrontmatter st getSharedKey frontmatter) w w' r
      (fun repoFrontmatter =>
         if severalChoices allKeysFromFile repoFrontmatter
         then exists wP r',
                ParentAdded menu w wP /\
                FileSubmenuBuilt (length (items w)) file branchName getSharedKey
                  menu wP w' r' /\
                r = andThen r' (fun _ => Ok tt)
         else let item :=
                singleEntryResult st file branchName frontmatter getSharedKey in
              Adds menu [itemOr newMenuItem item] w w' /\
              r = andThen item (fun _ => Ok tt))
  else SameHeap w w' /\ r = Ok tt)))).

End EveryRun.

(** The callback [m] of [addItem], run once the host has created the item
    after the items [l]: it writes to that item only, and leaves it as
    [item] says, or as the host created it when [item] is an error. *)
Definition Finishes (m : M unit) (l : list MenuItem) (item : Result MenuItem)
    : Prop :=
  forall w1, items w1 = l ++ [newMenuItem] ->
    settings (m w1).1 = settings w1 /\
    isDesktop (m w1).1 = isDesktop w1 /\
    menus (m w1).1 = menus w1 /\
    items (m w1).1 = l ++ [itemOr newMenuItem item] /\
    (m w1).2 = andThen item (fun _ => Ok tt).

(** ** A sample vault

    Concrete settings, notes and collaborators, on which the functions are
    run. *)

Module Demo.

Definition upper_ascii (c : Ascii.ascii) : Ascii.ascii :=
  let n := Ascii.nat_of_ascii c in
  if (97 <=? n) && (n <=? 122) then Ascii.ascii_of_nat (n - 32) else c.

Fixpoint upper (s : string) : string :=
  match s with
  | EmptyString => EmptyString
  | String c s' => String (upper_ascii c) (upper s')
  end.

Definition option_of (key : string) (options : list (string * string)) : string :=
  from_option snd "" (List.find (fun p => bool_decide (p.1 = key)) options).

(** The English texts of the three keys the menus use. *)
Definition english (key : string) (options : list (string * string)) : string :=
  if bool_decide (key = "commands.shareViewFiles.multiple.on")
  then "Upload " +:+ option_of "doc" options +:+ " on " +:+ option_of "smartKey" options
  else if bool_decide (key = "commands.shareViewFiles.multiple.other")
  then "Upload on another repository"
  else if bool_decide (key = "common.default") then "default"
  else key.

Definition blog : Repository.t :=
  {| Repository.smartKey := "blog"; Repository.shareKey := "blog";
     Repository.createShortcuts := true; Repository.shareAll := None |}.

Definition wiki : Repository.t :=
  {| Repository.smartKey := "wiki"; Repository.shareKey := "wiki";
     Repository.createShortcuts := false;
     Repository.shareAll := Some {| enable := true |} |}.

Definition main : Repository.t :=
  {| Repository.smartKey := "main"; Repository.shareKey := "share";
     Repository.createShortcuts := false; Repository.shareAll := None |}.

Definition pluginSettings : PluginSettings.t :=
  {| PluginSettings.shareKey := "share"; PluginSettings.fileMenu := true;
     PluginSettings.shareAll := None |}.

(** One repository only. *)
Definition oneRepo : GitHubPublisherSettings :=
  {| github := {| otherRepo := [] |}; plugin := pluginSettings |}.

(** Two more repositories: [blog] has shortcuts, [wiki] shares every note. *)
Definition threeRepos : GitHubPublisherSettings :=
  {| github := {| otherRepo := [blog; wiki] |}; plugin := pluginSettings |}.

Definition note (path : string) : TAbstractFile :=
  AFile {| file_path := path; basename := "note" |}.

Definition docs : TFolder := {| folder_path := "docs"; name := "docs" |}.

(** The frontmatter of a note shared to two repositories. *)
Definition multiFrontmatter : Frontmatter :=
  {[ "share" := VBool true; "multipleRepo" := VArr [VStr "alpha"; VStr "beta"] ]}.

(** The frontmatter of a note that has the share key, with the value
    [false], and is shared to the blog by the key of that repository. *)
Definition mixedFrontmatter : Frontmatter :=
  {[ "share" := VBool false; "blog" := VBool true ]}.

(** The metadata cache: one note shared, one shared to two repositories,
    one marked as not shared, one without frontmatter, one shared to the
    blog only, and any other path not in the cache. *)
Definition cacheOf (file : TAbstractFile) : option CachedMetadata :=
  match file with
  | AFile f =>
      if bool_decide (file_path f = "shared.md")
      then Some {| frontmatter := Some {[ "share" := VBool true ]} |}
      else if bool_decide (file_path f = "multi.md")
      then Some {| frontmatter := Some multiFrontmatter |}
      else if bool_decide (file_path f = "draft.md")
      then Some {| frontmatter := Some {[ "share" := VBool false ]} |}
      else if bool_decide (file_path f = "plain.md")
      then Some {| frontmatter := None |}
      else if bool_decide (file_path f = "mixed.md")
      then Some {| frontmatter := Some mixedFrontmatter |}
      else None
  | AFolder _ => None
  end.

Definition alpha : RepoFrontmatter.t := {| RepoFrontmatter.repo := "alpha" |}.

Definition beta : RepoFrontmatter.t := {| RepoFrontmatter.repo := "beta" |}.

Definition collaborators : Collaborators := {|
  getFileCache := fun file => Ok (cacheOf file);
  getRepoSharedKey := fun st fm =>
    Ok (List.find (fun r => truthy_at fm (Repository.shareKey r)) (otherRepo (github st)));
  multipleSharedKey := fun fm st =>
    Ok (List.filter (fun r => truthy_at fm (Repository.shareKey r)) (otherRepo (github st)));
  isShared := fun fm st file key =>
    Ok (truthy_at fm (PluginSettings.shareKey (plugin st))
        || bool_decide (is_Some key)
        || (negb (bool_decide (is_Some fm))
            && existsb (fun r => shareAll_enabled (Repository.shareAll r))
                 (otherRepo (github st))));
  getRepoFrontmatter := fun st repo fm =>
    Ok (if truthy_at fm "multipleRepo"
        then Many [alpha; beta]
        else One {| RepoFrontmatter.repo := from_option Repository.smartKey "main" repo |});
  defaultRepo := fun st => Ok main;
  getTitleFieldForCommand := fun file fm =>
    Ok (from_option (fun b => b +:+ ".md") "folder" (basenameOf file));
  i18next_t := fun key options => Ok (english key options);
  toUpperCase := upper;
  reloadOctokit := Ok (GithubBranch 0);
  addStatusBarItem := Ok (HTMLElement 0);
  getSharedFileOfFolder := fun _ _ _ => Ok [];
  shareAllMarkedNotes := fun _ _ _ _ _ _ => Ok tt;
  shareOneNote := fun _ _ _ _ _ => Ok tt;
  chooseRepoToRun_open := fun _ _ _ _ _ => Ok tt;
|}.

(** The same collaborators, with no translation loaded. *)
Definition untranslated : Collaborators := {|
  getFileCache := @getFileCache collaborators;
  getRepoSharedKey := @getRepoSharedKey collaborators;
  multipleSharedKey := @multipleSharedKey collaborators;
  isShared := @isShared collaborators;
  getRepoFrontmatter := @getRepoFrontmatter collaborators;
  defaultRepo := @defaultRepo collaborators;
  getTitleFieldForCommand := @getTitleFieldForCommand collaborators;
  i18next_t := fun key options => Err (Thrown "i18next is not initialised");
  toUpperCase := upper;
  reloadOctokit := @reloadOctokit collaborators;
  addStatusBarItem := @addStatusBarItem collaborators;
  getSharedFileOfFolder := @getSharedFileOfFolder collaborators;
  shareAllMarkedNotes := @shareAllMarkedNotes collaborators;
  shareOneNote := @shareOneNote collaborators;
  chooseRepoToRun_open := @chooseRepoToRun_open collaborators;
|}.

(** The same collaborators, when the repository frontmatter cannot be
    resolved. *)
Definition unresolved : Collaborators := {|
  getFileCache := @getFileCache collaborators;
  getRepoSharedKey := @getRepoSharedKey collaborators;
  multipleSharedKey := @multipleSharedKey collaborators;
  isShared := @isShared collaborators;
  getRepoFrontmatter := fun st repo fm => Err (Thrown "no repository");
  defaultRepo := @defaultRepo collaborators;
  getTitleFieldForCommand := @getTitleFieldForCommand collaborators;
  i18next_t := @i18next_t collaborators;
  toUpperCase := upper;
  reloadOctokit := @reloadOctokit collaborators;
  addStatusBarItem := @addStatusBarItem collaborators;
  getSharedFileOfFolder := @getSharedFileOfFolder collaborators;
  shareAllMarkedNotes := @shareAllMarkedNotes collaborators;
  shareOneNote := @shareOneNote collaborators;
  chooseRepoToRun_open := @chooseRepoToRun_open collaborators;
|}.

(** A world whose only menu is the empty menu being opened. *)
Definition world (st : GitHubPublisherSettings) (desktop : bool) : World :=
  {| settings := st; isDesktop := desktop; menus := [[]]; items := []; log := [] |}.

(** The world in which a platform other than the desktop calls the submenu
    functions: the menu holds the label and the separator. *)
Definition inlineWorld (st : GitHubPublisherSettings) : World :=
  {| settings := st; isDesktop := false; menus := [[EItem 0; ESeparator]];
     items := [labelItem]; log := [] |}.

(** The world in which the desktop calls them: the menu holds the parent. *)
Definition nestedWorld (st : GitHubPublisherSettings) : World :=
  {| settings := st; isDesktop := true; menus := [[EItem 0]];
     items := [parentItem]; log := [] |}.

End Demo.

(** * Running computations *)

Section Runs.
Context {A B : Type}.

Lemma run_bind (m : M A) (k : A -> M B) w :
  (m ≫= k) w = match m w with
               | (w', Ok a) => k a w'
               | (w', Err e) => (w', Err e)
               end.
Proof. reflexivity. Qed.

Lemma bind_Ok (m : M A) (k : A -> M B) w w' b :
  (m ≫= k) w = (w', Ok b) ->
  exists a w1, m w = (w1, Ok a) /\ k a w1 = (w', Ok b).
Proof.
  rewrite run_bind. destruct (m w) as [w1 [a|e]]; [eauto | discriminate].
Qed.

Lemma call_Ok (c : Call) (r : Result A) w w' a :
  call c r w = (w', Ok a) ->
  r = Ok a /\ w' = with_log (fun l => l ++ [Returned c]) w.
Proof. unfold call. destruct r; [intros [= <- <-]; auto | discriminate]. Qed.

End Runs.

(** [x <- m; k] returned: so did [m], with [a] in the world [w1]. *)
Tactic Notation "bind_inv" hyp(H) "as" ident(a) ident(w1) ident(H1) :=
  apply bind_Ok in H as (a & w1 & H1 & H).

(** [x <- gets f; k]: nothing changes, [x] is [f w]. *)
Tactic Notation "gets_inv" hyp(H) :=
  let a := fresh "a" in
  let w1 := fresh "w" in
  let H1 := fresh "H" in
  apply bind_Ok in H as (a & w1 & H1 & H); injection H1 as <- <-.

Lemma run_addItem menu cb w :
  addItem menu cb w
  = cb (length (items w))
       (with_menus (alter (fun es => es ++ [EItem (length (items w))]) menu)
          (with_items (fun l => l ++ [newMenuItem]) w)).
Proof. reflexivity. Qed.

Lemma alter_last {A} (f : A -> A) (l : list A) (x : A) :
  alter f (length l) (l ++ [x]) = l ++ [f x].
Proof. by rewrite <- (Nat.add_0_r (length l)), alter_app_r. Qed.

(** * Every run appends to the log and keeps the store *)

Lemma Grows_refl w : Grows w w.
Proof.
  split; auto. intros m es ->. exists []. by rewrite app_nil_r.
Qed.

Lemma Grows_trans w1 w2 w3 : Grows w1 w2 -> Grows w2 w3 -> Grows w1 w3.
Proof.
  intros [s1 d1 i1 m1] [s2 d2 i2 m2]. split; try congruence; try lia.
  intros m es Hm. destruct (m1 _ _ Hm) as [es1 H1].
  destruct (m2 _ _ H1) as [es2 H2]. exists (es1 ++ es2). by rewrite app_assoc.
Qed.

Lemma Grows_with_log f w : Grows w (with_log f w).
Proof. split; simpl; auto. intros m es ->. exists []. by rewrite app_nil_r. Qed.

Lemma Grows_alter_item f i w : Grows w (with_items (alter f i) w).
Proof.
  split; simpl; auto.
  - by rewrite length_alter.
  - intros m es ->. exists []. by rewrite app_nil_r.
Qed.

Lemma Grows_new_item x w : Grows w (with_items (fun l => l ++ [x]) w).
Proof.
  split; simpl; auto.
  - rewrite length_app. lia.
  - intros m es ->. exists []. by rewrite app_nil_r.
Qed.

Lemma Grows_push menu e w :
  Grows w (with_menus (alter (fun es => es ++ [e]) menu) w).
Proof.
  split; simpl; auto. intros m es Hm.
  destruct (decide (menu = m)) as [->|Hne].
  - exists [e]. by rewrite list_lookup_alter_eq, Hm.
  - exists []. by rewrite list_lookup_alter_ne, app_nil_r.
Qed.

Lemma Grows_new_menu w : Grows w (with_menus (fun ms => ms ++ [[]]) w).
Proof.
  split; simpl; auto. intros m es Hm. exists [].
  rewrite app_nil_r. by apply lookup_app_l_Some.
Qed.

Section InvRules.
Context {allowed : Call -> Prop} {local : Error -> Prop}.

(** A step that logs nothing and returns. *)
Lemma Inv_silent {A} (m : M A) :
  (forall w, exists w' a, m w = (w', Ok a) /\ log w' = log w /\ Grows w w') ->
  Inv allowed local m.
Proof.
  intros Hm w. destruct (Hm w) as (w' & a & -> & Hl & Hg).
  exists []. simpl. rewrite app_nil_r. split; [done|]. split; [|done].
  split; constructor.
Qed.

Lemma Inv_ret {A} (a : A) : Inv allowed local (mret a).
Proof. apply Inv_silent. intros w. exists w, a. auto using Grows_refl. Qed.

Lemma Inv_gets {A} (f : World -> A) : Inv allowed local (gets f).
Proof. apply Inv_silent. intros w. exists w, (f w). auto using Grows_refl. Qed.

Lemma Inv_throw {A} e : local e -> Inv allowed local (@throw A e).
Proof.
  intros He w. exists []. simpl. rewrite app_nil_r.
  split; [done|]. split; [|apply Grows_refl].
  split; [constructor|]. exists []. split; [constructor | auto].
Qed.

Lemma Inv_call {A} c (r : Result A) : allowed c -> Inv allowed local (call c r).
Proof.
  intros Hc w. destruct r as [a|e]; simpl.
  - exists [Returned c]. split; [done|]. split; [|apply Grows_with_log].
    split; by repeat constructor.
  - exists [Raised c e]. split; [done|]. split; [|apply Grows_with_log].
    split; [by repeat constructor|]. exists []. split; [constructor | eauto].
Qed.

Lemma Inv_bind {A B} (m : M A) (k : A -> M B) :
  Inv allowed local m -> (forall a, Inv allowed local (k a)) ->
  Inv allowed local (m ≫= k).
Proof.
  intros Hm Hk w. rewrite run_bind.
  destruct (Hm w) as (evs1 & Hl1 & [Ha1 Ho1] & Hg1).
  destruct (m w) as [w1 [a|e]]; simpl in *.
  - destruct (Hk a w1) as (evs2 & Hl2 & [Ha2 Ho2] & Hg2).
    exists (evs1 ++ evs2). rewrite Hl2, Hl1, app_assoc.
    split; [done|]. split; [|eauto using Grows_trans].
    split; [by apply Forall_app|].
    destruct ((k a w1).2) as [b|e].
    + by apply Forall_app.
    + destruct Ho2 as (d & Hd & Hlast). exists (evs1 ++ d).
      split; [by apply Forall_app|].
      destruct Hlast as [[c ->]|[-> He]]; [left; exists c; by rewrite app_assoc | auto].
  - exists evs1. split; [done|]. split; [|done]. by split.
Qed.

Lemma Inv_setItem f item : Inv allowed local (setItem f item).
Proof.
  apply Inv_silent. intros w. eexists _, tt. split; [reflexivity|].
  split; [reflexivity | apply Grows_alter_item].
Qed.

Lemma Inv_push menu e : Inv allowed local (push menu e).
Proof.
  apply Inv_silent. intros w. eexists _, tt. split; [reflexivity|].
  split; [reflexivity | apply Grows_push].
Qed.

Lemma Inv_new_item : Inv allowed local (modify (with_items (fun l => l ++ [newMenuItem]))).
Proof.
  apply Inv_silent. intros w. eexists _, tt. split; [reflexivity|].
  split; [reflexivity | apply Grows_new_item].
Qed.

Lemma Inv_new_menu : Inv allowed local (modify (with_menus (fun ms => ms ++ [[]]))).
Proof.
  apply Inv_silent. intros w. eexists _, tt. split; [reflexivity|].
  split; [reflexivity | apply Grows_new_menu].
Qed.

Lemma Inv_forEach {A} (l : list A) (f : A -> M unit) :
  (forall x, Inv allowed local (f x)) -> Inv allowed local (forEach l f).
Proof.
  intros Hf. induction l as [|x l IH]; simpl.
  - apply Inv_ret.
  - apply Inv_bind; auto.
Qed.

Lemma Inv_addItem menu cb :
  (forall item, Inv allowed local (cb item)) -> Inv allowed local (addItem menu cb).
Proof.
  intros Hcb. unfold addItem.
  apply Inv_bind; [apply Inv_gets | intros item].
  apply Inv_bind; [apply Inv_new_item | intros _].
  apply Inv_bind; [apply Inv_push | intros _]. apply Hcb.
Qed.

Lemma Inv_setSubmenu item : Inv allowed local (setSubmenu item).
Proof.
  unfold setSubmenu.
  apply Inv_bind; [apply Inv_gets | intros sub].
  apply Inv_bind; [apply Inv_new_menu | intros _].
  apply Inv_bind; [apply Inv_setItem | intros _]. apply Inv_ret.
Qed.

End InvRules.

Ltac inv_step :=
  lazymatch goal with
  | |- Inv _ _ (mret _) => apply Inv_ret
  | |- Inv _ _ (gets _) => apply Inv_gets
  | |- Inv _ _ (call _ _) => apply Inv_call; try done
  | |- Inv _ _ (throw _) => apply Inv_throw; try done
  | |- Inv _ _ (addItem _ _) => apply Inv_addItem; intros ?
  | |- Inv _ _ (forEach _ _) => apply Inv_forEach; intros ?
  | |- Inv _ _ (setSubmenu _) => apply Inv_setSubmenu
  | |- Inv _ _ (setItem _ _) => apply Inv_setItem
  | |- Inv _ _ (push _ _) => apply Inv_push
  | |- Inv _ _ (_ ≫= _) => apply Inv_bind; [|intros ?]
  | |- Inv _ _ (if ?b then _ else _) => destruct b
  | |- Inv _ _ (match ?x with _ => _ end) => destruct x
  end.

Section Invariants.
Context `{Collaborators}.

Lemma Inv_weaken {A} (P P' : Call -> Prop) (L L' : Error -> Prop) (m : M A) :
  (forall c, P c -> P' c) -> (forall e, L e -> L' e) -> Inv P L m -> Inv P' L' m.
Proof.
  intros HP HL Hm w. destruct (Hm w) as (evs & Hl & [Ha Ho] & Hg).
  exists evs. split; [done|]. split; [|done]. split.
  - eapply Forall_impl; eauto.
  - destruct ((m w).2); [done|].
    destruct Ho as (d & Hd & [Hc|[-> He]]); exists d; auto.
Qed.

Lemma shareFolderRepo_Inv folder branchName repo :
  Inv (fun _ => True) noError (shareFolderRepo folder branchName repo).
Proof. unfold shareFolderRepo. repeat inv_step. Qed.

Lemma titleOn_Inv options : Inv notShare noError (titleOn options).
Proof. unfold titleOn, translate. repeat inv_step. Qed.

Lemma defaultSmartKey_Inv : Inv notShare noError defaultSmartKey.
Proof. unfold defaultSmartKey, translate. repeat inv_step. Qed.

Lemma titleOnDefault_Inv doc : Inv notShare noError (titleOnDefault doc).
Proof.
  unfold titleOnDefault. repeat first [apply titleOn_Inv | apply defaultSmartKey_Inv | inv_step].
Qed.

Lemma titleField_Inv file fm : Inv notShare noError (titleField file fm).
Proof. unfold titleField. repeat inv_step. Qed.

Lemma setTitleIconOnClick_Inv P L item title icon h :
  Inv P L (setTitleIconOnClick item title icon h).
Proof.
  unfold setTitleIconOnClick, setTitle, setIcon, onClick. repeat inv_step.
Qed.

Ltac inv_menu :=
  repeat first
    [ apply titleOn_Inv | apply titleOnDefault_Inv | apply defaultSmartKey_Inv
    | apply titleField_Inv | apply setTitleIconOnClick_Inv | inv_step ].

Lemma addSubMenuCommandsFolder_Inv item folder branchName originalMenu :
  Inv notShare noError (addSubMenuCommandsFolder item folder branchName originalMenu).
Proof. unfold addSubMenuCommandsFolder, translate. inv_menu. Qed.

Lemma subMenuCommandsFile_Inv item file branchName repo originalMenu :
  Inv notShare noError (subMenuCommandsFile item file branchName repo originalMenu).
Proof. unfold subMenuCommandsFile, fileCache, translate. inv_menu. Qed.

Lemma addMenuFolder_Inv menu folder branchName :
  Inv notShare noError (addMenuFolder menu folder branchName).
Proof.
  unfold addMenuFolder, addSeparator, setTitle, setIcon, setIsLabel, setSection.
  repeat first [apply addSubMenuCommandsFolder_Inv | inv_menu].
Qed.

Lemma addMenuFile_Inv file branchName menu :
  Inv notShare nullFrontmatter (addMenuFile file branchName menu).
Proof.
  unfold addMenuFile, frontmatterOf, fileCache, singleTarget, smartKeyOf,
    addSeparator, setTitle, setIcon, setIsLabel.
  repeat first
    [ eapply Inv_weaken;
        [| |apply subMenuCommandsFile_Inv || apply titleOn_Inv
            || apply titleOnDefault_Inv || apply defaultSmartKey_Inv
            || apply titleField_Inv];
        [auto | intros ? []]
    | apply setTitleIconOnClick_Inv | inv_step ].
Qed.

Lemma Inv_logged {A} (P : Call -> Prop) L (m : M A) w :
  Inv P L m ->
  exists evs, logged m w evs /\ Forall (fun ev => P (callOf ev)) evs.
Proof. intros Hm. destruct (Hm w) as (evs & Hl & [Ha _] & _). by exists evs. Qed.

Lemma NeverShares_Inv {A} L (m : M A) : Inv notShare L m -> NeverShares m.
Proof. intros Hm w. by apply (Inv_logged notShare L). Qed.

Lemma shareFolderRepo_target resolved folder branchName repo :
  resolved = Some repo ->
  Inv (SharesToResolved resolved) noError (shareFolderRepo folder branchName repo).
Proof. intros ->. unfold shareFolderRepo. repeat inv_step. Qed.

Lemma shareOneNoteWith_target resolved branchName file repo fileName :
  resolved = Some repo ->
  Inv (SharesToResolved resolved) noError
    (shareOneNoteWith branchName file (mret repo) fileName).
Proof.
  intros ->. unfold shareOneNoteWith.
  apply Inv_bind; [by apply Inv_call | intros publisher].
  intros w. apply (Inv_call (allowed := SharesToResolved (Some repo))). done.
Qed.

Lemma chooseRepoToRun_target resolved keyToFind branchName type fileName onSubmit :
  Inv (SharesToResolved resolved) noError
    (chooseRepoToRun keyToFind branchName type fileName onSubmit).
Proof. unfold chooseRepoToRun. repeat inv_step. Qed.

Lemma runHandler_target h w :
  SharesOnlyTo (firedTarget (settings w) h) (runHandler h) w.
Proof.
  assert (forall folder branchName,
    SharesOnlyTo
      match getRepoSharedKey (settings w) None with Ok repo => Some repo | Err _ => None end
      (st ← gets settings;
       repo ← call (CGetRepoSharedKey st None) (getRepoSharedKey st None);
       shareFolderRepo folder branchName repo) w) as Hfolder.
  { intros folder branchName. unfold SharesOnlyTo, logged.
    rewrite run_bind. simpl. rewrite run_bind. unfold call at 1.
    destruct (getRepoSharedKey (settings w) None) as [repo|e].
    - destruct (Inv_logged _ _ _
                  (with_log (fun l => l ++ [Returned (CGetRepoSharedKey (settings w) None)]) w)
                  (shareFolderRepo_target (Some repo) folder branchName repo eq_refl))
        as (evs & Hl & Ha).
      exists (Returned (CGetRepoSharedKey (settings w) None) :: evs).
      unfold logged in Hl. rewrite Hl. simpl. rewrite <- app_assoc.
      split; [done|]. by constructor.
    - exists [Raised (CGetRepoSharedKey (settings w) None) e]. split; [done|].
      by repeat constructor. }
  destruct h; simpl; try apply Hfolder.
  - apply (Inv_logged _ noError). by apply shareFolderRepo_target.
  - apply (Inv_logged _ noError). apply chooseRepoToRun_target.
  - apply (Inv_logged _ noError). by apply shareOneNoteWith_target.
  - unfold SharesOnlyTo, logged, shareOneNoteWith.
    rewrite run_bind. unfold call at 1.
    destruct reloadOctokit as [publisher|e];
      [|exists [Raised CReloadOctokit e]; split; [done | by repeat constructor]].
    rewrite !run_bind. simpl. unfold call at 2.
    destruct (defaultRepo (settings w)) as [d|e]; simpl.
    + unfold call.
      destruct (shareOneNote branchName publisher file (Some d) fileName);
        eexists; (split; [simpl; rewrite <- !app_assoc; reflexivity|]);
        by repeat constructor.
    + eexists; (split; [simpl; rewrite <- !app_assoc; reflexivity|]).
      by repeat constructor.
  - apply (Inv_logged _ noError). by apply shareOneNoteWith_target.
  - apply (Inv_logged _ noError). by apply shareOneNoteWith_target.
  - apply (Inv_logged _ noError). apply chooseRepoToRun_target.
Qed.

Lemma runCallback_target cb item w :
  SharesOnlyTo (Some (Some item)) (runCallback cb item) w.
Proof.
  destruct cb; simpl; apply (Inv_logged _ noError).
  - by apply shareFolderRepo_target.
  - by apply shareOneNoteWith_target.
Qed.

End Invariants.

(** * Appending entries to a menu *)

Lemma Adds_nil sub w : Adds sub [] w w.
Proof.
  split; auto.
  - by rewrite app_nil_r.
  - simpl. symmetry. apply list_alter_id. intros es. by rewrite app_nil_r.
Qed.

Lemma Adds_app sub new1 new2 w1 w2 w3 :
  Adds sub new1 w1 w2 -> Adds sub new2 w2 w3 -> Adds sub (new1 ++ new2) w1 w3.
Proof.
  intros [s1 d1 i1 m1] [s2 d2 i2 m2]. split; try congruence.
  - by rewrite i2, i1, app_assoc.
  - rewrite m2, m1, i1, list_alter_alter_eq.
    rewrite !length_app, seq_app, map_app.
    apply list_alter_ext; [|done]. intros es _. simpl. by rewrite app_assoc.
Qed.

Lemma LogOnly_call {A} c (r : Result A) : LogOnly (call c r).
Proof. intros w w' r'. unfold call. destruct r; intros [= <- <-]; eauto. Qed.

Lemma LogOnly_ret {A} (a : A) : LogOnly (mret a).
Proof.
  intros w w' r [= <- <-]. exists []. destruct w; unfold with_log; simpl.
  by rewrite app_nil_r.
Qed.

Lemma LogOnly_bind {A B} (m : M A) (k : A -> M B) :
  LogOnly m -> (forall a, LogOnly (k a)) -> LogOnly (m ≫= k).
Proof.
  intros Hm Hk w w' r. rewrite run_bind.
  destruct (m w) as [w1 [a|e]] eqn:E; destruct (Hm _ _ _ E) as [evs1 ->].
  - intros E2. destruct (Hk _ _ _ _ E2) as [evs2 ->].
    exists (evs1 ++ evs2). unfold with_log; simpl. by rewrite app_assoc.
  - intros [= <- <-]. eauto.
Qed.

(** [menu.addItem(item => item.setTitle(mk).setIcon(icon).onClick(h))] where
    evaluating the title [mk] only calls collaborators. *)
Lemma addItem_action sub (mk : M string) icon h w w' :
  LogOnly mk ->
  addItem sub (fun item => title ← mk; setTitleIconOnClick item title icon h) w
    = (w', Ok tt) ->
  exists title w1 w2,
    mk w1 = (w2, Ok title) /\ Adds sub [actionItem title icon h] w w'.
Proof.
  intros Hmk. rewrite run_addItem.
  set (w1 := with_menus _ _). rewrite run_bind.
  destruct (mk w1) as [w2 [title|e]] eqn:E; [|discriminate].
  destruct (Hmk _ _ _ E) as [evs ->]. intros [= <-].
  exists title, w1, (with_log (fun l => l ++ evs) w1). split; [done|].
  split; simpl; auto. by rewrite !alter_last.
Qed.

Lemma forEach_Adds {A} sub (R : A -> MenuItem -> Prop) (f : A -> M unit) l :
  (forall x w1 w2, f x w1 = (w2, Ok tt) -> exists it, R x it /\ Adds sub [it] w1 w2) ->
  forall w w', forEach l f w = (w', Ok tt) ->
  exists new, Forall2 R l new /\ Adds sub new w w'.
Proof.
  intros Hf. induction l as [|x l IH]; simpl; intros w w' Hrun.
  - injection Hrun as <-. exists []. split; [constructor | apply Adds_nil].
  - apply bind_Ok in Hrun as ([] & w1 & H1 & H2).
    destruct (Hf _ _ _ H1) as (it & HR & Ha1).
    destruct (IH _ _ H2) as (new & HF & Ha2).
    exists (it :: new). split; [by constructor|].
    by apply (Adds_app sub [it] new w w1 w').
Qed.

(** The same loop when only the elements passing [c] add their item. *)
Lemma forEach_filter_Adds {A} sub (R : A -> MenuItem -> Prop) (c : A -> bool)
    (f : A -> M unit) l :
  (forall x w1 w2, f x w1 = (w2, Ok tt) -> exists it, R x it /\ Adds sub [it] w1 w2) ->
  forall w w', forEach l (fun x => if c x then f x else mret tt) w = (w', Ok tt) ->
  exists new, Forall2 R (List.filter c l) new /\ Adds sub new w w'.
Proof.
  intros Hf. induction l as [|x l IH]; simpl; intros w w' Hrun.
  - injection Hrun as <-. exists []. split; [constructor | apply Adds_nil].
  - apply bind_Ok in Hrun as ([] & w1 & H1 & H2).
    destruct (IH _ _ H2) as (new & HF & Ha2).
    destruct (c x).
    + destruct (Hf _ _ _ H1) as (it & HR & Ha1).
      exists (it :: new). split; [by constructor|].
      by apply (Adds_app sub [it] new w w1 w').
    + injection H1 as <-. eauto.
Qed.

(** What the menu and the store show after items were appended. *)
Lemma Adds_entries sub new w w' :
  Adds sub new w w' -> sub < length (menus w) ->
  entriesOf w' sub
  = entriesOf w sub ++ map EItem (seq (length (items w)) (length new)).
Proof.
  intros [_ _ _ Hm] Hsub. unfold entriesOf. rewrite Hm, list_lookup_alter_eq.
  destruct (menus w !! sub) as [es|] eqn:Hes; [done|].
  apply lookup_ge_None_1 in Hes. lia.
Qed.

Lemma Adds_items_new sub new w w' :
  Adds sub new w w' ->
  Forall2 (fun e it => itemOf w' e = Some it)
          (map EItem (seq (length (items w)) (length new))) new.
Proof.
  intros [_ _ Hi _]. apply Forall2_same_length_lookup_2.
  - by rewrite length_map, length_seq.
  - intros k e it He Hit. rewrite list_lookup_fmap in He.
    destruct (seq _ _ !! k) as [j|] eqn:Hj; [|discriminate].
    injection He as <-. apply lookup_seq in Hj as [-> _]. simpl.
    rewrite Hi, lookup_app_r by lia. rewrite <- Hit. f_equal. lia.
Qed.

Lemma Adds_items_old sub new w w' i :
  Adds sub new w w' -> i < length (items w) -> items w' !! i = items w !! i.
Proof. intros [_ _ Hi _] Hlt. by rewrite Hi, lookup_app_l. Qed.

Lemma Adds_menus_other sub new w w' m :
  Adds sub new w w' -> m <> sub -> menus w' !! m = menus w !! m.
Proof. intros [_ _ _ Hm] Hne. by rewrite Hm, list_lookup_alter_ne. Qed.

Lemma Adds_length_menus sub new w w' :
  Adds sub new w w' -> length (menus w') = length (menus w).
Proof. intros [_ _ _ Hm]. by rewrite Hm, length_alter. Qed.

(** The last item appended is the last entry of the menu. *)
Lemma Adds_last sub pre c w w' :
  Adds sub (pre ++ [c]) w w' -> sub < length (menus w) ->
  exists e, last (entriesOf w' sub) = Some e /\ itemOf w' e = Some c.
Proof.
  intros Ha Hsub. exists (EItem (length (items w) + length pre)). split.
  - rewrite (Adds_entries _ _ _ _ Ha Hsub), length_app. simpl.
    rewrite seq_app, map_app, app_assoc. simpl. apply last_snoc.
  - simpl. rewrite (adds_items _ _ _ _ Ha), app_assoc.
    rewrite <- length_app. apply list_lookup_middle. done.
Qed.

Lemma new_handlers w' added new :
  Forall2 (fun e it => itemOf w' e = Some it) added new ->
  map (handlerOf w') added = map callback new.
Proof.
  induction 1 as [|e it added new He _ IH]; [done|]. simpl.
  unfold handlerOf at 1. by rewrite He, IH.
Qed.

Lemma SameHeap_refl w : SameHeap w w.
Proof. by split. Qed.

Lemma LogOnly_SameHeap {A} (m : M A) w w' r :
  LogOnly m -> m w = (w', r) -> SameHeap w w'.
Proof. intros Hm E. destruct (Hm _ _ _ E) as [evs ->]. by split. Qed.

Lemma Adds_SameHeap_l sub new w1 w2 w3 :
  SameHeap w1 w2 -> Adds sub new w2 w3 -> Adds sub new w1 w3.
Proof.
  intros [s d i m] [s' d' i' m']. rewrite i, m in *. split; congruence.
Qed.

Lemma OpensSubmenu_run item originalMenu (desktop : bool) w w0 sub :
  desktop = isDesktop w ->
  (if desktop then setSubmenu item else mret originalMenu) w = (w0, Ok sub) ->
  OpensSubmenu item originalMenu sub w w0.
Proof.
  intros ->. destruct (isDesktop w) eqn:E; intros [= <- <-]; split; simpl; by rewrite ?E.
Qed.

Lemma OpensSubmenu_SameHeap_l item originalMenu sub w1 w2 w3 :
  SameHeap w1 w2 -> OpensSubmenu item originalMenu sub w2 w3 ->
  OpensSubmenu item originalMenu sub w1 w3.
Proof.
  intros [s d i m] [s' d' u' m' i']. rewrite d, i, m in *. split; congruence.
Qed.

Lemma OpensSubmenu_valid item originalMenu sub w w0 :
  OpensSubmenu item originalMenu sub w w0 ->
  originalMenu < length (menus w) -> sub < length (menus w0).
Proof.
  intros [_ _ -> -> _] Hlt. destruct (isDesktop w); [|done].
  rewrite length_app. simpl. lia.
Qed.

(** On the desktop the submenu starts empty; elsewhere it starts as the
    original menu is. *)
Lemma OpensSubmenu_entries item originalMenu sub w w0 :
  OpensSubmenu item originalMenu sub w w0 ->
  entriesOf w0 sub = if isDesktop w then [] else entriesOf w originalMenu.
Proof.
  intros [_ _ -> Hm _]. unfold entriesOf. rewrite Hm.
  destruct (isDesktop w); [|done].
  by rewrite lookup_app_r, Nat.sub_diag.
Qed.

Lemma OpensSubmenu_length_items item originalMenu sub w w0 :
  OpensSubmenu item originalMenu sub w w0 -> length (items w0) = length (items w).
Proof.
  intros [_ _ _ _ ->]. destruct (isDesktop w); [|done]. by rewrite length_alter.
Qed.

Lemma parent_run menu (desktop : bool) w wP u :
  desktop = isDesktop w ->
  (if desktop
   then setTitle (length (items w)) "Github Publisher";;
        setIcon (length (items w)) "upload-cloud"
   else addSeparator menu;; setIsLabel (length (items w)) true)
    (with_menus (alter (fun es => es ++ [EItem (length (items w))]) menu)
       (with_items (fun l => l ++ [newMenuItem]) w))
  = (wP, Ok u) ->
  ParentAdded menu w wP.
Proof.
  intros ->. destruct (isDesktop w) eqn:E; intros [= <-]; split; simpl; rewrite ?E; auto.
  - by rewrite !alter_last.
  - by rewrite alter_last.
  - rewrite list_alter_alter_eq. apply list_alter_ext; [|done].
    intros es _. simpl. by rewrite <- app_assoc.
Qed.

Lemma ParentAdded_SameHeap_l menu w1 w2 w3 :
  SameHeap w1 w2 -> ParentAdded menu w2 w3 -> ParentAdded menu w1 w3.
Proof.
  intros [s d i m] [s' d' i' m']. rewrite d, i, m in *. split; congruence.
Qed.

Lemma Presented_intro menu sub new w wP w0 w' :
  menu < length (menus w) ->
  ParentAdded menu w wP ->
  OpensSubmenu (length (items w)) menu sub wP w0 ->
  Adds sub new w0 w' ->
  Presented menu new w w'.
Proof.
  intros Hmenu [ps pd pi pm] Ho Ha.
  assert (Hlen0 : length (items w0) = S (length (items w))).
  { rewrite (OpensSubmenu_length_items _ _ _ _ _ Ho), pi, length_app. simpl. lia. }
  assert (HmenuP : menu < length (menus wP)) by (by rewrite pm, length_alter).
  pose proof (OpensSubmenu_valid _ _ _ _ _ Ho HmenuP) as Hsub.
  pose proof (Adds_entries _ _ _ _ Ha Hsub) as Hes.
  pose proof (OpensSubmenu_entries _ _ _ _ _ Ho) as Hes0.
  pose proof (Adds_items_new _ _ _ _ Ha) as Hnew.
  rewrite Hlen0 in Hes, Hnew.
  assert (HesP : entriesOf wP menu
                 = entriesOf w menu ++ EItem (length (items w))
                     :: (if isDesktop w then [] else [ESeparator])).
  { unfold entriesOf. rewrite pm, list_lookup_alter_eq.
    destruct (menus w !! menu) as [es|] eqn:E; [done|].
    apply lookup_ge_None_1 in E. lia. }
  destruct Ho as [os od osub om oi]. rewrite pd in *.
  split; [| done | |].
  - rewrite (Adds_items_old _ _ _ _ _ Ha) by lia. rewrite oi, pi.
    destruct (isDesktop w).
    + rewrite list_lookup_alter_eq, lookup_app_r, Nat.sub_diag by lia.
      simpl. rewrite osub, pm, length_alter. done.
    + by rewrite lookup_app_r, Nat.sub_diag by lia.
  - destruct (isDesktop w).
    + unfold entriesOf in *.
      rewrite (Adds_menus_other _ _ _ _ menu Ha) by (rewrite osub; lia).
      rewrite om, lookup_app_l by done. done.
    + subst sub. rewrite Hes, Hes0, HesP, <- app_assoc. done.
  - destruct (isDesktop w).
    + rewrite osub, pm, length_alter in Hes, Hes0. by rewrite Hes, Hes0.
    + by rewrite (Adds_length_menus _ _ _ _ Ha), om, pm, length_alter.
Qed.

Lemma SingleAction_intro menu it h w w' :
  menu < length (menus w) ->
  items w' = items w ++ [it] ->
  menus w' = alter (fun es => es ++ [EItem (length (items w))]) menu (menus w) ->
  callback it = Some h -> submenu it = None ->
  SingleAction menu h w w'.
Proof.
  intros Hmenu Hi Hm Hcb Hsub. split.
  - unfold entriesOf. rewrite Hm, list_lookup_alter_eq.
    destruct (menus w !! menu) as [es|] eqn:E; [done|].
    apply lookup_ge_None_1 in E. lia.
  - rewrite Hi, length_app. simpl. lia.
  - by rewrite Hm, length_alter.
  - unfold handlerOf. simpl. by rewrite Hi, list_lookup_middle.
  - by rewrite Hi, list_lookup_middle.
Qed.

Lemma Presented_choices menu new w w' hs :
  Presented menu new w w' -> map callback new = map Some hs ->
  exists choices,
    PresentsChoices menu choices w w' /\ map (handlerOf w') choices = map Some hs.
Proof.
  intros [Hi Hn Hm Hs] Hcb.
  exists (map EItem (seq (S (length (items w))) (length new))). split.
  - unfold PresentsChoices. destruct (isDesktop w); by split.
  - by rewrite (new_handlers _ _ _ Hn).
Qed.

Lemma ActionItem_callback mk icon h it : ActionItem mk icon h it -> callback it = Some h.
Proof. by intros (t & w1 & w2 & _ & ->). Qed.

Lemma ActionItems_callbacks {A} (mk : A -> M string) icon (h : A -> Handler) l new :
  Forall2 (fun x it => ActionItem (mk x) icon (h x) it) l new ->
  map callback new = map Some (map h l).
Proof.
  induction 1 as [|x it l new Hx _ IH]; [done|]. simpl.
  by rewrite (ActionItem_callback _ _ _ _ Hx), IH.
Qed.

(** * What each function builds when it returns *)

Section Building.
Context `{Collaborators}.

Lemma translate_LogOnly key options : LogOnly (translate key options).
Proof. apply LogOnly_call. Qed.

Lemma titleOn_LogOnly options : LogOnly (titleOn options).
Proof. apply LogOnly_call. Qed.

Lemma titleOnDefault_LogOnly doc : LogOnly (titleOnDefault doc).
Proof.
  unfold titleOnDefault, defaultSmartKey.
  repeat first [apply LogOnly_call | apply LogOnly_ret
               | apply LogOnly_bind; [|intros ?]].
Qed.

Lemma smartKeyOf_LogOnly getSharedKey : LogOnly (smartKeyOf getSharedKey).
Proof.
  unfold smartKeyOf, defaultSmartKey.
  destruct getSharedKey as [r|]; [case_bool_decide|];
    repeat first [apply LogOnly_call | apply LogOnly_ret
                 | apply LogOnly_bind; [|intros ?]].
Qed.

Lemma addItem_ActionItem sub mk icon h w w' :
  LogOnly mk ->
  addItem sub (fun item => title ← mk; setTitleIconOnClick item title icon h) w
    = (w', Ok tt) ->
  exists it, ActionItem mk icon h it /\ Adds sub [it] w w'.
Proof.
  intros Hmk Hrun.
  destruct (addItem_action _ _ _ _ _ _ Hmk Hrun) as (t & w1 & w2 & E & Ha).
  exists (actionItem t icon h). split; [|done]. by exists t, w1, w2.
Qed.

Lemma ChooserItem_title icon h c :
  ChooserItem icon h c ->
  exists t, i18next_t "commands.shareViewFiles.multiple.other" [] = Ok t /\
            title c = Some t /\ callback c = Some h.
Proof.
  intros (t & w1 & w2 & Ht & ->). apply call_Ok in Ht as [Ht _]. by exists t.
Qed.

Lemma FolderChoices_handlers st folder branchName new :
  FolderChoices st folder branchName new ->
  map callback new = map Some (folderHandlers st folder branchName).
Proof.
  intros (d & others & c & -> & Hd & Ho & Hc). unfold folderHandlers. simpl.
  rewrite !map_app. simpl.
  rewrite (ActionItem_callback _ _ _ _ Hd), (ActionItem_callback _ _ _ _ Hc).
  by rewrite (ActionItems_callbacks _ _ _ _ _ Ho).
Qed.

Lemma FileChoices_handlers st fm repo rfs file branchName fileName new :
  FileChoices st fm repo rfs file branchName fileName new ->
  map callback new = map Some (fileHandlers st fm repo rfs file branchName fileName).
Proof.
  intros (ds & others & fronts & c & -> & Hd & Ho & Hf & Hc). unfold fileHandlers.
  rewrite !map_app. simpl. rewrite (ActionItem_callback _ _ _ _ Hc).
  rewrite (ActionItems_callbacks
             (fun _ => titleOnDefault fileName) _
             (fun _ => OnClickFileDefault branchName file fileName) _ _ Hd).
  rewrite (ActionItems_callbacks _ _ _ _ _ Ho), (ActionItems_callbacks _ _ _ _ _ Hf).
  by destruct (defaultShown st repo fm).
Qed.

Lemma addSubMenuCommandsFolder_Ok item folder branchName originalMenu w w' sub :
  addSubMenuCommandsFolder item folder branchName originalMenu w = (w', Ok sub) ->
  exists w0 new,
    OpensSubmenu item originalMenu sub w w0 /\
    Adds sub new w0 w' /\
    FolderChoices (settings w) folder branchName new.
Proof.
  unfold addSubMenuCommandsFolder. intros Hrun.
  gets_inv Hrun. bind_inv Hrun as sub0 w0 Hsub.
  apply OpensSubmenu_run in Hsub; [|done].
  bind_inv Hrun as u1 w1 Hd. destruct u1.
  apply addItem_ActionItem in Hd as (d & Hd & Ad); [|apply titleOnDefault_LogOnly].
  gets_inv Hrun. bind_inv Hrun as u2 w2 Ho. bind_inv Hrun as u3 w3 Hc.
  destruct u2, u3. injection Hrun as <- <-.
  apply addItem_ActionItem in Hc as (c & Hc & Ac); [|apply translate_LogOnly].
  assert (exists others,
    Forall2 (fun otherRepo it =>
               ActionItem
                 (titleOn [("smartKey", toUpperCase (Repository.smartKey otherRepo));
                           ("doc", name folder)])
                 "folder-up" (OnClickFolderOther folder branchName otherRepo) it)
            (List.filter Repository.createShortcuts (otherRepo (github (settings w1))))
            others /\ Adds sub0 others w1 w2) as (others & Ho' & Ao).
  { case_bool_decide as Hlen.
    - eapply forEach_Adds in Ho; [exact Ho|].
      intros r wa wb Hr. apply addItem_ActionItem in Hr; [done|apply titleOn_LogOnly].
    - injection Ho as <-. exists []. split; [|apply Adds_nil].
      destruct (List.filter _ _); [constructor | simpl in Hlen; lia]. }
  exists w0, (d :: others ++ [c]). split; [done|]. split.
  - apply (Adds_app sub0 [d] (others ++ [c]) w0 w1 w3); [done|].
    by apply (Adds_app sub0 others [c] w1 w2 w3).
  - exists d, others, c.
    rewrite <- (opens_settings _ _ _ _ _ Hsub), <- (adds_settings _ _ _ _ Ad). done.
Qed.

Lemma subMenuCommandsFile_Ok item file branchName repo originalMenu w w' sub :
  subMenuCommandsFile item file branchName repo originalMenu w = (w', Ok sub) ->
  exists cache title rf w0 new,
    getFileCache file = Ok cache /\
    getTitleFieldForCommand file (frontmatterIn cache) = Ok title /\
    getRepoFrontmatter (settings w) repo (frontmatterIn cache) = Ok rf /\
    OpensSubmenu item originalMenu sub w w0 /\
    Adds sub new w0 w' /\
    FileChoices (settings w) (frontmatterIn cache) repo (asArray rf) file
      branchName (str_replace ".md" "" title) new.
Proof.
  unfold subMenuCommandsFile, fileCache, titleField. intros Hrun.
  bind_inv Hrun as cache wa Hcache. apply call_Ok in Hcache as [Ecache ->].
  bind_inv Hrun as fileName wb Hname.
  bind_inv Hname as title wt Ht. apply call_Ok in Ht as [Et ->].
  injection Hname as <- <-.
  gets_inv Hrun. bind_inv Hrun as sub0 w0 Hsub.
  apply OpensSubmenu_run in Hsub; [|done].
  eapply OpensSubmenu_SameHeap_l in Hsub; [|by split with (w:=w)].
  gets_inv Hrun. bind_inv Hrun as rf wc Hrf. apply call_Ok in Hrf as [Erf ->].
  rewrite (opens_settings _ _ _ _ _ Hsub) in *.
  set (w0' := with_log _ w0) in Hrun.
  assert (Hsame : SameHeap w0 w0') by (by split).
  clearbody w0'.
  bind_inv Hrun as u1 w1 Hd. bind_inv Hrun as u2 w2 Ho.
  bind_inv Hrun as u3 w3 Hf. bind_inv Hrun as u4 w4 Hc.
  destruct u1, u2, u3, u4. injection Hrun as <- <-.
  apply addItem_ActionItem in Hc as (c & Hc & Ac); [|apply translate_LogOnly].
  set (fileName := str_replace ".md" "" title) in *.
  set (fm := frontmatterIn cache) in *.
  assert (exists ds,
    Forall2 (fun (_ : unit) it =>
               ActionItem (titleOnDefault fileName) "file-up"
                 (OnClickFileDefault branchName file fileName) it)
            (if defaultShown (settings w) repo fm then [tt] else []) ds
    /\ Adds sub0 ds w0' w1) as (ds & Hds & Ads).
  { unfold defaultShown. destruct (_ && _).
    - apply addItem_ActionItem in Hd as (d & Hd & Ad); [|apply titleOnDefault_LogOnly].
      exists [d]. split; [by repeat constructor | done].
    - injection Hd as <-. exists []. split; [constructor | apply Adds_nil]. }
  assert (exists others,
    Forall2 (fun otherRepo it =>
               ActionItem
                 (titleOn [("smartKey", toUpperCase (Repository.smartKey otherRepo));
                           ("doc", fileName)])
                 "file-up" (OnClickFileOther branchName file otherRepo fileName) it)
            (List.filter (otherShown repo fm)
               (List.filter Repository.createShortcuts (otherRepo (github (settings w)))))
            others /\ Adds sub0 others w1 w2) as (others & Ho' & Ao).
  { clear Hf. case_bool_decide as Hlen.
    - eapply (forEach_filter_Adds sub0 _ (otherShown repo fm)) in Ho; [exact Ho|].
      intros r wx wy Hr. apply addItem_ActionItem in Hr; [done|apply titleOn_LogOnly].
    - injection Ho as <-. exists []. split; [|apply Adds_nil].
      destruct (List.filter Repository.createShortcuts _);
        [constructor | simpl in Hlen; lia]. }
  assert (exists fronts,
    Forall2 (fun repoFront it =>
               ActionItem
                 (titleOn [("smartKey", toUpperCase (RepoFrontmatter.repo repoFront));
                           ("doc", fileName)])
                 "file-up" (OnClickFileFront branchName file repo fileName) it)
            (if bool_decide (1 < length (asArray rf)) then asArray rf else [])
            fronts /\ Adds sub0 fronts w2 w3) as (fronts & Hf' & Af).
  { case_bool_decide as Hlen.
    - eapply forEach_Adds in Hf; [exact Hf|].
      intros r wx wy Hr. apply addItem_ActionItem in Hr; [done|apply titleOn_LogOnly].
    - injection Hf as <-. exists []. split; [constructor | apply Adds_nil]. }
  exists cache, title, rf, w0, (ds ++ others ++ fronts ++ [c]).
  repeat (split; [done|]). split.
  - apply (Adds_SameHeap_l _ _ _ _ _ Hsame).
    apply (Adds_app sub0 ds _ w0' w1 w4); [done|].
    apply (Adds_app sub0 others _ w1 w2 w4); [done|].
    by apply (Adds_app sub0 fronts [c] w2 w3 w4).
  - by exists ds, others, fronts, c.
Qed.

(** The entries [subMenuCommandsFile] adds run, in order, [fileHandlers]:
    the entries made for the repository frontmatter all hold the function's
    own [repo], whichever element of the array they were made for. *)
Lemma subMenuCommandsFile_entries item file branchName repo originalMenu w w' sub :
  originalMenu < length (menus w) ->
  subMenuCommandsFile item file branchName repo originalMenu w = (w', Ok sub) ->
  exists added hs,
    entriesOf w' sub
    = (if isDesktop w then [] else entriesOf w originalMenu) ++ added /\
    map (handlerOf w') added = map Some hs /\
    FileSubmenuHandlers (settings w) file branchName repo hs.
Proof.
  intros Hmenu Hrun.
  apply subMenuCommandsFile_Ok in Hrun
    as (cache & t & rf & w0 & new & Ec & Et & Erf & Ho & Ha & Hc).
  pose proof (OpensSubmenu_valid _ _ _ _ _ Ho Hmenu) as Hsub.
  eexists (map EItem (seq (length (items w0)) (length new))), _. split; [|split].
  - by rewrite (Adds_entries _ _ _ _ Ha Hsub), (OpensSubmenu_entries _ _ _ _ _ Ho).
  - rewrite (new_handlers _ _ _ (Adds_items_new _ _ _ _ Ha)).
    by apply FileChoices_handlers.
  - by exists cache, t, rf.
Qed.

Lemma addMenuFolder_Ok menu folder branchName w w' :
  menu < length (menus w) ->
  addMenuFolder menu folder branchName w = (w', Ok tt) ->
  if bool_decide (0 < length (otherRepo (github (settings w))))
  then exists new,
         Presented menu new w w' /\
         FolderChoices (settings w) folder branchName new
  else exists title w1 w2,
         titleOnDefault (name folder) w1 = (w2, Ok title) /\
         items w' = items w ++ [sectionItem "action" title "folder-up"
                                  (OnClickFolderSingle folder branchName)] /\
         menus w' = alter (fun es => es ++ [EItem (length (items w))]) menu (menus w).
Proof.
  intros Hmenu Hrun. unfold addMenuFolder in Hrun. rewrite run_addItem in Hrun.
  gets_inv Hrun. simpl in Hrun.
  destruct (bool_decide (0 < length (otherRepo (github (settings w))))).
  - gets_inv Hrun. bind_inv Hrun as u wP HP. apply parent_run in HP; [|done].
    bind_inv Hrun as sub w1 Hsub. injection Hrun as <-.
    apply addSubMenuCommandsFolder_Ok in Hsub as (w0 & new & Ho & Ha & Hc).
    exists new. rewrite (pa_settings _ _ _ HP) in Hc. split; [|done].
    by eapply Presented_intro.
  - bind_inv Hrun as u w1 Hs. injection Hs as <-.
    bind_inv Hrun as title w2 Ht.
    destruct (titleOnDefault_LogOnly _ _ _ _ Ht) as [evs ->].
    injection Hrun as <-. eexists title, _, _. split; [exact Ht|].
    simpl. by rewrite !alter_last.
Qed.

Lemma frontmatterOf_run file w :
  exists evs,
    frontmatterOf file w = (with_log (fun l => l ++ evs) w, frontmatterResult file).
Proof.
  unfold frontmatterOf, frontmatterResult, fileCache.
  destruct (isTFile file).
  - rewrite run_bind. unfold call.
    destruct (getFileCache file) as [[c|]|e]; eexists; reflexivity.
  - exists []. destruct w; unfold with_log; simpl. by rewrite app_nil_r.
Qed.

Lemma singleTarget_Ok st frontmatter getSharedKey w w' target :
  singleTarget st frontmatter getSharedKey w = (w', Ok target) ->
  SameHeap w w' /\ SingleTarget st frontmatter getSharedKey target.
Proof.
  unfold singleTarget, SingleTarget.
  destruct (negb (bool_decide (is_Some frontmatter))
            || negb (truthy_at frontmatter (PluginSettings.shareKey (plugin st)))) eqn:E.
  - destruct (List.find _ _).
    + intros [= <- <-]. split; [apply SameHeap_refl | done].
    + destruct (shareAll_enabled (PluginSettings.shareAll (plugin st))).
      * intros Hrun. bind_inv Hrun as d w1 Hd. apply call_Ok in Hd as [Hd ->].
        injection Hrun as <- <-. split; [by split | eauto].
      * intros [= <- <-]. split; [apply SameHeap_refl | done].
  - apply orb_false_elim in E as [_ E]. apply negb_false_iff in E. rewrite E.
    intros Hrun. bind_inv Hrun as d w1 Hd. apply call_Ok in Hd as [Hd ->].
    injection Hrun as <- <-. split; [by split | eauto].
Qed.

Lemma SingleTarget_resolved st fm key target :
  SingleTarget st fm key target -> TargetResolved st fm key target.
Proof.
  unfold SingleTarget. intros Ht.
  destruct (truthy_at fm (PluginSettings.shareKey (plugin st))) eqn:Eb.
  - assert (bool_decide (is_Some fm) = true) as Hsome.
    { destruct fm; [by apply bool_decide_eq_true | discriminate]. }
    rewrite Hsome in Ht. simpl in Ht.
    split; unfold lacksShareKey, hasShareKey; rewrite ?Eb; try done.
    all: intros [->|?]; discriminate.
  - rewrite orb_true_r in Ht. fold (firstShareAll st) in Ht.
    split; unfold lacksShareKey, hasShareKey; rewrite ?Eb; try done.
    + intros _ r Hr. by rewrite Hr in Ht.
    + intros _ Hnone Hall. by rewrite Hnone, Hall in Ht.
    + intros _ Hnone Hall. by rewrite Hnone, Hall in Ht.
Qed.

(** What [addMenuFile] looked up is what the collaborators answer. *)
Lemma Resolved_unique st file fm key allKeys shared fm' key' allKeys' shared' :
  Resolved st file fm key allKeys shared ->
  Resolved st file fm' key' allKeys' shared' ->
  fm' = fm /\ key' = key /\ allKeys' = allKeys /\ shared' = shared.
Proof.
  intros [E1 E2 E3 E4] [F1 F2 F3 F4].
  rewrite E1 in F1. injection F1 as <-.
  rewrite E2 in F2. injection F2 as <-.
  rewrite E3 in F3. injection F3 as <-.
  rewrite E4 in F4. by injection F4 as <-.
Qed.

Lemma addMenuFile_Ok file branchName menu w w' :
  menu < length (menus w) ->
  addMenuFile file branchName menu w = (w', Ok tt) ->
  exists fm key allKeys shared,
    Resolved (settings w) file fm key allKeys shared /\
    if shared && PluginSettings.fileMenu (plugin (settings w))
    then exists rf,
           getRepoFrontmatter (settings w) key fm = Ok rf /\
           if severalChoices allKeys rf
           then ChoiceEntries (settings w) file branchName key menu w w'
           else SingleEntry (settings w) file branchName fm key menu w w'
    else SameHeap w w'.
Proof.
  intros Hmenu Hrun. unfold addMenuFile in Hrun.
  bind_inv Hrun as fm wa Hfm.
  destruct (frontmatterOf_run file w) as [evs Hfm']. rewrite Hfm' in Hfm.
  injection Hfm as <- Efm.
  gets_inv Hrun. simpl in Hrun.
  bind_inv Hrun as key wb Hkey. apply call_Ok in Hkey as [Ekey ->].
  bind_inv Hrun as allKeys wc Hall. apply call_Ok in Hall as [Eall ->].
  bind_inv Hrun as shared wd Hsh. apply call_Ok in Hsh as [Esh ->].
  exists fm, key, allKeys, shared. split; [constructor; assumption|].
  destruct (shared && PluginSettings.fileMenu (plugin (settings w))).
  2:{ injection Hrun as <-. by split. }
  bind_inv Hrun as rf we Hrf. apply call_Ok in Hrf as [Erf ->].
  exists rf. split; [done|].
  set (wx := with_log _ _) in Hrun.
  assert (Hsame : SameHeap w wx) by (by split).
  assert (Hst : settings wx = settings w) by done.
  clearbody wx. rewrite run_addItem in Hrun.
  unfold severalChoices.
  destruct (bool_decide (1 < length allKeys) || isArrayLongerThanOne rf).
  - gets_inv Hrun. bind_inv Hrun as u wP HP. apply parent_run in HP; [|done].
    bind_inv Hrun as sub w1 Hsub. injection Hrun as <-.
    apply subMenuCommandsFile_Ok in Hsub
      as (cache & title & rf' & w0 & new & Ec & Et & Erf' & Ho & Ha & Hc).
    rewrite (pa_settings _ _ _ HP), Hst in Erf', Hc.
    exists cache, title, rf', new. repeat (split; [done|]). split; [|done].
    assert (HP' : ParentAdded menu w wP)
      by (eapply ParentAdded_SameHeap_l; [exact Hsame|done]).
    destruct Hsame as [_ _ Hi Hm].
    rewrite Hi in Ho. by eapply Presented_intro.
  - unfold fileCache, titleField in Hrun.
    bind_inv Hrun as cache w1 Hc. apply call_Ok in Hc as [Ec ->].
    bind_inv Hrun as fileName w2 Hn.
    bind_inv Hn as title w3 Ht. apply call_Ok in Ht as [Et ->].
    injection Hn as <- <-.
    bind_inv Hrun as target w4 Htg.
    apply singleTarget_Ok in Htg as [[_ _ Hi4 Hm4] Htg].
    bind_inv Hrun as smartKey w5 Hsk.
    apply (LogOnly_SameHeap _ _ _ _ (smartKeyOf_LogOnly _)) in Hsk as [_ _ Hi5 Hm5].
    bind_inv Hrun as t w6 Htt.
    apply (LogOnly_SameHeap _ _ _ _ (titleOn_LogOnly _)) in Htt as [_ _ Hi6 Hm6].
    injection Hrun as <-.
    exists cache, title, target, t. repeat (split; [done|]).
    destruct Hsame as [_ _ Hi Hm].
    simpl. rewrite Hi6, Hm6, Hi5, Hm5, Hi4, Hm4. simpl.
    rewrite !alter_last, Hi, Hm. done.
Qed.

End Building.

(** * The store in every run *)

Lemma builtItems_app specs1 specs2 :
  builtItems (specs1 ++ specs2)
  = match (builtItems specs1).2 with
    | None => ((builtItems specs1).1 ++ (builtItems specs2).1, (builtItems specs2).2)
    | Some e => builtItems specs1
    end.
Proof.
  induction specs1 as [|spec specs1 IH]; simpl.
  - by destruct (builtItems specs2).
  - destruct (spec_title spec); [|done]. rewrite IH.
    destruct ((builtItems specs1).2) eqn:E; simpl; by rewrite ?E.
Qed.

Section BuildRules.
Context `{Collaborators}.
Context (st : GitHubPublisherSettings) (sub : menu_id).

Lemma Builds_nil {A} (a : A) : Builds st sub [] a (mret a).
Proof. intros w _. split; [apply Adds_nil | done]. Qed.

Lemma Builds_seq {A} specs1 specs2 (a : A) (m1 : M unit) (m2 : M A) :
  Builds st sub specs1 tt m1 -> Builds st sub specs2 a m2 ->
  Builds st sub (specs1 ++ specs2) a (m1;; m2).
Proof.
  intros H1 H2 w Hst. rewrite run_bind. destruct (H1 w Hst) as [Ha1 Hr1].
  destruct (m1 w) as [w1 r1]. simpl in *.
  destruct ((builtItems specs1).2) as [e|] eqn:E; simpl in Hr1; subst r1.
  - split; rewrite builtItems_app, E; simpl; rewrite ?E; done.
  - destruct (H2 w1) as [Ha2 Hr2]; [by rewrite (adds_settings _ _ _ _ Ha1)|].
    split; rewrite builtItems_app, E; simpl; [by eapply Adds_app | done].
Qed.

Lemma Builds_entry (mk : M string) title icon h :
  Evaluates mk title ->
  Builds st sub [{| spec_title := title; spec_icon := icon; spec_handler := h |}] tt
    (addItem sub (fun item => t ← mk; setTitleIconOnClick item t icon h)).
Proof.
  intros Hmk w _. rewrite run_addItem. rewrite run_bind.
  match goal with |- context [mk ?w1] => destruct (Hmk w1) as [evs ->] end.
  simpl. destruct title as [t|e]; simpl.
  - split; [|done]. split; simpl; auto. by rewrite !alter_last.
  - split; [|done]. split; simpl; auto.
Qed.

Lemma Builds_forEach {A} (spec : A -> EntrySpec) (f : A -> M unit) l :
  (forall x, Builds st sub [spec x] tt (f x)) ->
  Builds st sub (map spec l) tt (forEach l f).
Proof.
  intros Hf. induction l as [|x l IH]; simpl; [apply Builds_nil|].
  by apply (Builds_seq [spec x] _ tt).
Qed.

Lemma Builds_forEach_filter {A} (spec : A -> EntrySpec) (c : A -> bool)
    (f : A -> M unit) l :
  (forall x, Builds st sub [spec x] tt (f x)) ->
  Builds st sub (map spec (List.filter c l)) tt
    (forEach l (fun x => if c x then f x else mret tt)).
Proof.
  intros Hf. induction l as [|x l IH]; simpl; [apply Builds_nil|].
  destruct (c x); simpl.
  - by apply (Builds_seq [spec x] _ tt).
  - apply (Builds_seq [] _ tt); [apply Builds_nil | done].
Qed.

Lemma Builds_settings {A} specs (a : A) (k : GitHubPublisherSettings -> M A) :
  Builds st sub specs a (k st) -> Builds st sub specs a (gets settings ≫= k).
Proof. intros Hk w Hst. rewrite run_bind. simpl. rewrite Hst. by apply Hk. Qed.

Lemma Builds_shortcuts {A} (spec : A -> EntrySpec) (f : A -> M unit) l :
  (forall x, Builds st sub [spec x] tt (f x)) ->
  Builds st sub (map spec l) tt
    (if bool_decide (0 < length l) then forEach l f else mret tt).
Proof.
  intros Hf. case_bool_decide; [by apply Builds_forEach|].
  destruct l; [apply Builds_nil | simpl in *; lia].
Qed.

Lemma opens_run item originalMenu w :
  exists w0 sub,
    (if isDesktop w then setSubmenu item else mret originalMenu) w = (w0, Ok sub) /\
    OpensSubmenu item originalMenu sub w w0.
Proof.
  destruct (isDesktop w) eqn:Ed.
  - eexists _, _. split; [reflexivity|]. eapply (OpensSubmenu_run _ _ true); [done|].
    reflexivity.
  - eexists _, _. split; [reflexivity|]. eapply (OpensSubmenu_run _ _ false); [done|].
    reflexivity.
Qed.

Lemma Evaluates_titleOn smartKey doc :
  Evaluates (titleOn [("smartKey", toUpperCase smartKey); ("doc", doc)])
    (titleOnResult smartKey doc).
Proof.
  intros w. unfold titleOn, translate, titleOnResult, call.
  destruct (i18next_t _ _); by eexists.
Qed.

Lemma Evaluates_titleOnDefault doc :
  Evaluates (titleOnDefault doc) (titleOnDefaultResult doc).
Proof.
  intros w. unfold titleOnDefault, defaultSmartKey, titleOn, translate,
    titleOnDefaultResult, titleOnResult.
  rewrite !run_bind. unfold call.
  destruct (i18next_t "common.default" []) as [d|e]; simpl; [|by eexists [_]].
  destruct (i18next_t _ _); eexists [_; _]; unfold with_log; simpl;
    by rewrite <- !app_assoc.
Qed.

Lemma Evaluates_translate key options :
  Evaluates (translate key options) (i18next_t key options).
Proof. intros w. unfold translate, call. destruct (i18next_t _ _); by eexists. Qed.

End BuildRules.

Section BuildingInEveryRun.
Context `{Collaborators}.

Lemma Builds_when st sub (b : bool) spec (m : M unit) :
  Builds st sub [spec] tt m ->
  Builds st sub (if b then [spec] else []) tt (if b then m else mret tt).
Proof. destruct b; [done | intros _; apply Builds_nil]. Qed.

Lemma folderEntries_Builds st sub folder branchName :
  Builds st sub (folderEntries st folder branchName) sub
    (addItem sub (fun subItem =>
       title ← titleOnDefault (name folder);
       setTitleIconOnClick subItem title "folder-up"
         (OnClickFolderDefault folder branchName));;
     st ← gets settings;
     let activatedRepoCommands :=
       List.filter Repository.createShortcuts (otherRepo (github st)) in
     (if bool_decide (0 < length activatedRepoCommands)
      then forEach activatedRepoCommands (fun otherRepo =>
             addItem sub (fun item =>
               title ← titleOn [("smartKey", toUpperCase (Repository.smartKey otherRepo));
                                ("doc", name folder)];
               setTitleIconOnClick item title "folder-up"
                 (OnClickFolderOther folder branchName otherRepo)))
      else mret tt);;
     addItem sub (fun subItem =>
       title ← translate "commands.shareViewFiles.multiple.other" [];
       setTitleIconOnClick subItem title "folder-symlink"
         (OnClickFolderChooser folder branchName));;
     mret sub).
Proof.
  unfold folderEntries.
  apply (Builds_seq _ _ [_]); [apply Builds_entry, Evaluates_titleOnDefault|].
  apply Builds_settings. cbv zeta.
  apply Builds_seq.
  { apply (Builds_shortcuts _ _
             (fun otherRepo =>
                {| spec_title := titleOnResult (Repository.smartKey otherRepo) (name folder);
                   spec_icon := "folder-up";
                   spec_handler := OnClickFolderOther folder branchName otherRepo |})).
    intros otherRepo. apply Builds_entry, Evaluates_titleOn. }
  rewrite <- (app_nil_r [_]).
  apply Builds_seq; [apply Builds_entry, Evaluates_translate | apply Builds_nil].
Qed.

Lemma addSubMenuCommandsFolder_built item folder branchName originalMenu w :
  FolderSubmenuBuilt item folder branchName originalMenu w
    (addSubMenuCommandsFolder item folder branchName originalMenu w).1
    (addSubMenuCommandsFolder item folder branchName originalMenu w).2.
Proof.
  unfold addSubMenuCommandsFolder. rewrite run_bind. simpl. rewrite run_bind.
  destruct (opens_run item originalMenu w) as (w0 & sub & -> & Ho).
  exists w0, sub. split; [done|].
  apply folderEntries_Builds. apply (opens_settings _ _ _ _ _ Ho).
Qed.

Lemma fileEntries_Builds st sub frontmatter repo repoFrontmatter file branchName fileName :
  Builds st sub
    (fileEntries st frontmatter repo repoFrontmatter file branchName fileName) sub
    (let shareKey := PluginSettings.shareKey (plugin st) in
     (if (bool_decide (Repository.shareKey <$> repo = Some shareKey)
          || truthy_at frontmatter shareKey)
         && (negb (truthy_at frontmatter "repo")
             || negb (truthy_at frontmatter "multipleRepo"))
      then addItem sub (fun subItem =>
             title ← titleOnDefault fileName;
             setTitleIconOnClick subItem title "file-up"
               (OnClickFileDefault branchName file fileName))
      else mret tt);;
     let activatedRepoCommands :=
       List.filter Repository.createShortcuts (otherRepo (github st)) in
     (if bool_decide (0 < length activatedRepoCommands)
      then forEach activatedRepoCommands (fun otherRepo =>
             if bool_decide (Some (Repository.shareKey otherRepo)
                             = Repository.shareKey <$> repo)
                || truthy_at frontmatter (Repository.shareKey otherRepo)
             then addItem sub (fun item =>
                    title ← titleOn [("smartKey", toUpperCase (Repository.smartKey otherRepo));
                                     ("doc", fileName)];
                    setTitleIconOnClick item title "file-up"
                      (OnClickFileOther branchName file otherRepo fileName))
             else mret tt)
      else mret tt);;
     (if bool_decide (1 < length repoFrontmatter)
      then forEach repoFrontmatter (fun repoFront =>
             addItem sub (fun item =>
               title ← titleOn [("smartKey", toUpperCase (RepoFrontmatter.repo repoFront));
                                ("doc", fileName)];
               setTitleIconOnClick item title "file-up"
                 (OnClickFileFront branchName file repo fileName)))
      else mret tt);;
     addItem sub (fun subItem =>
       title ← translate "commands.shareViewFiles.multiple.other" [];
       setTitleIconOnClick subItem title "file-input"
         (OnClickFileChooser repo branchName file fileName));;
     mret sub).
Proof.
  unfold fileEntries, defaultShown. cbv zeta.
  apply Builds_seq; [apply Builds_when, Builds_entry, Evaluates_titleOnDefault|].
  apply Builds_seq.
  { case_bool_decide as Hlen.
    - apply (Builds_forEach_filter _ _
               (fun otherRepo =>
                  {| spec_title := titleOnResult (Repository.smartKey otherRepo) fileName;
                     spec_icon := "file-up";
                     spec_handler := OnClickFileOther branchName file otherRepo fileName |})
               (otherShown repo frontmatter)).
      intros otherRepo. apply Builds_entry, Evaluates_titleOn.
    - destruct (List.filter Repository.createShortcuts (otherRepo (github st)));
        [apply Builds_nil | simpl in Hlen; lia]. }
  apply Builds_seq.
  { case_bool_decide.
    - apply (Builds_forEach _ _
               (fun repoFront =>
                  {| spec_title := titleOnResult (RepoFrontmatter.repo repoFront) fileName;
                     spec_icon := "file-up";
                     spec_handler := OnClickFileFront branchName file repo fileName |})).
      intros repoFront. apply Builds_entry, Evaluates_titleOn.
    - apply Builds_nil. }
  rewrite <- (app_nil_r [_]).
  apply Builds_seq; [apply Builds_entry, Evaluates_translate | apply Builds_nil].
Qed.

Lemma subMenuCommandsFile_built item file branchName repo originalMenu w :
  FileSubmenuBuilt item file branchName repo originalMenu w
    (subMenuCommandsFile item file branchName repo originalMenu w).1
    (subMenuCommandsFile item file branchName repo originalMenu w).2.
Proof.
  destruct (subMenuCommandsFile item file branchName repo originalMenu w)
    as [w' r] eqn:Hrun. simpl.
  unfold subMenuCommandsFile, fileCache, titleField in Hrun.
  unfold FileSubmenuBuilt.
  rewrite run_bind in Hrun. unfold call at 1 in Hrun.
  destruct (getFileCache file) as [cache|e]; [|by injection Hrun as <- <-].
  rewrite !run_bind in Hrun. unfold call at 1 in Hrun.
  destruct (getTitleFieldForCommand file (frontmatterIn cache)) as [title|e];
    [|by injection Hrun as <- <-].
  simpl in Hrun. rewrite !run_bind in Hrun. unfold gets at 1 in Hrun.
  cbn [isDesktop with_log] in Hrun. rewrite run_bind in Hrun.
  match type of Hrun with
  | context [(if isDesktop w then _ else _) ?w1] =>
      destruct (opens_run item originalMenu w1) as (w0 & sub & Hopen & Ho)
  end.
  simpl in Hopen. rewrite Hopen in Hrun. exists w0, sub. split.
  { destruct Ho as [o1 o2 o3 o4 o5]. by split. }
  rewrite run_bind in Hrun. simpl in Hrun. rewrite run_bind in Hrun.
  rewrite (opens_settings _ _ _ _ _ Ho) in Hrun. simpl in Hrun.
  unfold call at 1 in Hrun.
  destruct (getRepoFrontmatter (settings w) repo (frontmatterIn cache)) as [rf|e];
    [|by injection Hrun as <- <-].
  destruct (fileEntries_Builds (settings w) sub (frontmatterIn cache) repo (asArray rf)
              file branchName (str_replace ".md" "" title)
              (with_log (fun l => l ++ [Returned (CGetRepoFrontmatter (settings w) repo
                                                    (frontmatterIn cache))]) w0))
    as [Ha Hr]; [apply (opens_settings _ _ _ _ _ Ho)|].
  cbv zeta in Ha, Hr. rewrite Hrun in Ha, Hr.
  split; [|exact Hr]. destruct Ha as [a1 a2 a3 a4]. by split.
Qed.

End BuildingInEveryRun.

Section Evaluation.
Context `{Collaborators}.

Lemma Evaluates_ret {A} (a : A) : Evaluates (mret a) (Ok a).
Proof.
  intros w. exists []. destruct w. unfold with_log. simpl. by rewrite app_nil_r.
Qed.

Lemma Evaluates_call {A} c (r : Result A) : Evaluates (call c r) r.
Proof. intros w. unfold call. destruct r; by eexists. Qed.

Lemma Evaluates_bind {A B} (m : M A) (k : A -> M B) r (kr : A -> Result B) :
  Evaluates m r -> (forall a, Evaluates (k a) (kr a)) ->
  Evaluates (m ≫= k) (andThen r kr).
Proof.
  intros Hm Hk w. rewrite run_bind. destruct (Hm w) as [evs1 ->].
  destruct r as [a|e]; simpl; [|by exists evs1].
  destruct (Hk a (with_log (fun l => l ++ evs1) w)) as [evs2 ->].
  exists (evs1 ++ evs2). unfold with_log. simpl. by rewrite app_assoc.
Qed.

Lemma Evaluates_defaultSmartKey :
  Evaluates defaultSmartKey
    (andThen (i18next_t "common.default" []) (fun d => Ok (toUpperCase d))).
Proof.
  unfold defaultSmartKey, translate.
  apply Evaluates_bind; [apply Evaluates_call | intros d; apply Evaluates_ret].
Qed.

Lemma Evaluates_smartKeyOf target :
  Evaluates (smartKeyOf target) (smartKeyResult target).
Proof.
  unfold smartKeyOf, smartKeyResult.
  destruct target as [r|]; [case_bool_decide|];
    first [apply Evaluates_defaultSmartKey | apply Evaluates_ret].
Qed.

Lemma Evaluates_singleTarget st frontmatter getSharedKey :
  Evaluates (singleTarget st frontmatter getSharedKey)
    (singleTargetResult st frontmatter getSharedKey).
Proof.
  unfold singleTarget, singleTargetResult. cbv zeta.
  repeat match goal with
         | |- Evaluates (if ?b then _ else _) _ => destruct b
         | |- Evaluates (match ?x with Some _ => _ | None => _ end) _ => destruct x
         end;
    first [ apply Evaluates_ret
          | apply Evaluates_bind; [apply Evaluates_call | intros d; apply Evaluates_ret] ].
Qed.

Lemma parent_added menu w :
  exists wP,
    (if isDesktop w
     then setTitle (length (items w)) "Github Publisher";;
          setIcon (length (items w)) "upload-cloud"
     else addSeparator menu;; setIsLabel (length (items w)) true)
      (with_menus (alter (fun es => es ++ [EItem (length (items w))]) menu)
         (with_items (fun l => l ++ [newMenuItem]) w))
    = (wP, Ok tt) /\
    ParentAdded menu w wP.
Proof.
  destruct (isDesktop w) eqn:Ed.
  - eexists. split; [reflexivity|]. eapply (parent_run _ true); [done | reflexivity].
  - eexists. split; [reflexivity|]. eapply (parent_run _ false); [done | reflexivity].
Qed.

Lemma addMenuFolder_built menu folder branchName w :
  FolderMenuBuilt menu folder branchName w
    (addMenuFolder menu folder branchName w).1
    (addMenuFolder menu folder branchName w).2.
Proof.
  unfold FolderMenuBuilt, addMenuFolder. rewrite run_addItem, run_bind. simpl.
  destruct (bool_decide (0 < length (otherRepo (github (settings w))))).
  - rewrite run_bind. simpl. rewrite run_bind.
    destruct (parent_added menu w) as (wP & -> & HP). rewrite run_bind.
    pose proof (addSubMenuCommandsFolder_built (length (items w)) folder branchName
                  menu wP) as Hsub.
    destruct (addSubMenuCommandsFolder (length (items w)) folder branchName menu wP)
      as [w' r']. simpl in Hsub.
    destruct r'; simpl; eexists wP, _; (split; [done|]); (split; [exact Hsub | done]).
  - rewrite run_bind. simpl. rewrite run_bind.
    match goal with
    | |- context [titleOnDefault _ ?w2] =>
        destruct (Evaluates_titleOnDefault (name folder) w2) as [evs ->]
    end.
    destruct (titleOnDefaultResult (name folder)) as [t|e]; simpl.
    + split; [|done]. split; simpl; auto. by rewrite !alter_last.
    + split; [|done]. split; simpl; auto. by rewrite !alter_last.
Qed.

Lemma Finishes_bind {A} (m : M A) (k : A -> M unit) l r (kr : A -> Result MenuItem) :
  Evaluates m r -> (forall a, Finishes (k a) l (kr a)) ->
  Finishes (m ≫= k) l (andThen r kr).
Proof.
  intros Hm Hk w1 Hi. rewrite run_bind. destruct (Hm w1) as [evs ->].
  destruct r as [a|e]; simpl; [|by rewrite Hi].
  by destruct (Hk a (with_log (fun l => l ++ evs) w1) Hi) as (? & ? & ? & ? & ?).
Qed.

Lemma Finishes_set l title icon h :
  Finishes (setTitleIconOnClick (length l) title icon h) l
    (Ok (actionItem title icon h)).
Proof. intros w1 Hi. simpl. rewrite Hi, !alter_last. done. Qed.

Lemma singleEntry_Finishes st file branchName frontmatter getSharedKey l :
  Finishes
    (cache ← fileCache file;
     fileName ← titleField file (frontmatterIn cache);
     getSharedKey ← singleTarget st frontmatter getSharedKey;
     smartKey ← smartKeyOf getSharedKey;
     title ← titleOn [("doc", fileName); ("smartKey", smartKey)];
     setTitleIconOnClick (length l) title "file-up"
       (OnClickFileSingle branchName file getSharedKey fileName))
    l (singleEntryResult st file branchName frontmatter getSharedKey).
Proof.
  unfold singleEntryResult, fileCache, titleField.
  apply Finishes_bind; [apply Evaluates_call | intros cache].
  intros w1 Hi. rewrite !run_bind. unfold call at 1.
  destruct (getTitleFieldForCommand file (frontmatterIn cache)) as [title|e];
    simpl; [|by rewrite Hi].
  refine (Finishes_bind _ _ _ _ _ (Evaluates_singleTarget _ _ _) _ _ _); [|done].
  intros target. apply Finishes_bind; [apply Evaluates_smartKeyOf | intros smartKey].
  apply Finishes_bind; [apply Evaluates_call | intros t]. apply Finishes_set.
Qed.

Lemma addMenuFile_built file branchName menu w :
  FileMenuBuilt file branchName menu w
    (addMenuFile file branchName menu w).1 (addMenuFile file branchName menu w).2.
Proof.
  destruct (addMenuFile file branchName menu w) as [w' r] eqn:Hrun. simpl.
  unfold addMenuFile in Hrun. unfold FileMenuBuilt, afterLookup. cbv zeta.
  rewrite run_bind in Hrun.
  destruct (frontmatterOf_run file w) as [evs Hfm]. rewrite Hfm in Hrun. clear Hfm.
  destruct (frontmatterResult file) as [fm|e]; [|by injection Hrun as <- <-].
  rewrite run_bind in Hrun. simpl in Hrun.
  rewrite run_bind in Hrun. unfold call at 1 in Hrun.
  destruct (getRepoSharedKey (settings w) fm) as [key|e];
    [|by injection Hrun as <- <-].
  rewrite run_bind in Hrun. unfold call at 1 in Hrun.
  destruct (multipleSharedKey fm (settings w)) as [allKeys|e];
    [|by injection Hrun as <- <-].
  rewrite run_bind in Hrun. unfold call at 1 in Hrun.
  destruct (isShared fm (settings w) file key) as [shared|e];
    [|by injection Hrun as <- <-].
  destruct (shared && PluginSettings.fileMenu (plugin (settings w)));
    [|by injection Hrun as <- <-].
  rewrite run_bind in Hrun. unfold call at 1 in Hrun.
  destruct (getRepoFrontmatter (settings w) key fm) as [rf|e];
    [|by injection Hrun as <- <-].
  set (wx := with_log _ _) in Hrun.
  assert (Hsame : SameHeap w wx) by (by split).
  assert (Hi : items wx = items w) by done.
  assert (Hm : menus wx = menus w) by done.
  assert (Hst : settings wx = settings w) by done.
  assert (Hd : isDesktop wx = isDesktop w) by done.
  clearbody wx. rewrite run_addItem in Hrun. unfold severalChoices.
  destruct (bool_decide (1 < length allKeys) || isArrayLongerThanOne rf).
  - rewrite run_bind in Hrun. unfold gets at 1 in Hrun.
    cbn [isDesktop with_menus with_items] in Hrun. rewrite run_bind in Hrun.
    destruct (parent_added menu wx) as (wP & HPrun & HP). rewrite HPrun in Hrun.
    rewrite run_bind in Hrun.
    pose proof (subMenuCommandsFile_built (length (items wx)) file branchName key
                  menu wP) as Hsub.
    destruct (subMenuCommandsFile (length (items wx)) file branchName key menu wP)
      as [w2 r2]. simpl in Hsub. rewrite Hi in Hsub.
    assert (ParentAdded menu w wP) as HP'
      by (eapply ParentAdded_SameHeap_l; [exact Hsame | done]).
    destruct r2; injection Hrun as <- <-;
      eexists wP, _; (split; [done|]); (split; [exact Hsub | done]).
  - destruct (singleEntry_Finishes (settings w) file branchName fm key (items wx)
                (with_menus (alter (fun es => es ++ [EItem (length (items wx))]) menu)
                   (with_items (fun l => l ++ [newMenuItem]) wx)))
      as (Hs1 & Hd1 & Hm1 & Hi1 & Hr1); [done|].
    rewrite Hrun in Hs1, Hd1, Hm1, Hi1, Hr1. simpl in Hs1, Hd1, Hm1, Hi1, Hr1.
    split; [|done].
    split; simpl; rewrite ?Hs1, ?Hd1, ?Hm1, ?Hi1, ?Hi, ?Hm, ?Hst, ?Hd; done.
Qed.

End Evaluation.

Lemma shareFolderRepo_SameHeap `{Collaborators} folder branchName repo w :
  SameHeap w (shareFolderRepo folder branchName repo w).1.
Proof.
  unfold shareFolderRepo. cbv [mbind M_bind bind call gets mret M_ret ret].
  repeat (match goal with
          | |- context [match ?r with Ok _ => _ | Err _ => _ end] => destruct r
          end; cbv beta iota);
    by split.
Qed.

(** * The claims *)

Section Claims.
Context `{Collaborators}.

(** C2. [addMenuFile] touches the menu only for a file that [isShared]
    determined to be shared while the [fileMenu] setting is on: for any other
    file it leaves every menu and every item as they were (whether it returns
    or a collaborator raises). *)
Theorem addMenuFile_only_when_shared w file branchName menu :
  ~ (DeterminedShared (settings w) file /\
     PluginSettings.fileMenu (plugin (settings w)) = true) ->
  SameHeap w (addMenuFile file branchName menu w).1.
Proof.
  intros Hgate. unfold addMenuFile. rewrite run_bind.
  destruct (frontmatterOf_run file w) as [evs ->].
  destruct (frontmatterResult file) as [fm|e] eqn:Efm; [|by split].
  rewrite run_bind. simpl. rewrite run_bind. unfold call at 1.
  destruct (getRepoSharedKey (settings w) fm) as [key|e] eqn:Ekey; [|by split].
  rewrite run_bind. unfold call at 1.
  destruct (multipleSharedKey fm (settings w)) as [allKeys|e]; [|by split].
  rewrite run_bind. unfold call at 1.
  destruct (isShared fm (settings w) file key) as [shared|e] eqn:Esh; [|by split].
  destruct shared; [|by split].
  destruct (PluginSettings.fileMenu (plugin (settings w))) eqn:Efile; [|by split].
  destruct Hgate. split; [|done]. by exists fm, key.
Qed.

(** C3, amended. For a shared file with the file menu on, [addMenuFile]
    presents the choices of [subMenuCommandsFile] exactly when the file has
    more than one shared key or its repository frontmatter is an array longer
    than one: nested under a parent entry on the desktop, in line after a
    label and a separator on other platforms.  Otherwise it adds a single
    action entry. *)
Theorem addMenuFile_presents menu file branchName w w' fm key allKeys rf :
  menu < length (menus w) ->
  Resolved (settings w) file fm key allKeys true ->
  PluginSettings.fileMenu (plugin (settings w)) = true ->
  getRepoFrontmatter (settings w) key fm = Ok rf ->
  addMenuFile file branchName menu w = (w', Ok tt) ->
  if severalChoices allKeys rf
  then exists choices hs,
         PresentsChoices menu choices w w' /\
         map (handlerOf w') choices = map Some hs /\
         FileSubmenuHandlers (settings w) file branchName key hs
  else exists target fileName,
         SingleAction menu (OnClickFileSingle branchName file target fileName) w w'.
Proof.
  intros Hmenu Hres Hfile Hrf Hrun.
  destruct (addMenuFile_Ok _ _ _ _ _ Hmenu Hrun)
    as (fm' & key' & allKeys' & shared' & Hres' & Hok).
  destruct (Resolved_unique _ _ _ _ _ _ _ _ _ _ Hres Hres') as (-> & -> & -> & ->).
  rewrite Hfile in Hok. simpl in Hok. destruct Hok as (rf' & Hrf' & Hok).
  rewrite Hrf in Hrf'. injection Hrf' as <-.
  destruct (severalChoices allKeys rf).
  - destruct Hok as (cache & t & rf' & new & Ec & Et & Erf' & Hp & Hc).
    apply FileChoices_handlers in Hc.
    destruct (Presented_choices _ _ _ _ _ Hp Hc) as (choices & Hpc & Hh).
    eexists choices, _. repeat (split; [done|]). by exists cache, t, rf'.
  - destruct Hok as (cache & t & target & tt' & _ & _ & _ & Hi & Hm).
    exists target, (str_replace ".md" "" t). by eapply SingleAction_intro.
Qed.

(** C4, amended. In the single-entry case, the entry [addMenuFile] adds
    shares the note to a target resolved from the frontmatter by the value
    of the share key, not by its presence: without frontmatter, or when
    [frontmatter[shareKey]] is falsy (the key is missing, or present with a
    falsy value), the first other repository with [shareAll] enabled, or
    else the default repository when the plugin's own [shareAll] is enabled
    (and otherwise the repository [getRepoSharedKey] resolved); when
    [frontmatter[shareKey]] is truthy, the default repository. *)
Theorem addMenuFile_single_target menu file branchName w w' fm key allKeys rf :
  menu < length (menus w) ->
  Resolved (settings w) file fm key allKeys true ->
  PluginSettings.fileMenu (plugin (settings w)) = true ->
  getRepoFrontmatter (settings w) key fm = Ok rf ->
  severalChoices allKeys rf = false ->
  addMenuFile file branchName menu w = (w', Ok tt) ->
  exists target fileName,
    handlerOf w' (EItem (length (items w)))
    = Some (OnClickFileSingle branchName file target fileName) /\
    runHandler (OnClickFileSingle branchName file target fileName)
    = shareOneNoteWith branchName file (mret target) fileName /\
    TargetResolved (settings w) fm key target.
Proof.
  intros Hmenu Hres Hfile Hrf Hsingle Hrun.
  destruct (addMenuFile_Ok _ _ _ _ _ Hmenu Hrun)
    as (fm' & key' & allKeys' & shared' & Hres' & Hok).
  destruct (Resolved_unique _ _ _ _ _ _ _ _ _ _ Hres Hres') as (-> & -> & -> & ->).
  rewrite Hfile in Hok. simpl in Hok. destruct Hok as (rf' & Hrf' & Hok).
  rewrite Hrf in Hrf'. injection Hrf' as <-. rewrite Hsingle in Hok.
  destruct Hok as (cache & t & target & tt' & _ & _ & Ht & Hi & Hm).
  exists target, (str_replace ".md" "" t). split; [|split].
  - unfold handlerOf. simpl. by rewrite Hi, list_lookup_middle.
  - reflexivity.
  - by apply SingleTarget_resolved.
Qed.

(** C5, amended. With at least one other repository configured,
    [addMenuFolder] presents the choices of [addSubMenuCommandsFolder]:
    nested under a parent entry on the desktop, in line after a label and a
    separator on other platforms.  With none, it adds exactly one entry,
    whose handler shares the folder to the repository [getRepoSharedKey]
    resolves. *)
Theorem addMenuFolder_presents menu folder branchName w w' :
  menu < length (menus w) ->
  addMenuFolder menu folder branchName w = (w', Ok tt) ->
  if bool_decide (0 < length (otherRepo (github (settings w))))
  then exists choices,
         PresentsChoices menu choices w w' /\
         map (handlerOf w') choices
         = map Some (folderHandlers (settings w) folder branchName)
  else SingleAction menu (OnClickFolderSingle folder branchName) w w' /\
       SharesFolderToDefault (OnClickFolderSingle folder branchName) folder branchName.
Proof.
  intros Hmenu Hrun. pose proof (addMenuFolder_Ok _ _ _ _ _ Hmenu Hrun) as Hok.
  destruct (bool_decide (0 < length (otherRepo (github (settings w))))).
  - destruct Hok as (new & Hp & Hc).
    apply (Presented_choices _ _ _ _ _ Hp). by apply FolderChoices_handlers.
  - destruct Hok as (t & w1 & w2 & _ & Hi & Hm). split; [|reflexivity].
    by eapply SingleAction_intro.
Qed.

(** C6, amended. The entries [addSubMenuCommandsFolder] adds are, in order,
    the default-repository entry, one entry per other repository whose
    [createShortcuts] flag is set, and the entry that opens the chooser.  On
    the desktop they are all the returned submenu holds; on other platforms
    they follow what the original menu already held. *)
Theorem addSubMenuCommandsFolder_entries item folder branchName originalMenu w w' sub :
  originalMenu < length (menus w) ->
  addSubMenuCommandsFolder item folder branchName originalMenu w = (w', Ok sub) ->
  exists added,
    entriesOf w' sub
    = (if isDesktop w then [] else entriesOf w originalMenu) ++ added /\
    map (handlerOf w') added
    = map Some (folderHandlers (settings w) folder branchName).
Proof.
  intros Hmenu Hrun.
  apply addSubMenuCommandsFolder_Ok in Hrun as (w0 & new & Ho & Ha & Hc).
  pose proof (OpensSubmenu_valid _ _ _ _ _ Ho Hmenu) as Hsub.
  exists (map EItem (seq (length (items w0)) (length new))). split.
  - by rewrite (Adds_entries _ _ _ _ Ha Hsub), (OpensSubmenu_entries _ _ _ _ _ Ho).
  - rewrite (new_handlers _ _ _ (Adds_items_new _ _ _ _ Ha)).
    by apply FolderChoices_handlers.
Qed.

(** C7. Building a menu never shares: whatever the world and the
    collaborators' answers, none of the four construction functions calls
    [shareOneNote] or [shareAllMarkedNotes].  A share is called by a click
    handler when it fires, or by the chooser's callback, and then for the
    repository held for that item: the one its closure captured, the default
    one resolved at that time, or the one picked in the chooser. *)
Theorem construction_never_shares :
  (forall file branchName menu, NeverShares (addMenuFile file branchName menu)) /\
  (forall item file branchName repo originalMenu,
      NeverShares (subMenuCommandsFile item file branchName repo originalMenu)) /\
  (forall menu folder branchName, NeverShares (addMenuFolder menu folder branchName)) /\
  (forall item folder branchName originalMenu,
      NeverShares (addSubMenuCommandsFolder item folder branchName originalMenu)) /\
  (forall h w, SharesOnlyTo (firedTarget (settings w) h) (runHandler h) w) /\
  (forall onSubmit item w,
      SharesOnlyTo (Some (Some item)) (runCallback onSubmit item) w).
Proof.
  repeat split; intros.
  - eapply NeverShares_Inv, addMenuFile_Inv.
  - eapply NeverShares_Inv, subMenuCommandsFile_Inv.
  - eapply NeverShares_Inv, addMenuFolder_Inv.
  - eapply NeverShares_Inv, addSubMenuCommandsFolder_Inv.
  - apply runHandler_target.
  - apply runCallback_target.
Qed.

(** C8. None of the five exported functions handles an error.  In every run
    the calls made before the last all returned, and when a collaborator
    raises, the run ends there with that same error; the code raises no
    error of its own, but for the TypeError of [addMenuFile] on a [null]
    cache entry.  And the store the caller finds is the store as the run had
    built it: [shareFolderRepo] leaves it alone; a lookup that raises before
    the menu is touched leaves it as it was; once the entry, its parent
    title or its submenu is there it stays; the entries are there up to the
    one whose title raised, which is in the menu as the host created it. *)
Theorem errors_propagate :
  ((forall folder branchName repo,
      Propagates noError (shareFolderRepo folder branchName repo)) /\
   (forall file branchName menu,
      Propagates nullFrontmatter (addMenuFile file branchName menu)) /\
   (forall item file branchName repo originalMenu,
      Propagates noError (subMenuCommandsFile item file branchName repo originalMenu)) /\
   (forall menu folder branchName,
      Propagates noError (addMenuFolder menu folder branchName)) /\
   (forall item folder branchName originalMenu,
      Propagates noError (addSubMenuCommandsFolder item folder branchName originalMenu))) /\
  (forall folder branchName repo w,
     SameHeap w (shareFolderRepo folder branchName repo w).1) /\
  (forall file branchName menu w,
     FileMenuBuilt file branchName menu w
       (addMenuFile file branchName menu w).1
       (addMenuFile file branchName menu w).2) /\
  (forall item file branchName repo originalMenu w,
     FileSubmenuBuilt item file branchName repo originalMenu w
       (subMenuCommandsFile item file branchName repo originalMenu w).1
       (subMenuCommandsFile item file branchName repo originalMenu w).2) /\
  (forall menu folder branchName w,
     FolderMenuBuilt menu folder branchName w
       (addMenuFolder menu folder branchName w).1
       (addMenuFolder menu folder branchName w).2) /\
  (forall item folder branchName originalMenu w,
     FolderSubmenuBuilt item folder branchName originalMenu w
       (addSubMenuCommandsFolder item folder branchName originalMenu w).1
       (addSubMenuCommandsFolder item folder branchName originalMenu w).2).
Proof.
  split.
  { unfold Propagates. repeat split; intros.
    - apply shareFolderRepo_Inv.
    - eapply Inv_weaken; [| |apply addMenuFile_Inv]; done.
    - eapply Inv_weaken; [| |apply subMenuCommandsFile_Inv]; done.
    - eapply Inv_weaken; [| |apply addMenuFolder_Inv]; done.
    - eapply Inv_weaken; [| |apply addSubMenuCommandsFolder_Inv]; done. }
  split; [intros; apply shareFolderRepo_SameHeap|].
  split; [intros; apply addMenuFile_built|].
  split; [intros; apply subMenuCommandsFile_built|].
  split; [intros; apply addMenuFolder_built|].
  intros; apply addSubMenuCommandsFolder_built.
Qed.

(** C9. On a [TFile] for which the metadata cache has no entry,
    [addMenuFile] reads [.frontmatter] of [null]: it raises a TypeError right
    after the lookup, before any other call, and returns nothing. *)
Theorem addMenuFile_uncached_raises w (f : TFile) branchName menu :
  getFileCache (AFile f) = Ok None ->
  addMenuFile (AFile f) branchName menu w
  = (with_log (fun l => l ++ [Returned (CGetFileCache (AFile f))]) w,
     Err (TypeError "Cannot read properties of null (reading 'frontmatter')")).
Proof.
  intros Hcache. unfold addMenuFile, frontmatterOf, fileCache. simpl.
  rewrite !run_bind. unfold call. by rewrite Hcache.
Qed.

(** C10. Whenever one of the two submenu functions returns, the menu it
    returns ends with the entry titled by
    [commands.shareViewFiles.multiple.other], whatever entries came before
    it, and a click on that entry makes exactly one call: it opens the
    [ChooseRepoToRun] chooser. *)
Theorem submenu_ends_with_chooser s item branchName originalMenu w w' sub :
  originalMenu < length (menus w) ->
  buildSubmenu s item branchName originalMenu w = (w', Ok sub) ->
  exists e t,
    last (entriesOf w' sub) = Some e /\
    ClickOpensChooser s branchName w' e /\
    titleOf w' e = Some t /\
    i18next_t "commands.shareViewFiles.multiple.other" [] = Ok t.
Proof.
  intros Hmenu Hrun.
  assert (exists w0 pre icon h c,
             OpensSubmenu item originalMenu sub w w0 /\
             Adds sub (pre ++ [c]) w0 w' /\ ChooserItem icon h c /\
             exists k ty f cb,
               runHandler h = chooseRepoToRun k branchName ty f cb /\
               chooserOpened s branchName (CChooseRepoToRun k branchName ty f cb))
    as (w0 & pre & icon & h & c & Ho & Ha & Hc & k & ty & f & cb & Hh & Hk).
  { destruct s as [folder|file repo]; simpl in Hrun.
    - apply addSubMenuCommandsFolder_Ok in Hrun
        as (w0 & new & Ho & Ha & d & others & c & -> & _ & _ & Hc).
      exists w0, (d :: others), "folder-symlink",
        (OnClickFolderChooser folder branchName), c.
      repeat (split; [done|]). by eexists _, _, _, _.
    - apply subMenuCommandsFile_Ok in Hrun
        as (cache & t & rf & w0 & new & _ & _ & _ & Ho & Ha & Hch).
      destruct Hch as (ds & others & fronts & c & -> & _ & _ & _ & Hc).
      exists w0, (ds ++ others ++ fronts), "file-input",
        (OnClickFileChooser repo branchName file (str_replace ".md" "" t)), c.
      rewrite <- !app_assoc. repeat (split; [done|]).
      eexists _, _, _, _. split; [reflexivity|]. simpl. eauto. }
  pose proof (OpensSubmenu_valid _ _ _ _ _ Ho Hmenu) as Hsub.
  destruct (Adds_last _ _ _ _ _ Ha Hsub) as (e & Hlast & He).
  destruct (ChooserItem_title _ _ _ Hc) as (t & Ht & Htitle & Hcb).
  exists e, t. unfold titleOf. rewrite He. simpl.
  split; [done|]. split; [|done].
  destruct e as [i|]; [|discriminate]. simpl in He.
  assert (click i w' = runHandler h w') as Hclick.
  { unfold click. rewrite run_bind. simpl. rewrite He. simpl. by rewrite Hcb. }
  destruct (chooseRepoToRun_open k branchName ty f cb) eqn:E;
    eexists i, _; (split; [done|]); rewrite Hclick, Hh;
    unfold chooseRepoToRun, call; rewrite E; (split; [reflexivity | exact Hk]).
Qed.

End Claims.

(** * Further properties *)

Lemma Forall2_compose {A B C} (R : A -> B -> Prop) (S : B -> C -> Prop)
    (T : A -> C -> Prop) la lb lc :
  (forall a b c, R a b -> S b c -> T a c) ->
  Forall2 R la lb -> Forall2 S lb lc -> Forall2 T la lc.
Proof.
  intros HT HR. revert lc. induction HR as [|a b la lb Hab _ IH]; intros lc HS.
  - inversion HS. constructor.
  - inversion HS as [|b' c lb' lc' Hbc Hrest]; subst. constructor; eauto.
Qed.

Lemma Forall2_map_spec {A B C} (R : A -> B -> Prop) (f : A -> C)
    (S : B -> C -> Prop) l new :
  (forall x it, R x it -> S it (f x)) ->
  Forall2 R l new -> Forall2 S new (map f l).
Proof. intros HS. induction 1; simpl; constructor; auto. Qed.

Section Entries.
Context `{Collaborators}.

Lemma titleOn_result smartKey doc w1 w2 t :
  titleOn [("smartKey", toUpperCase smartKey); ("doc", doc)] w1 = (w2, Ok t) ->
  titleOnResult smartKey doc = Ok t.
Proof. intros Hrun. by apply call_Ok in Hrun as [Hrun _]. Qed.

Lemma titleOnDefault_result doc w1 w2 t :
  titleOnDefault doc w1 = (w2, Ok t) -> titleOnDefaultResult doc = Ok t.
Proof.
  unfold titleOnDefault, defaultSmartKey, titleOnDefaultResult. intros Hrun.
  bind_inv Hrun as sk w3 Hsk. bind_inv Hsk as d w4 Hd.
  apply call_Ok in Hd as [Hd _]. injection Hsk as <- <-.
  rewrite Hd. by apply call_Ok in Hrun as [Hrun _].
Qed.

Lemma translate_result key options w1 w2 t :
  translate key options w1 = (w2, Ok t) -> i18next_t key options = Ok t.
Proof. intros Hrun. by apply call_Ok in Hrun as [Hrun _]. Qed.

Lemma FolderChoices_fit st folder branchName new :
  FolderChoices st folder branchName new ->
  Forall2 Fits new (folderEntries st folder branchName).
Proof.
  intros (d & others & c & -> & Hd & Ho & Hc). unfold folderEntries.
  constructor.
  - destruct Hd as (t & w1 & w2 & Ht & ->). exists t. split; [|done].
    by apply titleOnDefault_result in Ht.
  - apply Forall2_app.
    + eapply Forall2_map_spec; [|exact Ho]. simpl.
      intros r it (t & w1 & w2 & Ht & ->). exists t. split; [|done].
      by apply titleOn_result in Ht.
    + constructor; [|constructor].
      destruct Hc as (t & w1 & w2 & Ht & ->). exists t. split; [|done].
      by apply translate_result in Ht.
Qed.

Lemma FileChoices_fit st fm repo rfs file branchName fileName new :
  FileChoices st fm repo rfs file branchName fileName new ->
  Forall2 Fits new (fileEntries st fm repo rfs file branchName fileName).
Proof.
  intros (ds & others & fronts & c & -> & Hd & Ho & Hf & Hc). unfold fileEntries.
  repeat apply Forall2_app.
  - destruct (defaultShown st repo fm).
    + inversion Hd as [|u d l ds' Hd1 Hrest]; subst. inversion Hrest; subst.
      constructor; [|constructor].
      destruct Hd1 as (t & w1 & w2 & Ht & ->). exists t. split; [|done].
      by apply titleOnDefault_result in Ht.
    + inversion Hd. constructor.
  - eapply Forall2_map_spec; [|exact Ho]. simpl.
    intros r it (t & w1 & w2 & Ht & ->). exists t. split; [|done].
    by apply titleOn_result in Ht.
  - eapply Forall2_map_spec; [|exact Hf]. simpl.
    intros r it (t & w1 & w2 & Ht & ->). exists t. split; [|done].
    by apply titleOn_result in Ht.
  - constructor; [|constructor].
    destruct Hc as (t & w1 & w2 & Ht & ->). exists t. split; [|done].
    by apply translate_result in Ht.
Qed.

Lemma Fits_shows w' added new specs :
  Forall2 (fun e it => itemOf w' e = Some it) added new ->
  Forall2 Fits new specs -> Forall2 (Shows w') added specs.
Proof.
  apply Forall2_compose. intros e it spec He (t & Ht & ->). by exists t.
Qed.

(** X2. The folder submenu, entry by entry: each entry added is an action item
    with its icon, titled by the translation that names, in upper case, the
    smart key of the repository its click shares to. *)
Theorem addSubMenuCommandsFolder_shows item folder branchName originalMenu w w' sub :
  originalMenu < length (menus w) ->
  addSubMenuCommandsFolder item folder branchName originalMenu w = (w', Ok sub) ->
  exists added,
    entriesOf w' sub
    = (if isDesktop w then [] else entriesOf w originalMenu) ++ added /\
    Forall2 (Shows w') added (folderEntries (settings w) folder branchName).
Proof.
  intros Hmenu Hrun.
  apply addSubMenuCommandsFolder_Ok in Hrun as (w0 & new & Ho & Ha & Hc).
  pose proof (OpensSubmenu_valid _ _ _ _ _ Ho Hmenu) as Hsub.
  exists (map EItem (seq (length (items w0)) (length new))). split.
  - by rewrite (Adds_entries _ _ _ _ Ha Hsub), (OpensSubmenu_entries _ _ _ _ _ Ho).
  - eapply Fits_shows; [by eapply Adds_items_new | by apply FolderChoices_fit].
Qed.

(** X1. The file submenu, entry by entry.  The entries are those of
    [fileEntries] at what the function looks up: the default entry when
    [defaultShown], one entry per repository with shortcuts that
    [otherShown], one entry per element of a repository frontmatter longer
    than one, the chooser. *)
Theorem subMenuCommandsFile_shows item file branchName repo originalMenu w w' sub :
  originalMenu < length (menus w) ->
  subMenuCommandsFile item file branchName repo originalMenu w = (w', Ok sub) ->
  exists added cache title rf,
    getFileCache file = Ok cache /\
    getTitleFieldForCommand file (frontmatterIn cache) = Ok title /\
    getRepoFrontmatter (settings w) repo (frontmatterIn cache) = Ok rf /\
    entriesOf w' sub
    = (if isDesktop w then [] else entriesOf w originalMenu) ++ added /\
    Forall2 (Shows w') added
      (fileEntries (settings w) (frontmatterIn cache) repo (asArray rf) file
         branchName (str_replace ".md" "" title)).
Proof.
  intros Hmenu Hrun.
  apply subMenuCommandsFile_Ok in Hrun
    as (cache & t & rf & w0 & new & Ec & Et & Erf & Ho & Ha & Hc).
  pose proof (OpensSubmenu_valid _ _ _ _ _ Ho Hmenu) as Hsub.
  exists (map EItem (seq (length (items w0)) (length new))), cache, t, rf.
  repeat (split; [done|]). split.
  - by rewrite (Adds_entries _ _ _ _ Ha Hsub), (OpensSubmenu_entries _ _ _ _ _ Ho).
  - eapply Fits_shows; [by eapply Adds_items_new | by apply FileChoices_fit].
Qed.

End Entries.

Section Firing.
Context `{Collaborators}.

Lemma shareFolderRepo_shared folder branchName repo w w' :
  shareFolderRepo folder branchName repo w = (w', Ok tt) -> SharedTo [repo] w w'.
Proof.
  unfold shareFolderRepo. intros Hrun.
  bind_inv Hrun as publisher w1 H1. apply call_Ok in H1 as [_ ->].
  bind_inv Hrun as bar w2 H2. apply call_Ok in H2 as [_ ->].
  gets_inv Hrun.
  bind_inv Hrun as fm w3 H3. apply call_Ok in H3 as [_ ->].
  bind_inv Hrun as files w4 H4. apply call_Ok in H4 as [_ ->].
  apply call_Ok in Hrun as [_ ->].
  split; [by split|]. eexists. split; [simpl; rewrite <- !app_assoc; reflexivity|].
  split; [by repeat constructor | reflexivity].
Qed.

Lemma shareOneNoteWith_shared branchName file repoArg fileName repo evs w w' :
  (forall w1 w2 r, repoArg w1 = (w2, Ok r) ->
     r = repo /\ w2 = with_log (fun l => l ++ evs) w1) ->
  Forall (fun ev => isReturned ev = true) evs ->
  shareCalls evs = [] ->
  shareOneNoteWith branchName file repoArg fileName w = (w', Ok tt) ->
  SharedTo [repo] w w'.
Proof.
  unfold shareOneNoteWith. intros Harg Hret Hnone Hrun.
  bind_inv Hrun as publisher w1 H1. apply call_Ok in H1 as [_ ->].
  bind_inv Hrun as r w2 H2. apply Harg in H2 as [-> ->].
  apply call_Ok in Hrun as [_ ->].
  split; [by split|].
  exists (Returned CReloadOctokit :: evs
          ++ [Returned (CShareOneNote branchName file repo fileName)]).
  split; [simpl; by rewrite <- !app_assoc|]. split.
  - constructor; [done|]. apply Forall_app. split; [done | by repeat constructor].
  - unfold shareCalls in *. simpl. rewrite map_app, List.filter_app, Hnone. reflexivity.
Qed.

Lemma shareOneNote_captured_shared branchName file repo fileName w w' :
  shareOneNoteWith branchName file (mret repo) fileName w = (w', Ok tt) ->
  SharedTo [repo] w w'.
Proof.
  apply (shareOneNoteWith_shared _ _ _ _ repo []); [|constructor|done].
  intros w1 w2 r [= <- <-]. split; [done|]. unfold with_log. simpl.
  destruct w1. simpl. by rewrite app_nil_r.
Qed.

(** X6. A click handler that returns has shared exactly once, to the repository
    [firedTarget] names, every call it made having returned; a handler that
    opens the chooser has shared nothing.  The menus, the items and the
    settings are as before. *)
Theorem runHandler_shares_once h w w' :
  runHandler h w = (w', Ok tt) ->
  SharedTo (option_list (firedTarget (settings w) h)) w w'.
Proof.
  assert (forall folder branchName,
    (st ← gets settings;
     repo ← call (CGetRepoSharedKey st None) (getRepoSharedKey st None);
     shareFolderRepo folder branchName repo) w = (w', Ok tt) ->
    SharedTo
      (option_list
         match getRepoSharedKey (settings w) None with
         | Ok repo => Some repo | Err _ => None end) w w') as Hfolder.
  { intros folder branchName Hrun. gets_inv Hrun.
    bind_inv Hrun as repo w1 H1. apply call_Ok in H1 as [-> ->].
    apply shareFolderRepo_shared in Hrun as [[] (evs & Hl & Hret & Hsh)].
    split; [by split|]. eexists (_ :: evs). simpl in *.
    split; [by rewrite Hl, <- app_assoc|]. split; [by constructor | done]. }
  assert (forall keyToFind branchName type fileName onSubmit,
    chooseRepoToRun keyToFind branchName type fileName onSubmit w = (w', Ok tt) ->
    SharedTo [] w w') as Hchooser.
  { intros keyToFind branchName type fileName onSubmit Hrun.
    apply call_Ok in Hrun as [_ ->]. split; [by split|].
    eexists. split; [reflexivity|]. split; [by repeat constructor | done]. }
  destruct h; simpl; eauto using shareFolderRepo_shared, shareOneNote_captured_shared.
  intros Hrun. unfold shareOneNoteWith in Hrun.
  bind_inv Hrun as publisher w1 H1. apply call_Ok in H1 as [_ ->].
  bind_inv Hrun as r w2 H2. gets_inv H2.
  bind_inv H2 as d w3 H3. apply call_Ok in H3 as [Hd ->]. injection H2 as <- <-.
  apply call_Ok in Hrun as [_ ->]. simpl in Hd. rewrite Hd.
  split; [by split|]. eexists. split; [simpl; rewrite <- !app_assoc; reflexivity|].
  split; [by repeat constructor | reflexivity].
Qed.

(** X7. Once the user has picked a repository in the chooser, a callback that
    returns has shared exactly once, to the repository picked. *)
Theorem runCallback_shares_once cb item w w' :
  runCallback cb item w = (w', Ok tt) -> SharedTo [Some item] w w'.
Proof.
  destruct cb; simpl; eauto using shareFolderRepo_shared, shareOneNote_captured_shared.
Qed.

End Firing.

Section Lookups.
Context `{Collaborators}.

Abbreviation translates := (fun c => isTranslate c = true).
Abbreviation looksUp := (fun c => isLookup c = true).

Lemma titleOn_translates L options : Inv translates L (titleOn options).
Proof. unfold titleOn, translate. repeat inv_step. Qed.

Lemma defaultSmartKey_translates L : Inv translates L defaultSmartKey.
Proof. unfold defaultSmartKey, translate. repeat inv_step. Qed.

Lemma titleOnDefault_translates L doc : Inv translates L (titleOnDefault doc).
Proof.
  unfold titleOnDefault.
  repeat first [apply titleOn_translates | apply defaultSmartKey_translates | inv_step].
Qed.

Lemma translates_looksUp {A} L (m : M A) : Inv translates L m -> Inv looksUp L m.
Proof. apply Inv_weaken; [|done]. by intros []. Qed.

Lemma titleField_looksUp L file fm : Inv looksUp L (titleField file fm).
Proof. unfold titleField. repeat inv_step. Qed.

Ltac inv_translates :=
  repeat first
    [ apply titleOn_translates | apply titleOnDefault_translates
    | apply defaultSmartKey_translates | apply setTitleIconOnClick_Inv | inv_step ].

Ltac inv_looksUp :=
  repeat first
    [ apply translates_looksUp;
      first [ apply titleOn_translates | apply titleOnDefault_translates
            | apply defaultSmartKey_translates ]
    | apply titleField_looksUp | apply setTitleIconOnClick_Inv | inv_step ].

Lemma addSubMenuCommandsFolder_translates L item folder branchName originalMenu :
  Inv translates L (addSubMenuCommandsFolder item folder branchName originalMenu).
Proof. unfold addSubMenuCommandsFolder, translate. inv_translates. Qed.

Lemma addMenuFolder_translates L menu folder branchName :
  Inv translates L (addMenuFolder menu folder branchName).
Proof.
  unfold addMenuFolder, addSeparator, setTitle, setIcon, setIsLabel, setSection.
  repeat first [apply addSubMenuCommandsFolder_translates | inv_translates].
Qed.

Lemma subMenuCommandsFile_looksUp L item file branchName repo originalMenu :
  Inv looksUp L (subMenuCommandsFile item file branchName repo originalMenu).
Proof. unfold subMenuCommandsFile, fileCache, translate. inv_looksUp. Qed.

Lemma singleTarget_looksUp L st fm key : Inv looksUp L (singleTarget st fm key).
Proof. unfold singleTarget. repeat inv_step. Qed.

Lemma smartKeyOf_looksUp L key : Inv looksUp L (smartKeyOf key).
Proof. unfold smartKeyOf. inv_looksUp. Qed.

(** What follows the frontmatter in [addMenuFile]. *)
Lemma addMenuFile_rest_looksUp L file branchName menu frontmatter :
  Inv looksUp L
    (st ← gets settings;
     getSharedKey ← call (CGetRepoSharedKey st frontmatter)
                         (getRepoSharedKey st frontmatter);
     allKeysFromFile ← call (CMultipleSharedKey frontmatter st)
                            (multipleSharedKey frontmatter st);
     shared ← call (CIsShared frontmatter st file getSharedKey)
                   (isShared frontmatter st file getSharedKey);
     if shared && PluginSettings.fileMenu (plugin st)
     then
       repoFrontmatter ← call (CGetRepoFrontmatter st getSharedKey frontmatter)
                              (getRepoFrontmatter st getSharedKey frontmatter);
       addItem menu (fun item =>
         if bool_decide (1 < length allKeysFromFile)
            || isArrayLongerThanOne repoFrontmatter
         then
           desktop ← gets isDesktop;
           (if desktop : bool
            then setTitle item "Github Publisher";; setIcon item "upload-cloud"
            else addSeparator menu;; setIsLabel item true);;
           subMenuCommandsFile item file branchName getSharedKey menu;;
           mret tt
         else
           cache ← fileCache file;
           fileName ← titleField file (frontmatterIn cache);
           getSharedKey ← singleTarget st frontmatter getSharedKey;
           smartKey ← smartKeyOf getSharedKey;
           title ← titleOn [("doc", fileName); ("smartKey", smartKey)];
           setTitleIconOnClick item title "file-up"
             (OnClickFileSingle branchName file getSharedKey fileName))
     else mret tt).
Proof.
  unfold fileCache, addSeparator, setTitle, setIcon, setIsLabel.
  repeat first
    [ apply subMenuCommandsFile_looksUp | apply singleTarget_looksUp
    | apply smartKeyOf_looksUp | inv_looksUp ].
Qed.

Lemma frontmatterOf_looksUp file : Inv looksUp nullFrontmatter (frontmatterOf file).
Proof. unfold frontmatterOf, fileCache. repeat inv_step. Qed.

Lemma frontmatterOf_present file :
  cacheEntryPresent file -> Inv looksUp noError (frontmatterOf file).
Proof.
  unfold cacheEntryPresent, frontmatterOf, fileCache. intros Hpresent.
  destruct (isTFile file); [|apply Inv_ret].
  destruct (getFileCache file) as [[c|]|e] eqn:Ec.
  - intros w. exists [Returned (CGetFileCache file)]. rewrite run_bind. simpl.
    split; [done|]. split; [|apply Grows_with_log]. split; by repeat constructor.
  - by destruct Hpresent.
  - intros w. exists [Raised (CGetFileCache file) e]. rewrite run_bind. simpl.
    split; [done|]. split; [|apply Grows_with_log].
    split; [by repeat constructor|]. exists []. split; [constructor | eauto].
Qed.

(** X9. The file menu is built from lookups alone: the metadata cache, the
    helpers that read the settings and the frontmatter, the title field and
    translations.  Whatever they answer, neither [addMenuFile] nor
    [subMenuCommandsFile] reloads the Octokit client, touches the status
    bar, lists a folder, opens the chooser or shares. *)
Theorem file_menu_only_looks_up :
  (forall file branchName menu,
     CallsOnly isLookup (addMenuFile file branchName menu)) /\
  (forall item file branchName repo originalMenu,
     CallsOnly isLookup (subMenuCommandsFile item file branchName repo originalMenu)).
Proof.
  split; intros.
  - intros w. apply (Inv_logged looksUp nullFrontmatter).
    unfold addMenuFile.
    apply Inv_bind; [apply frontmatterOf_looksUp | intros frontmatter].
    apply addMenuFile_rest_looksUp.
  - intros w. apply (Inv_logged looksUp noError), subMenuCommandsFile_looksUp.
Qed.

(** X10. The folder menu is built from the settings and from translations alone:
    whatever they answer, [addMenuFolder] and [addSubMenuCommandsFolder] call
    nothing but [i18next.t]. *)
Theorem folder_menu_only_translates :
  (forall menu folder branchName,
     CallsOnly isTranslate (addMenuFolder menu folder branchName)) /\
  (forall item folder branchName originalMenu,
     CallsOnly isTranslate
       (addSubMenuCommandsFolder item folder branchName originalMenu)).
Proof.
  split; intros; intros w; apply (Inv_logged translates noError).
  - apply addMenuFolder_translates.
  - apply addSubMenuCommandsFolder_translates.
Qed.

(** X11. The [TypeError] on a missing cache entry is the only error [addMenuFile]
    raises itself: for a folder, or for a file whose cache lookup does not
    answer [null], a run that ends with an error ends with the error of the
    collaborator that raised, which is the last call it made. *)
Theorem addMenuFile_cached_raises_nothing file branchName menu :
  cacheEntryPresent file ->
  Propagates noError (addMenuFile file branchName menu).
Proof.
  intros Hpresent. unfold Propagates, addMenuFile.
  apply (Inv_weaken looksUp _ noError); [done | done |].
  apply Inv_bind; [by apply frontmatterOf_present | intros frontmatter].
  apply addMenuFile_rest_looksUp.
Qed.

End Lookups.

Section Frame.
Context (n k : nat) (menu : menu_id).

Lemma Untouched_refl w :
  n <= length (items w) -> k <= length (menus w) -> Untouched n k menu w w.
Proof. by split. Qed.

Lemma Untouched_trans w1 w2 w3 :
  Untouched n k menu w1 w2 -> Untouched n k menu w2 w3 -> Untouched n k menu w1 w3.
Proof.
  intros [i1 l1 k1 m1] [i2 l2 k2 m2]. split; [congruence|done|done|].
  intros j Hj Hne. by rewrite m2, m1.
Qed.

Lemma Keeps_silent {A} (Q : A -> Prop) (m : M A) :
  (forall w, n <= length (items w) -> k <= length (menus w) ->
     exists w' a, m w = (w', Ok a) /\ Untouched n k menu w w' /\ Q a) ->
  Keeps n k menu Q m.
Proof.
  intros Hm w Hn Hk. destruct (Hm w Hn Hk) as (w' & a & -> & Hu & Ha).
  split; [done|]. by intros a' [= <-].
Qed.

Lemma Keeps_ret {A} (Q : A -> Prop) a : Q a -> Keeps n k menu Q (mret a).
Proof.
  intros Ha. apply Keeps_silent. intros w Hn Hk. exists w, a.
  auto using Untouched_refl.
Qed.

Lemma Keeps_gets {A} (Q : A -> Prop) (f : World -> A) :
  (forall w, n <= length (items w) -> k <= length (menus w) -> Q (f w)) ->
  Keeps n k menu Q (gets f).
Proof.
  intros Hf. apply Keeps_silent. intros w Hn Hk. exists w, (f w).
  auto using Untouched_refl.
Qed.

Lemma Keeps_weaken {A} (P Q : A -> Prop) (m : M A) :
  (forall a, P a -> Q a) -> Keeps n k menu P m -> Keeps n k menu Q m.
Proof. intros HPQ Hm w Hn Hk. destruct (Hm w Hn Hk). split; auto. Qed.

Lemma Keeps_throw {A} (Q : A -> Prop) e : Keeps n k menu Q (@throw A e).
Proof. intros w Hn Hk. split; [by apply Untouched_refl | discriminate]. Qed.

Lemma Keeps_call {A} c (r : Result A) : Keeps n k menu (fun _ => True) (call c r).
Proof.
  intros w Hn Hk. unfold call. destruct r; (split; [by split | done]).
Qed.

Lemma Keeps_bind {A B} (P : A -> Prop) (Q : B -> Prop) (m : M A) (f : A -> M B) :
  Keeps n k menu P m -> (forall a, P a -> Keeps n k menu Q (f a)) ->
  Keeps n k menu Q (m ≫= f).
Proof.
  intros Hm Hf w Hn Hk. rewrite run_bind.
  destruct (Hm w Hn Hk) as [Hu Ha].
  destruct (m w) as [w1 [a|e]]; simpl in *; [|by split].
  destruct (Hf a (Ha a eq_refl) w1) as [Hu' Hb]; [apply Hu..|].
  split; [by eapply Untouched_trans | done].
Qed.

Lemma Keeps_setItem f item :
  n <= item -> Keeps n k menu (fun _ => True) (setItem f item).
Proof.
  intros Hi. apply Keeps_silent. intros w Hn Hk. eexists _, tt.
  split; [reflexivity|]. split; [|done]. split; simpl; auto.
  - by apply take_alter_ge.
  - by rewrite length_alter.
Qed.

Lemma Keeps_push menu' e :
  menu' = menu \/ k <= menu' -> Keeps n k menu (fun _ => True) (push menu' e).
Proof.
  intros Hm. apply Keeps_silent. intros w Hn Hk. eexists _, tt.
  split; [reflexivity|]. split; [|done]. split; simpl; auto.
  - by rewrite length_alter.
  - intros j Hj Hne. apply list_lookup_alter_ne. lia.
Qed.

Lemma Keeps_new_item x :
  Keeps n k menu (fun _ => True) (modify (with_items (fun l => l ++ [x]))).
Proof.
  apply Keeps_silent. intros w Hn Hk. eexists _, tt.
  split; [reflexivity|]. split; [|done]. split; simpl; auto.
  - by apply take_app_le.
  - rewrite length_app. lia.
Qed.

Lemma Keeps_new_menu :
  Keeps n k menu (fun _ => True) (modify (with_menus (fun ms => ms ++ [[]]))).
Proof.
  apply Keeps_silent. intros w Hn Hk. eexists _, tt.
  split; [reflexivity|]. split; [|done]. split; simpl; auto.
  - rewrite length_app. lia.
  - intros j Hj Hne. apply lookup_app_l. lia.
Qed.

Lemma Keeps_forEach {A} (l : list A) (f : A -> M unit) :
  (forall x, Keeps n k menu (fun _ => True) (f x)) ->
  Keeps n k menu (fun _ => True) (forEach l f).
Proof.
  intros Hf. induction l as [|x l IH]; simpl.
  - by apply Keeps_ret.
  - eapply Keeps_bind; [apply Hf | auto].
Qed.

Lemma Keeps_addItem menu' cb :
  menu' = menu \/ k <= menu' ->
  (forall item, n <= item -> Keeps n k menu (fun _ => True) (cb item)) ->
  Keeps n k menu (fun _ => True) (addItem menu' cb).
Proof.
  intros Hm Hcb. unfold addItem.
  apply (Keeps_bind (fun item => n <= item)); [by apply Keeps_gets | intros item Hi].
  eapply Keeps_bind; [apply Keeps_new_item | intros _ _].
  eapply Keeps_bind; [by apply Keeps_push | intros _ _]. by apply Hcb.
Qed.

Lemma Keeps_setSubmenu item :
  n <= item -> Keeps n k menu (fun sub => k <= sub) (setSubmenu item).
Proof.
  intros Hi. unfold setSubmenu.
  apply (Keeps_bind (fun sub => k <= sub)); [by apply Keeps_gets | intros sub Hs].
  eapply Keeps_bind; [apply Keeps_new_menu | intros _ _].
  eapply Keeps_bind; [by apply Keeps_setItem | intros _ _]. by apply Keeps_ret.
Qed.

End Frame.

(** One step of a proof that the older items and the other menus stay. *)
Ltac keeps_step :=
  lazymatch goal with
  | |- Keeps _ _ _ _ (mret _) => by apply Keeps_ret
  | |- Keeps _ _ _ _ (gets _) => by apply Keeps_gets
  | |- Keeps _ _ _ _ (call _ _) =>
      eapply Keeps_weaken; [|apply Keeps_call]; done
  | |- Keeps _ _ _ _ (throw _) => apply Keeps_throw
  | |- Keeps _ _ _ _ (addItem _ _) =>
      apply Keeps_addItem; [by auto | intros ? ?]
  | |- Keeps _ _ _ _ (forEach _ _) => apply Keeps_forEach; intros ?
  | |- Keeps _ _ _ _ (setItem _ _) => by apply Keeps_setItem
  | |- Keeps _ _ _ _ (push _ _) => apply Keeps_push; by auto
  | |- Keeps _ _ _ _ (_ ≫= _) =>
      eapply (Keeps_bind _ _ _ (fun _ => True)); [|intros ? _]
  | |- Keeps _ _ _ _ (if ?b then _ else _) => destruct b
  | |- Keeps _ _ _ _ (match ?x with _ => _ end) => destruct x
  end.

Section Frames.
Context `{Collaborators}.
Context (n k : nat) (menu : menu_id).

Lemma titleOn_Keeps options : Keeps n k menu (fun _ => True) (titleOn options).
Proof. unfold titleOn, translate. repeat keeps_step. Qed.

Lemma defaultSmartKey_Keeps : Keeps n k menu (fun _ => True) defaultSmartKey.
Proof. unfold defaultSmartKey, translate. repeat keeps_step. Qed.

Lemma titleOnDefault_Keeps doc : Keeps n k menu (fun _ => True) (titleOnDefault doc).
Proof.
  unfold titleOnDefault.
  repeat first [apply titleOn_Keeps | apply defaultSmartKey_Keeps | keeps_step].
Qed.

Lemma titleField_Keeps file fm : Keeps n k menu (fun _ => True) (titleField file fm).
Proof. unfold titleField. repeat keeps_step. Qed.

Lemma setTitleIconOnClick_Keeps item title icon h :
  n <= item -> Keeps n k menu (fun _ => True) (setTitleIconOnClick item title icon h).
Proof.
  intros Hi. unfold setTitleIconOnClick, setTitle, setIcon, onClick.
  repeat keeps_step.
Qed.

Lemma opens_Keeps (desktop : bool) item :
  n <= item ->
  Keeps n k menu (fun sub => sub = menu \/ k <= sub)
    (if desktop then setSubmenu item else mret menu).
Proof.
  intros Hi. destruct desktop.
  - eapply Keeps_weaken; [|by apply Keeps_setSubmenu]. auto.
  - apply Keeps_ret. auto.
Qed.

Ltac keeps_menu :=
  repeat first
    [ apply titleOn_Keeps | apply titleOnDefault_Keeps | apply defaultSmartKey_Keeps
    | apply titleField_Keeps | by apply setTitleIconOnClick_Keeps | keeps_step ].

Lemma addSubMenuCommandsFolder_Keeps item folder branchName :
  n <= item ->
  Keeps n k menu (fun _ => True) (addSubMenuCommandsFolder item folder branchName menu).
Proof.
  intros Hi. unfold addSubMenuCommandsFolder, translate.
  keeps_step; [keeps_step|].
  eapply Keeps_bind; [by apply opens_Keeps | intros subMenu Hsub].
  keeps_menu.
Qed.

Lemma subMenuCommandsFile_Keeps item file branchName repo :
  n <= item ->
  Keeps n k menu (fun _ => True) (subMenuCommandsFile item file branchName repo menu).
Proof.
  intros Hi. unfold subMenuCommandsFile, fileCache, translate.
  keeps_step; [keeps_step|]. keeps_step; [keeps_menu|].
  keeps_step; [keeps_step|].
  eapply Keeps_bind; [by apply opens_Keeps | intros subMenu Hsub].
  keeps_menu.
Qed.

Lemma addMenuFolder_Keeps folder branchName :
  Keeps n k menu (fun _ => True) (addMenuFolder menu folder branchName).
Proof.
  unfold addMenuFolder, addSeparator, setTitle, setIcon, setIsLabel, setSection.
  repeat first [by apply addSubMenuCommandsFolder_Keeps | keeps_menu].
Qed.

Lemma addMenuFile_Keeps file branchName :
  Keeps n k menu (fun _ => True) (addMenuFile file branchName menu).
Proof.
  unfold addMenuFile, frontmatterOf, fileCache, singleTarget, smartKeyOf,
    addSeparator, setTitle, setIcon, setIsLabel.
  repeat first [by apply subMenuCommandsFile_Keeps | keeps_menu].
Qed.

End Frames.

Section Appending.
Context `{Collaborators}.

Lemma OnlyAppendsTo_intro {A} (m : M A) P L menu w :
  Inv P L m ->
  Keeps (length (items w)) (length (menus w)) menu (fun _ => True) m ->
  OnlyAppendsTo menu w (m w).1.
Proof.
  intros Hinv Hkeeps.
  destruct (Hinv w) as (evs & _ & _ & [Hs Hd _ Hm]).
  destruct (Hkeeps w) as [[Hi _ _ Ho] _]; [done..|].
  split; [done|done| | |done].
  - exists (drop (length (items w)) (items (m w).1)).
    rewrite <- (take_drop (length (items w)) (items (m w).1)) at 1.
    by rewrite Hi, firstn_all.
  - unfold entriesOf. destruct (menus w !! menu) as [es|] eqn:Ees; simpl.
    + destruct (Hm _ _ Ees) as (es' & ->). by exists es'.
    + by eexists.
Qed.

(** X12. Whatever the collaborators answer and however the run ends, the two
    functions that the file-menu event calls leave the store as it was but
    for what they add: the settings and the platform are not written, every
    item that existed is unchanged (the new ones follow them), the menu
    passed in keeps its entries in front of the added ones, and no other
    menu that existed is touched. *)
Theorem menu_functions_only_append :
  (forall file branchName menu w,
     OnlyAppendsTo menu w (addMenuFile file branchName menu w).1) /\
  (forall menu folder branchName w,
     OnlyAppendsTo menu w (addMenuFolder menu folder branchName w).1).
Proof.
  split; intros.
  - eapply OnlyAppendsTo_intro; [apply addMenuFile_Inv | apply addMenuFile_Keeps].
  - eapply OnlyAppendsTo_intro; [apply addMenuFolder_Inv | apply addMenuFolder_Keeps].
Qed.

End Appending.

Section SingleEntries.
Context `{Collaborators}.

Lemma defaultSmartKey_result w1 w2 smartKey :
  defaultSmartKey w1 = (w2, Ok smartKey) ->
  exists d, i18next_t "common.default" [] = Ok d /\ smartKey = toUpperCase d.
Proof.
  unfold defaultSmartKey. intros Hrun. bind_inv Hrun as d w3 Hd.
  apply call_Ok in Hd as [Hd _]. injection Hrun as _ <-. eauto.
Qed.

Lemma smartKeyOf_result target w1 w2 smartKey :
  smartKeyOf target w1 = (w2, Ok smartKey) -> smartKeyResult target = Ok smartKey.
Proof.
  unfold smartKeyOf, smartKeyResult. intros Hrun.
  destruct target as [r|]; [case_bool_decide|].
  - apply defaultSmartKey_result in Hrun as (d & -> & ->). done.
  - by injection Hrun as _ <-.
  - apply defaultSmartKey_result in Hrun as (d & -> & ->). done.
Qed.

(** X4. The single entry of a file names the repository its click shares to: its
    title is the translation for the title field of the file, without
    ".md", and the upper-cased smart key of the target; when there is no
    target, or its smart key is empty, the translation of "common.default"
    stands for it.  The entry is an action item with the icon "file-up" and
    no section. *)
Theorem addMenuFile_single_title menu file branchName w w' fm key allKeys rf :
  Resolved (settings w) file fm key allKeys true ->
  PluginSettings.fileMenu (plugin (settings w)) = true ->
  getRepoFrontmatter (settings w) key fm = Ok rf ->
  severalChoices allKeys rf = false ->
  addMenuFile file branchName menu w = (w', Ok tt) ->
  exists cache title target smartKey t,
    getFileCache file = Ok cache /\
    getTitleFieldForCommand file (frontmatterIn cache) = Ok title /\
    SingleTarget (settings w) fm key target /\
    smartKeyResult target = Ok smartKey /\
    i18next_t "commands.shareViewFiles.multiple.on"
      [("doc", str_replace ".md" "" title); ("smartKey", smartKey)] = Ok t /\
    items w'
    = items w ++ [actionItem t "file-up"
                    (OnClickFileSingle branchName file target
                       (str_replace ".md" "" title))].
Proof.
  intros [Efm Ekey Eall Esh] Hfile Hrf Hsev Hrun. unfold addMenuFile in Hrun.
  bind_inv Hrun as fm' wa Hfm.
  destruct (frontmatterOf_run file w) as [evs Hfm']. rewrite Hfm' in Hfm.
  injection Hfm as <- Efm'. rewrite Efm in Efm'. injection Efm' as <-.
  gets_inv Hrun. simpl in Hrun.
  bind_inv Hrun as key' wb Hkey. apply call_Ok in Hkey as [Ekey' ->].
  rewrite Ekey in Ekey'. injection Ekey' as <-.
  bind_inv Hrun as allKeys' wc Hall. apply call_Ok in Hall as [Eall' ->].
  rewrite Eall in Eall'. injection Eall' as <-.
  bind_inv Hrun as shared wd Hsh. apply call_Ok in Hsh as [Esh' ->].
  rewrite Esh in Esh'. injection Esh' as <-.
  rewrite Hfile in Hrun. simpl in Hrun.
  bind_inv Hrun as rf' we Hrf'. apply call_Ok in Hrf' as [Erf ->].
  rewrite Hrf in Erf. injection Erf as <-.
  set (wx := with_log _ _) in Hrun.
  assert (Hi : items wx = items w) by done. clearbody wx.
  rewrite run_addItem in Hrun. unfold severalChoices in Hsev. rewrite Hsev in Hrun.
  unfold fileCache, titleField in Hrun.
  bind_inv Hrun as cache w1 Hc. apply call_Ok in Hc as [Ec ->].
  bind_inv Hrun as fileName w2 Hn.
  bind_inv Hn as title w3 Ht. apply call_Ok in Ht as [Et ->].
  injection Hn as <- <-.
  bind_inv Hrun as target w4 Htg.
  apply singleTarget_Ok in Htg as [[_ _ Hi4 _] Htg].
  bind_inv Hrun as smartKey w5 Hsk.
  pose proof (smartKeyOf_result _ _ _ _ Hsk) as Esk.
  apply (LogOnly_SameHeap _ _ _ _ (smartKeyOf_LogOnly _)) in Hsk as [_ _ Hi5 _].
  bind_inv Hrun as t w6 Htt.
  pose proof (translate_result _ _ _ _ _ Htt) as Ett.
  apply (LogOnly_SameHeap _ _ _ _ (titleOn_LogOnly _)) in Htt as [_ _ Hi6 _].
  injection Hrun as <-.
  exists cache, title, target, smartKey, t. repeat (split; [done|]).
  simpl. rewrite Hi6, Hi5, Hi4. simpl. by rewrite !alter_last, Hi.
Qed.

(** X5. The single entry of a folder: an action item in the section "action",
    with the icon "folder-up", titled by the translation for the name of the
    folder and the upper-cased translation of "common.default". *)
Theorem addMenuFolder_single_entry menu folder branchName w w' :
  menu < length (menus w) ->
  otherRepo (github (settings w)) = [] ->
  addMenuFolder menu folder branchName w = (w', Ok tt) ->
  exists t,
    titleOnDefaultResult (name folder) = Ok t /\
    items w'
    = items w ++ [sectionItem "action" t "folder-up"
                    (OnClickFolderSingle folder branchName)] /\
    entriesOf w' menu = entriesOf w menu ++ [EItem (length (items w))].
Proof.
  intros Hmenu Hnone Hrun. apply addMenuFolder_Ok in Hrun; [|done].
  rewrite Hnone in Hrun. simpl in Hrun.
  destruct Hrun as (t & w1 & w2 & Ht & Hi & Hm). exists t.
  split; [by apply titleOnDefault_result in Ht|]. split; [done|].
  unfold entriesOf. rewrite Hm, list_lookup_alter.
  destruct (lookup_lt_is_Some_2 (menus w) menu Hmenu) as [es ->].
  by rewrite decide_True.
Qed.

End SingleEntries.

Section Order.
Context `{Collaborators}.

Lemma SharesLast_cons ev evs :
  isReturned ev = true -> isShare (callOf ev) = false ->
  SharesLast evs -> SharesLast (ev :: evs).
Proof.
  intros Hret Hev (pre & Hpre & Hevs). exists (ev :: pre).
  split; [by constructor|].
  destruct Hevs as [->|(last & -> & Hlast)]; [by left|].
  right. exists last. split; [done|]. intros Hs. right. auto.
Qed.

Ltac run_calls :=
  unfold logged; cbv [mbind M_bind bind call gets mret M_ret ret];
  repeat (match goal with
          | |- context [match ?r with Ok _ => _ | Err _ => _ end] => destruct r
          end; cbv beta iota);
  simpl;
  eexists; (split; [rewrite <- ?app_assoc; reflexivity|]).

(** The calls before the last one, [pre], are given by their number. *)
Tactic Notation "shares_last" uconstr(pre) :=
  refine (ex_intro _ pre _); split; cycle 1;
  [ right; eexists; split;
    [ reflexivity | intros Hs; first [by left | discriminate Hs] ]
  | repeat constructor ].

Ltac shares_last_solve :=
  first [ shares_last (@nil Event) | shares_last [_] | shares_last [_; _]
        | shares_last [_; _; _] | shares_last [_; _; _; _]
        | shares_last [_; _; _; _; _] ].

Lemma shareFolderRepo_last folder branchName repo w :
  exists evs,
    logged (shareFolderRepo folder branchName repo) w evs /\ SharesLast evs.
Proof. unfold shareFolderRepo. run_calls; shares_last_solve. Qed.

Lemma shareOneNote_captured_last branchName file repo fileName w :
  exists evs,
    logged (shareOneNoteWith branchName file (mret repo) fileName) w evs /\
    SharesLast evs.
Proof. unfold shareOneNoteWith. run_calls; shares_last_solve. Qed.

(** X8. No share is made before everything it needs is there, and nothing
    is called after a raise.  In every run of [shareFolderRepo], of a click
    handler or of the chooser callback, however it ends, every call before
    the last one returned and is no share; the last call, when it is a share,
    comes after [reloadOctokit] returned.  So when reloading the client,
    adding the status bar item, resolving the repository or its frontmatter,
    or listing the folder raises, the run stops there and nothing is
    shared. *)
Theorem shares_come_last :
  (forall folder branchName repo w,
     exists evs,
       logged (shareFolderRepo folder branchName repo) w evs /\ SharesLast evs) /\
  (forall h w, exists evs, logged (runHandler h) w evs /\ SharesLast evs) /\
  (forall cb item w, exists evs, logged (runCallback cb item) w evs /\ SharesLast evs).
Proof.
  split; [exact shareFolderRepo_last|]. split.
  - intros h w.
    assert (forall folder branchName,
      exists evs,
        logged (st ← gets settings;
                repo ← call (CGetRepoSharedKey st None) (getRepoSharedKey st None);
                shareFolderRepo folder branchName repo) w evs /\
        SharesLast evs) as Hfolder.
    { intros folder branchName. unfold logged. rewrite run_bind. simpl.
      rewrite run_bind. unfold call at 1.
      destruct (getRepoSharedKey (settings w) None) as [repo|e].
      - destruct (shareFolderRepo_last folder branchName repo
                    (with_log (fun l => l ++ [Returned (CGetRepoSharedKey (settings w) None)]) w))
          as (evs & Hl & Hlast).
        exists (Returned (CGetRepoSharedKey (settings w) None) :: evs).
        unfold logged in Hl. rewrite Hl. simpl. rewrite <- app_assoc.
        split; [done|]. by apply SharesLast_cons.
      - eexists [_]. split; [reflexivity | shares_last_solve]. }
    destruct h; simpl;
      eauto using shareFolderRepo_last, shareOneNote_captured_last.
    + unfold chooseRepoToRun. run_calls; shares_last_solve.
    + unfold shareOneNoteWith. run_calls; shares_last_solve.
    + unfold chooseRepoToRun. run_calls; shares_last_solve.
  - intros cb item w.
    destruct cb; simpl; eauto using shareFolderRepo_last, shareOneNote_captured_last.
Qed.

End Order.

Section ErrorsOnTheWay.
Context `{Collaborators}.

(** X13. The host creates the item and puts it in the menu before the callback
    titles it.  When the title of the single entry of a folder cannot be
    translated, [addMenuFolder] ends with the error of [i18next.t] and the
    menu keeps a bare entry: in its section, with no title, no icon and no
    handler. *)
Theorem addMenuFolder_untitled_entry menu folder branchName w e :
  menu < length (menus w) ->
  otherRepo (github (settings w)) = [] ->
  titleOnDefaultResult (name folder) = Err e ->
  (addMenuFolder menu folder branchName w).2 = Err e /\
  items (addMenuFolder menu folder branchName w).1
  = items w ++ [{| title := None; icon := None; isLabel := false;
                   section := Some "action"; callback := None; submenu := None |}] /\
  entriesOf (addMenuFolder menu folder branchName w).1 menu
  = entriesOf w menu ++ [EItem (length (items w))].
Proof.
  intros Hmenu Hnone Herr. unfold addMenuFolder. rewrite run_addItem.
  rewrite run_bind. simpl. rewrite Hnone. simpl.
  unfold titleOnDefaultResult, titleOnResult in Herr.
  assert (forall w0, exists evs,
    titleOnDefault (name folder) w0
    = (with_log (fun l => l ++ evs) w0, Err e)) as Ht.
  { intros w0. unfold titleOnDefault, defaultSmartKey, titleOn, translate.
    rewrite !run_bind. unfold call.
    destruct (i18next_t "common.default" []) as [d|e'].
    - simpl. rewrite Herr. eexists [_; _]. unfold with_log. simpl.
      by rewrite <- !app_assoc.
    - injection Herr as ->. by eexists [_]. }
  rewrite !run_bind. simpl. rewrite !run_bind.
  match goal with
  | |- context [titleOnDefault _ ?w0] => destruct (Ht w0) as [evs ->]
  end.
  simpl. rewrite !alter_last.
  split; [done|]. split; [done|].
  unfold entriesOf. simpl. rewrite list_lookup_alter.
  destruct (lookup_lt_is_Some_2 (menus w) menu Hmenu) as [es ->].
  by rewrite decide_True.
Qed.

End ErrorsOnTheWay.

Section SubmenuLookups.
Context `{Collaborators}.

(** X14. [subMenuCommandsFile] reads the cache and the title field before it
    touches the store: unless both lookups returned, the menus and the items
    are as they were, and no submenu was created. *)
Theorem subMenuCommandsFile_lookups_first item file branchName repo originalMenu w :
  SameHeap w (subMenuCommandsFile item file branchName repo originalMenu w).1 \/
  exists cache title,
    getFileCache file = Ok cache /\
    getTitleFieldForCommand file (frontmatterIn cache) = Ok title.
Proof.
  unfold subMenuCommandsFile, fileCache, titleField. rewrite run_bind.
  unfold call at 1.
  destruct (getFileCache file) as [cache|e] eqn:Ec; [|by left; split].
  rewrite !run_bind. unfold call at 1.
  destruct (getTitleFieldForCommand file (frontmatterIn cache)) as [title|e] eqn:Et.
  - right. by exists cache, title.
  - left. by split.
Qed.

(** X15. The submenu is opened before the repository frontmatter is resolved: when
    [getRepoFrontmatter] raises, [subMenuCommandsFile] ends with its error, no
    entry has been added, and on the desktop the item is left with a new,
    empty submenu. *)
Theorem subMenuCommandsFile_submenu_before_frontmatter
    item file branchName repo originalMenu w cache title e :
  getFileCache file = Ok cache ->
  getTitleFieldForCommand file (frontmatterIn cache) = Ok title ->
  getRepoFrontmatter (settings w) repo (frontmatterIn cache) = Err e ->
  (subMenuCommandsFile item file branchName repo originalMenu w).2 = Err e /\
  OpensSubmenu item originalMenu
    (if isDesktop w then length (menus w) else originalMenu) w
    (subMenuCommandsFile item file branchName repo originalMenu w).1.
Proof.
  intros Ec Et Erf.
  unfold subMenuCommandsFile, fileCache, titleField, setSubmenu, setItem, modify.
  cbv [mbind M_bind bind call gets mret M_ret ret].
  rewrite Ec. cbv beta iota. rewrite Et. cbv beta iota.
  simpl. destruct (isDesktop w) eqn:Ed; simpl; rewrite Erf; simpl.
  all: split; [done|]; split; simpl; rewrite ?Ed; done.
Qed.

End SubmenuLookups.

(** * The claims on the sample vault *)

#[local] Existing Instance Demo.collaborators.

(** C1 does not hold of the code.  For the note shared to the repositories
    alpha and beta, the submenu has one entry titled after each; both run the
    same handler, which shares the note for the [repo] the function was
    called with (here [null], the default repository), not for the
    repository the title names. *)
Theorem subMenuCommandsFile_front_entries_same_target :
  let built :=
    (subMenuCommandsFile 0 (Demo.note "multi.md") "main" None 0
       (Demo.nestedWorld Demo.oneRepo)).1 in
  map (titleOf built) (entriesOf built 1)
  = [Some "Upload note on DEFAULT"; Some "Upload note on ALPHA";
     Some "Upload note on BETA"; Some "Upload on another repository"] /\
  map (handlerOf built) (entriesOf built 1)
  = [Some (OnClickFileDefault "main" (Demo.note "multi.md") "note");
     Some (OnClickFileFront "main" (Demo.note "multi.md") None "note");
     Some (OnClickFileFront "main" (Demo.note "multi.md") None "note");
     Some (OnClickFileChooser None "main" (Demo.note "multi.md") "note")] /\
  List.filter (fun ev => isShare (callOf ev)) (log (click 2 built).1)
  = [Returned (CShareOneNote "main" (Demo.note "multi.md") None "note")] /\
  List.filter (fun ev => isShare (callOf ev)) (log (click 3 built).1)
  = [Returned (CShareOneNote "main" (Demo.note "multi.md") None "note")].
Proof. repeat split; vm_compute; reflexivity. Qed.

(** The draft is not shared: its menu stays empty. *)
Lemma addMenuFile_only_when_shared_witness :
  SameHeap (Demo.world Demo.oneRepo true)
    (addMenuFile (Demo.note "draft.md") "main" 0 (Demo.world Demo.oneRepo true)).1.
Proof.
  apply addMenuFile_only_when_shared.
  intros [(fm & key & Hfm & Hkey & Hshared) _].
  vm_compute in Hfm. injection Hfm as <-.
  vm_compute in Hkey. injection Hkey as <-.
  vm_compute in Hshared. discriminate.
Defined.

(** A note shared to two repositories, on the desktop. *)
Lemma addMenuFile_presents_witness :
  exists choices hs,
    PresentsChoices 0 choices (Demo.world Demo.oneRepo true)
      (addMenuFile (Demo.note "multi.md") "main" 0 (Demo.world Demo.oneRepo true)).1 /\
    map (handlerOf
           (addMenuFile (Demo.note "multi.md") "main" 0 (Demo.world Demo.oneRepo true)).1)
        choices
    = map Some hs /\
    FileSubmenuHandlers Demo.oneRepo (Demo.note "multi.md") "main" None hs.
Proof.
  apply (addMenuFile_presents 0 (Demo.note "multi.md") "main"
           (Demo.world Demo.oneRepo true) _
           (Some Demo.multiFrontmatter) None [] (Many [Demo.alpha; Demo.beta])).
  - simpl. lia.
  - split; reflexivity.
  - reflexivity.
  - reflexivity.
  - vm_compute. reflexivity.
Defined.

(** The same note on another platform: the file has an array of two
    repositories and yet no item gets a submenu. *)
Lemma addMenuFile_inline_counterexample :
  Resolved Demo.oneRepo (Demo.note "multi.md") (Some Demo.multiFrontmatter) None [] true /\
  getRepoFrontmatter Demo.oneRepo None (Some Demo.multiFrontmatter)
  = Ok (Many [Demo.alpha; Demo.beta]) /\
  severalChoices [] (Many [Demo.alpha; Demo.beta]) = true /\
  (addMenuFile (Demo.note "multi.md") "main" 0 (Demo.world Demo.oneRepo false)).2 = Ok tt /\
  ~ HasNestedMenu
      (addMenuFile (Demo.note "multi.md") "main" 0 (Demo.world Demo.oneRepo false)).1.
Proof.
  split; [split; reflexivity|]. do 3 (split; [reflexivity|]).
  unfold HasNestedMenu. rewrite Exists_exists. intros (it & Hin & [sub Hsub]).
  vm_compute in Hin. repeat (apply elem_of_cons in Hin as [->|Hin]; [discriminate|]).
  by apply elem_of_nil in Hin.
Qed.

(** A note without frontmatter, while [wiki] shares every note. *)
Lemma addMenuFile_single_target_witness :
  exists target fileName,
    handlerOf
      (addMenuFile (Demo.note "plain.md") "main" 0 (Demo.world Demo.threeRepos true)).1
      (EItem 0)
    = Some (OnClickFileSingle "main" (Demo.note "plain.md") target fileName) /\
    runHandler (OnClickFileSingle "main" (Demo.note "plain.md") target fileName)
    = shareOneNoteWith "main" (Demo.note "plain.md") (mret target) fileName /\
    TargetResolved Demo.threeRepos None None target.
Proof.
  apply (addMenuFile_single_target 0 (Demo.note "plain.md") "main"
           (Demo.world Demo.threeRepos true) _ None None []
           (One {| RepoFrontmatter.repo := "main" |})).
  - simpl. lia.
  - split; reflexivity.
  - reflexivity.
  - reflexivity.
  - reflexivity.
  - vm_compute. reflexivity.
Defined.

(** C4 as worded does not hold.  The frontmatter of this note has the share
    key, with the value [false]; the note is shared through the key of the
    blog and gets a single entry.  The code tests the value of the key, so the
    target is not the default repository but [wiki], the first repository
    with [shareAll] enabled. *)
Lemma addMenuFile_single_target_counterexample :
  Demo.mixedFrontmatter !! PluginSettings.shareKey (plugin Demo.threeRepos)
  = Some (VBool false) /\
  Resolved Demo.threeRepos (Demo.note "mixed.md") (Some Demo.mixedFrontmatter)
    (Some Demo.blog) [Demo.blog] true /\
  getRepoFrontmatter Demo.threeRepos (Some Demo.blog) (Some Demo.mixedFrontmatter)
  = Ok (One {| RepoFrontmatter.repo := "blog" |}) /\
  severalChoices [Demo.blog] (One {| RepoFrontmatter.repo := "blog" |}) = false /\
  (addMenuFile (Demo.note "mixed.md") "main" 0 (Demo.world Demo.threeRepos true)).2
  = Ok tt /\
  defaultRepo Demo.threeRepos = Ok Demo.main /\
  handlerOf
    (addMenuFile (Demo.note "mixed.md") "main" 0 (Demo.world Demo.threeRepos true)).1
    (EItem 0)
  = Some (OnClickFileSingle "main" (Demo.note "mixed.md") (Some Demo.wiki) "note") /\
  Some Demo.wiki <> Some Demo.main.
Proof.
  split; [reflexivity|]. split; [split; reflexivity|].
  do 5 (split; [vm_compute; reflexivity|]). discriminate.
Qed.

(** A folder on the desktop, two other repositories configured. *)
Lemma addMenuFolder_presents_witness :
  exists choices,
    PresentsChoices 0 choices (Demo.world Demo.threeRepos true)
      (addMenuFolder 0 Demo.docs "main" (Demo.world Demo.threeRepos true)).1 /\
    map (handlerOf (addMenuFolder 0 Demo.docs "main" (Demo.world Demo.threeRepos true)).1)
        choices
    = map Some (folderHandlers Demo.threeRepos Demo.docs "main").
Proof.
  apply (addMenuFolder_presents 0 Demo.docs "main" (Demo.world Demo.threeRepos true)).
  - simpl. lia.
  - vm_compute. reflexivity.
Defined.

(** On another platform, other repositories are configured and yet no item
    gets a submenu: the choices are in the menu itself. *)
Lemma addMenuFolder_inline_counterexample :
  0 < length (otherRepo (github Demo.threeRepos)) /\
  (addMenuFolder 0 Demo.docs "main" (Demo.world Demo.threeRepos false)).2 = Ok tt /\
  ~ HasNestedMenu (addMenuFolder 0 Demo.docs "main" (Demo.world Demo.threeRepos false)).1.
Proof.
  split; [simpl; lia|]. split; [reflexivity|].
  unfold HasNestedMenu. rewrite Exists_exists. intros (it & Hin & [sub Hsub]).
  vm_compute in Hin. repeat (apply elem_of_cons in Hin as [->|Hin]; [discriminate|]).
  by apply elem_of_nil in Hin.
Qed.

(** The folder submenu on the desktop, with [blog] the one repository that
    has shortcuts. *)
Lemma addSubMenuCommandsFolder_entries_witness :
  exists added,
    entriesOf
      (addSubMenuCommandsFolder 0 Demo.docs "main" 0
         (Demo.nestedWorld Demo.threeRepos)).1 1
    = [] ++ added /\
    map (handlerOf
           (addSubMenuCommandsFolder 0 Demo.docs "main" 0
              (Demo.nestedWorld Demo.threeRepos)).1) added
    = map Some (folderHandlers Demo.threeRepos Demo.docs "main").
Proof.
  apply (addSubMenuCommandsFolder_entries 0 Demo.docs "main" 0
           (Demo.nestedWorld Demo.threeRepos)).
  - simpl. lia.
  - vm_compute. reflexivity.
Defined.

(** On another platform the menu the function returns is the original one:
    it holds the label and the separator too, so its entries are not just the
    three kinds of choices. *)
Lemma addSubMenuCommandsFolder_inline_counterexample :
  (addSubMenuCommandsFolder 0 Demo.docs "main" 0
     (Demo.inlineWorld Demo.threeRepos)).2 = Ok 0 /\
  map (handlerOf
         (addSubMenuCommandsFolder 0 Demo.docs "main" 0
            (Demo.inlineWorld Demo.threeRepos)).1)
      (entriesOf
         (addSubMenuCommandsFolder 0 Demo.docs "main" 0
            (Demo.inlineWorld Demo.threeRepos)).1 0)
  <> map Some (folderHandlers Demo.threeRepos Demo.docs "main").
Proof. split; [reflexivity | vm_compute; discriminate]. Qed.

(** A note the cache does not know. *)
Lemma addMenuFile_uncached_raises_witness :
  addMenuFile (Demo.note "uncached.md") "main" 0 (Demo.world Demo.oneRepo true)
  = (with_log (fun l => l ++ [Returned (CGetFileCache (Demo.note "uncached.md"))])
       (Demo.world Demo.oneRepo true),
     Err (TypeError "Cannot read properties of null (reading 'frontmatter')")).
Proof.
  apply (addMenuFile_uncached_raises (H := Demo.collaborators)). reflexivity.
Defined.

(** The file submenu of a note shared to two repositories, on the desktop. *)
Lemma submenu_ends_with_chooser_witness :
  exists e t,
    last (entriesOf
            (subMenuCommandsFile 0 (Demo.note "multi.md") "main" None 0
               (Demo.nestedWorld Demo.threeRepos)).1 1) = Some e /\
    ClickOpensChooser (FileSubmenu (Demo.note "multi.md") None) "main"
      (subMenuCommandsFile 0 (Demo.note "multi.md") "main" None 0
         (Demo.nestedWorld Demo.threeRepos)).1 e /\
    titleOf
      (subMenuCommandsFile 0 (Demo.note "multi.md") "main" None 0
         (Demo.nestedWorld Demo.threeRepos)).1 e = Some t /\
    i18next_t "commands.shareViewFiles.multiple.other" [] = Ok t.
Proof.
  apply (submenu_ends_with_chooser (FileSubmenu (Demo.note "multi.md") None)
           0 "main" 0 (Demo.nestedWorld Demo.threeRepos)).
  - simpl. lia.
  - vm_compute. reflexivity.
Defined.

(** An error on its way out: the translation raises while the single entry of a
    folder is being titled.  The error is the result, and the entry, created
    and put in its section before, stays in the menu without a title. *)
Example addMenuFolder_error_keeps_entry :
  addMenuFolder (H := Demo.untranslated) 0 Demo.docs "main"
    (Demo.world Demo.oneRepo true)
  = ({| settings := Demo.oneRepo; isDesktop := true;
        menus := [[EItem 0]];
        items := [{| title := None; icon := None; isLabel := false;
                     section := Some "action"; callback := None; submenu := None |}];
        log := [Raised (CTranslate "common.default" [])
                  (Thrown "i18next is not initialised")] |},
     Err (Thrown "i18next is not initialised")).
Proof. reflexivity. Qed.

(** * The further properties on the sample vault *)

(** The file submenu of the note shared to two repositories, on the
    desktop. *)
Lemma subMenuCommandsFile_shows_witness :
  exists added cache title rf,
    getFileCache (Demo.note "multi.md") = Ok cache /\
    getTitleFieldForCommand (Demo.note "multi.md") (frontmatterIn cache) = Ok title /\
    getRepoFrontmatter Demo.threeRepos None (frontmatterIn cache) = Ok rf /\
    entriesOf
      (subMenuCommandsFile 0 (Demo.note "multi.md") "main" None 0
         (Demo.nestedWorld Demo.threeRepos)).1 1
    = [] ++ added /\
    Forall2
      (Shows (subMenuCommandsFile 0 (Demo.note "multi.md") "main" None 0
                (Demo.nestedWorld Demo.threeRepos)).1)
      added
      (fileEntries Demo.threeRepos (frontmatterIn cache) None (asArray rf)
         (Demo.note "multi.md") "main" (str_replace ".md" "" title)).
Proof.
  apply (subMenuCommandsFile_shows 0 (Demo.note "multi.md") "main" None 0
           (Demo.nestedWorld Demo.threeRepos)).
  - simpl. lia.
  - vm_compute. reflexivity.
Defined.

(** The folder submenu on another platform: the entries follow the label
    and the separator. *)
Lemma addSubMenuCommandsFolder_shows_witness :
  exists added,
    entriesOf
      (addSubMenuCommandsFolder 0 Demo.docs "main" 0
         (Demo.inlineWorld Demo.threeRepos)).1 0
    = [EItem 0; ESeparator] ++ added /\
    Forall2
      (Shows (addSubMenuCommandsFolder 0 Demo.docs "main" 0
                (Demo.inlineWorld Demo.threeRepos)).1)
      added (folderEntries Demo.threeRepos Demo.docs "main").
Proof.
  apply (addSubMenuCommandsFolder_shows 0 Demo.docs "main" 0
           (Demo.inlineWorld Demo.threeRepos)).
  - simpl. lia.
  - vm_compute. reflexivity.
Defined.

(** A note without frontmatter, while [wiki] shares every note: its entry
    is titled for WIKI. *)
Lemma addMenuFile_single_title_witness :
  exists cache title target smartKey t,
    getFileCache (Demo.note "plain.md") = Ok cache /\
    getTitleFieldForCommand (Demo.note "plain.md") (frontmatterIn cache) = Ok title /\
    SingleTarget Demo.threeRepos None None target /\
    smartKeyResult target = Ok smartKey /\
    i18next_t "commands.shareViewFiles.multiple.on"
      [("doc", str_replace ".md" "" title); ("smartKey", smartKey)] = Ok t /\
    items (addMenuFile (Demo.note "plain.md") "main" 0
             (Demo.world Demo.threeRepos true)).1
    = [] ++ [actionItem t "file-up"
               (OnClickFileSingle "main" (Demo.note "plain.md") target
                  (str_replace ".md" "" title))].
Proof.
  apply (addMenuFile_single_title 0 (Demo.note "plain.md") "main"
           (Demo.world Demo.threeRepos true) _ None None []
           (One {| RepoFrontmatter.repo := "main" |})).
  - split; reflexivity.
  - reflexivity.
  - reflexivity.
  - reflexivity.
  - vm_compute. reflexivity.
Defined.

(** A folder, with no other repository configured. *)
Lemma addMenuFolder_single_entry_witness :
  exists t,
    titleOnDefaultResult (name Demo.docs) = Ok t /\
    items (addMenuFolder 0 Demo.docs "main" (Demo.world Demo.oneRepo true)).1
    = [] ++ [sectionItem "action" t "folder-up" (OnClickFolderSingle Demo.docs "main")] /\
    entriesOf (addMenuFolder 0 Demo.docs "main" (Demo.world Demo.oneRepo true)).1 0
    = [] ++ [EItem 0].
Proof.
  apply (addMenuFolder_single_entry 0 Demo.docs "main" (Demo.world Demo.oneRepo true)).
  - simpl. lia.
  - reflexivity.
  - vm_compute. reflexivity.
Defined.

(** A click on the entry of the folder submenu for [blog]. *)
Lemma runHandler_shares_once_witness :
  SharedTo [Some Demo.blog] (Demo.world Demo.threeRepos true)
    (runHandler (OnClickFolderOther Demo.docs "main" Demo.blog)
       (Demo.world Demo.threeRepos true)).1.
Proof.
  apply (runHandler_shares_once (OnClickFolderOther Demo.docs "main" Demo.blog)
           (Demo.world Demo.threeRepos true)).
  vm_compute. reflexivity.
Defined.

(** The user picks [wiki] in the chooser opened for a note. *)
Lemma runCallback_shares_once_witness :
  SharedTo [Some Demo.wiki] (Demo.world Demo.threeRepos true)
    (runCallback (SubmitFile "main" (Demo.note "shared.md") "note") Demo.wiki
       (Demo.world Demo.threeRepos true)).1.
Proof.
  apply (runCallback_shares_once (SubmitFile "main" (Demo.note "shared.md") "note")
           Demo.wiki (Demo.world Demo.threeRepos true)).
  vm_compute. reflexivity.
Defined.

(** A note the cache knows. *)
Lemma addMenuFile_cached_raises_nothing_witness :
  Propagates noError (addMenuFile (Demo.note "shared.md") "main" 0).
Proof.
  apply (addMenuFile_cached_raises_nothing (Demo.note "shared.md") "main" 0).
  intros _ Hnone. vm_compute in Hnone. discriminate.
Defined.

(** No translation is loaded when the single entry of a folder is titled. *)
Lemma addMenuFolder_untitled_entry_witness :
  (addMenuFolder (H := Demo.untranslated) 0 Demo.docs "main"
     (Demo.world Demo.oneRepo true)).2
  = Err (Thrown "i18next is not initialised") /\
  items (addMenuFolder (H := Demo.untranslated) 0 Demo.docs "main"
           (Demo.world Demo.oneRepo true)).1
  = [] ++ [{| title := None; icon := None; isLabel := false;
              section := Some "action"; callback := None; submenu := None |}] /\
  entriesOf (addMenuFolder (H := Demo.untranslated) 0 Demo.docs "main"
               (Demo.world Demo.oneRepo true)).1 0
  = [] ++ [EItem 0].
Proof.
  apply (addMenuFolder_untitled_entry (H := Demo.untranslated) 0 Demo.docs "main"
           (Demo.world Demo.oneRepo true) (Thrown "i18next is not initialised")).
  - simpl. lia.
  - reflexivity.
  - reflexivity.
Defined.

(** The repository frontmatter cannot be resolved, on the desktop: the item
    is left with an empty submenu. *)
Lemma subMenuCommandsFile_submenu_before_frontmatter_witness :
  (subMenuCommandsFile (H := Demo.unresolved) 0 (Demo.note "multi.md") "main" None 0
     (Demo.nestedWorld Demo.oneRepo)).2
  = Err (Thrown "no repository") /\
  OpensSubmenu 0 0 1 (Demo.nestedWorld Demo.oneRepo)
    (subMenuCommandsFile (H := Demo.unresolved) 0 (Demo.note "multi.md") "main" None 0
       (Demo.nestedWorld Demo.oneRepo)).1.
Proof.
  apply (subMenuCommandsFile_submenu_before_frontmatter (H := Demo.unresolved)
           0 (Demo.note "multi.md") "main" None 0 (Demo.nestedWorld Demo.oneRepo)
           (Some {| frontmatter := Some Demo.multiFrontmatter |}) "note.md"
           (Thrown "no repository")).
  - reflexivity.
  - reflexivity.
  - reflexivity.
Defined.

(** A share key named after a property of [Object.prototype] is found on
    every frontmatter that has no key of that name; a key of its own hides
    the inherited one. *)
Example truthy_at_inherited :
  truthy_at (Some ∅) "constructor" = true /\
  truthy_at (Some {[ "constructor" := VBool false ]}) "constructor" = false /\
  truthy_at (Some ∅) "share" = false /\
  defaultShown
    {| github := {| otherRepo := [] |};
       plugin := {| PluginSettings.shareKey := "constructor";
                    PluginSettings.fileMenu := true;
                    PluginSettings.shareAll := None |} |}
    None (Some ∅) = true.
Proof. repeat split; vm_compute; reflexivity. Qed.
